(** * PDFToStructuredData: a shallow embedding of the document pipeline

    The development follows the Python sources:
    - [src/pdf_processor.py]  (module [PdfProcessor]): the fallback chain of
      text-extraction strategies;
    - [src/extractor.py]      (module [Extractor]): backend dispatch, the
      extraction call and the result sink;
    - [src/utils.py]          (module [Utils]): custom template loading;
    - [pdf_extractor.py]      (module [Cli]): the batch loop.

    Modules [Py] and [PyVal] hold the Python primitives the sources use,
    [PageLayout] words the page layout of an extracted text, and [Samples]
    holds concrete documents, services and disks on which the functions are
    run.

    Python values are modelled as they are used: [str] as [string] (each
    [ascii] is a code point below 256, on which [isspace] and [lower] are
    exact), dictionaries as insertion-ordered association lists, exceptions
    as a class name with the text of [str(e)], and [try]/[except Exception]
    as a catch on a result type. What the program asks of its surroundings
    (the PDF libraries, the extraction service, the process environment,
    the disk) is a record of functions, so every property holds for all
    surroundings. *)

From Stdlib Require Import String Ascii List Bool Arith ZArith Lia Sorted.
From Stdlib Require Import DecimalString.
Import ListNotations.
Set Warnings "-register-all".
Open Scope string_scope.
Open Scope list_scope.

(** ** Python primitives *)

Module Py.

(** *** Exceptions and fallible computations *)

(** An exception object: its class and what [str(e)] prints. *)
Record exn : Type := Exn { exn_class : string; exn_str : string }.

Inductive result (A : Type) : Type :=
| Ok (a : A)
| Raise (e : exn).
Arguments Ok {A} a.
Arguments Raise {A} e.

Definition bind {A B} (m : result A) (k : A -> result B) : result B :=
  match m with
  | Ok a => k a
  | Raise e => Raise e
  end.

(** [try: m except Exception as e: h e] *)
Definition try_except {A} (m : result A) (h : exn -> result A) : result A :=
  match m with
  | Ok a => Ok a
  | Raise e => h e
  end.

Fixpoint mapM {A B} (f : A -> result B) (l : list A) : result (list B) :=
  match l with
  | [] => Ok []
  | x :: xs =>
      bind (f x) (fun y => bind (mapM f xs) (fun ys => Ok (y :: ys)))
  end.

(** *** Strings *)

(** [str.isspace] on one code point below 256: TAB..CR, FS..US, SPACE,
    NEL and NBSP. *)
Definition isspace (c : ascii) : bool :=
  let n := nat_of_ascii c in
  (((9 <=? n) && (n <=? 13)) || ((28 <=? n) && (n <=? 31))
   || (n =? 32) || (n =? 133) || (n =? 160))%nat.

Fixpoint lstrip (s : string) : string :=
  match s with
  | EmptyString => EmptyString
  | String c r => if isspace c then lstrip r else s
  end.

Fixpoint rev (s : string) : string :=
  match s with
  | EmptyString => EmptyString
  | String c r => rev r ++ String c EmptyString
  end.

Definition rstrip (s : string) : string := rev (lstrip (rev s)).

(** [s.strip()] *)
Definition strip (s : string) : string := rstrip (lstrip s).

(** Truth value of a [str]: non-empty. *)
Definition truthy (s : string) : bool :=
  match s with
  | EmptyString => false
  | String _ _ => true
  end.

(** [str.lower] on one code point below 256: A-Z and the Latin-1 capitals
    (0xC0-0xDE without the multiplication sign 0xD7) move up by 32. *)
Definition lower_char (c : ascii) : ascii :=
  let n := nat_of_ascii c in
  if (((65 <=? n) && (n <=? 90))
      || ((192 <=? n) && (n <=? 222) && negb (n =? 215)))%nat
  then ascii_of_nat (n + 32)
  else c.

Fixpoint lower (s : string) : string :=
  match s with
  | EmptyString => EmptyString
  | String c r => String (lower_char c) (lower r)
  end.

(** [s.startswith(p)] *)
Definition startswith (s p : string) : bool := String.prefix p s.

(** [needle in hay] for two strings. *)
Fixpoint contains (needle hay : string) : bool :=
  String.prefix needle hay
  || match hay with
     | EmptyString => false
     | String _ r => contains needle r
     end.

(** [str(n)] for a non-negative [int]. *)
Definition str_of_nat (n : nat) : string :=
  NilZero.string_of_uint (Nat.to_uint n).

(** [sep.join(parts)] *)
Definition join (sep : string) (parts : list string) : string :=
  String.concat sep parts.


(** Every character is white space (true of the empty string). *)
Fixpoint all_space (s : string) : bool :=
  match s with
  | EmptyString => true
  | String c r => isspace c && all_space r
  end.


(** [s[:n]] for [n >= 0]. *)
Fixpoint take (n : nat) (s : string) : string :=
  match n, s with
  | S n', String c r => String c (take n' r)
  | _, _ => EmptyString
  end.

(** [s[n:]] for [n >= 0]. *)
Fixpoint drop (n : nat) (s : string) : string :=
  match n, s with
  | S n', String c r => drop n' r
  | _, _ => s
  end.

(** [s[:k]] for any [int]: a negative [k] counts from the end. *)
Definition slice_to (k : Z) (s : string) : string :=
  if (0 <=? k)%Z then take (Z.to_nat k) s
  else take (Z.to_nat (Z.of_nat (String.length s) + k)) s.

(** [s.rfind(c)] for one character: the last index of [c], if any. *)
Fixpoint rfind (c : ascii) (s : string) : option nat :=
  match s with
  | EmptyString => None
  | String x r =>
      match rfind c r with
      | Some i => Some (S i)
      | None => if (x =? c)%char then Some 0 else None
      end
  end.

(** [s.replace(old, new)] for single characters. *)
Fixpoint replace_char (old new : ascii) (s : string) : string :=
  match s with
  | EmptyString => EmptyString
  | String x r =>
      String (if (x =? old)%char then new else x) (replace_char old new r)
  end.

(** [repr] of a list of strings that need no escaping. *)
Definition repr_str_list (l : list string) : string :=
  "[" ++ String.concat ", " (map (fun s => "'" ++ s ++ "'")%string l) ++ "]".

End Py.

Import Py.

Declare Scope py_scope.
Delimit Scope py_scope with py.
Notation "x <- m ;; k" := (Py.bind m (fun x => k))
  (at level 61, m at next level, right associativity) : py_scope.
Open Scope py_scope.

(** ** pdf_processor.py *)

Module PdfProcessor.

(** A [pathlib.Path], seen through the attributes the program reads:
    [str(p)], [p.name], [p.stem] and [p.suffix]. *)
Record Path : Type := MkPath {
  path_str : string;
  path_name : string;
  path_stem : string;
  path_suffix : string
}.

(** What a page's text call answers: a [str], [None], or an exception. *)
Definition page_call : Type := result (option string).

(** The file system and the three PDF libraries, as the processor sees
    them: whether a path exists, and for each library the outcome of
    opening the document (an exception, or its pages in order). *)
Record World : Type := MkWorld {
  exists_ : Path -> bool;
  pdfplumber_open : Path -> result (list page_call);
  fitz_open : Path -> result (list page_call);
  pypdf2_reader : Path -> result (list page_call)
}.

(** The dictionary every strategy returns:
    [{'text': ..., 'metadata': {'method': ..., 'pages': ...}}]. *)
Record Extracted : Type := MkExtracted {
  text : string;
  method : string;
  pages : nat
}.

(** [f"--- Page {page_num + 1} ---\n{page_text}"] *)
Definition page_block (page_num : nat) (page_text : string) : string :=
  "--- Page " ++ str_of_nat (page_num + 1) ++ " ---" ++ String "010" page_text.

Definition blank_line : string := String "010" (String "010" EmptyString).

Definition none_has_no_strip : exn :=
  Exn "AttributeError" "'NoneType' object has no attribute 'strip'".

(** The page loop of [_extract_with_pdfplumber]: a page contributes when
    its text is truthy ([None] and [''] are skipped). *)
Fixpoint pdfplumber_pages (pgs : list page_call) (page_num : nat)
         (text_content : list string) : result (list string) :=
  match pgs with
  | [] => Ok text_content
  | page :: rest =>
      page_text <- page ;;
      match page_text with
      | Some t =>
          if truthy t
          then pdfplumber_pages rest (S page_num)
                                (text_content ++ [page_block page_num t])
          else pdfplumber_pages rest (S page_num) text_content
      | None => pdfplumber_pages rest (S page_num) text_content
      end
  end.

(** The page loop of [_extract_with_pymupdf] and [_extract_with_pypdf2]:
    a page contributes when [page_text.strip()] is truthy; [None] has no
    [strip] and raises. *)
Fixpoint stripped_pages (pgs : list page_call) (page_num : nat)
         (text_content : list string) : result (list string) :=
  match pgs with
  | [] => Ok text_content
  | page :: rest =>
      page_text <- page ;;
      match page_text with
      | Some t =>
          if truthy (strip t)
          then stripped_pages rest (S page_num)
                              (text_content ++ [page_block page_num t])
          else stripped_pages rest (S page_num) text_content
      | None => Raise none_has_no_strip
      end
  end.

Definition _extract_with_pdfplumber (w : World) (pdf_path : Path)
  : result Extracted :=
  pgs <- pdfplumber_open w pdf_path ;;
  text_content <- pdfplumber_pages pgs 0 [] ;;
  Ok (MkExtracted (join blank_line text_content) "pdfplumber" (length pgs)).

Definition _extract_with_pymupdf (w : World) (pdf_path : Path)
  : result Extracted :=
  pgs <- fitz_open w pdf_path ;;
  text_content <- stripped_pages pgs 0 [] ;;
  Ok (MkExtracted (join blank_line text_content) "pymupdf" (length pgs)).

Definition _extract_with_pypdf2 (w : World) (pdf_path : Path)
  : result Extracted :=
  pgs <- pypdf2_reader w pdf_path ;;
  text_content <- stripped_pages pgs 0 [] ;;
  Ok (MkExtracted (join blank_line text_content) "pypdf2" (length pgs)).

(** A strategy: its [__name__] and the callable. *)
Definition Method : Type := (string * (Path -> result Extracted))%type.

(** [self.extraction_methods], as set by [__init__]. *)
Definition extraction_methods (w : World) : list Method :=
  [ ("_extract_with_pdfplumber", _extract_with_pdfplumber w);
    ("_extract_with_pymupdf", _extract_with_pymupdf w);
    ("_extract_with_pypdf2", _extract_with_pypdf2 w) ].

(** What a run leaves behind: the strategies it called and the lines it
    logged. *)
Inductive event : Type :=
| Called (name : string)
| LogInfo (msg : string)
| LogWarning (msg : string).

(** The [for method in self.extraction_methods] loop with its
    [try]/[except Exception]/[continue]; falling off the end raises. *)
Fixpoint try_methods (methods : list Method) (pdf_path : Path)
  : list event * result Extracted :=
  match methods with
  | [] =>
      ([], Raise (Exn "RuntimeError"
                      ("Failed to extract text from PDF: " ++ path_str pdf_path)))
  | (name, method) :: rest =>
      match method pdf_path with
      | Ok res =>
          if truthy (strip (text res))
          then ([Called name;
                 LogInfo ("Successfully extracted text using " ++ name)],
                Ok res)
          else let (tr, out) := try_methods rest pdf_path in
               (Called name :: tr, out)
      | Raise e =>
          let (tr, out) := try_methods rest pdf_path in
          (Called name
             :: LogWarning ("Failed to extract with " ++ name ++ ": " ++ exn_str e)
             :: tr, out)
      end
  end.

(** [extract_text] over a given list of strategies. *)
Definition extract_text_with (exists_path : Path -> bool)
           (methods : list Method) (pdf_path : Path)
  : list event * result Extracted :=
  if negb (exists_path pdf_path)
  then ([], Raise (Exn "FileNotFoundError"
                       ("PDF file not found: " ++ path_str pdf_path)))
  else if negb (lower (path_suffix pdf_path) =? ".pdf")
  then ([], Raise (Exn "ValueError"
                       ("File is not a PDF: " ++ path_str pdf_path)))
  else try_methods methods pdf_path.

(** [PDFProcessor().extract_text(pdf_path)] *)
Definition extract_text (w : World) (pdf_path : Path)
  : list event * result Extracted :=
  extract_text_with (exists_ w) (extraction_methods w) pdf_path.

(** The strategies a run called, in call order. *)
Fixpoint invoked (tr : list event) : list string :=
  match tr with
  | [] => []
  | Called name :: rest => name :: invoked rest
  | _ :: rest => invoked rest
  end.

(** A strategy outcome the chain passes over: an exception, or text whose
    trimmed form is empty. *)
Definition soft_failure (out : result Extracted) : Prop :=
  match out with
  | Ok res => strip (text res) = ""
  | Raise _ => True
  end.


(** *** batch_extract *)

(** An entry of the dictionary [batch_extract] returns: the dictionary of
    a successful extraction, or
    [{'text': '', 'metadata': {'error': str(e)}, 'error': True}]. *)
Inductive batch_entry : Type :=
| Extraction (res : Extracted)
| Failure (error : string).

(** [entry['text']] *)
Definition entry_text (entry : batch_entry) : string :=
  match entry with
  | Extraction res => text res
  | Failure _ => ""
  end.

(** [results[key] = entry]: an existing key keeps its place. *)
Fixpoint set_entry (results : list (string * batch_entry)) (key : string)
         (entry : batch_entry) : list (string * batch_entry) :=
  match results with
  | [] => [(key, entry)]
  | (k, v) :: rest =>
      if k =? key then (k, entry) :: rest
      else (k, v) :: set_entry rest key entry
  end.

(** The [try]/[except Exception] around one file. *)
Definition batch_entry_of (out : result Extracted) : batch_entry :=
  match out with
  | Ok res => Extraction res
  | Raise e => Failure (exn_str e)
  end.

Fixpoint batch_extract_loop (w : World) (pdf_paths : list Path)
         (results : list (string * batch_entry)) : list (string * batch_entry) :=
  match pdf_paths with
  | [] => results
  | pdf_path :: rest =>
      batch_extract_loop w rest
        (set_entry results (path_str pdf_path)
                   (batch_entry_of (snd (extract_text w pdf_path))))
  end.

(** [PDFProcessor().batch_extract(pdf_paths)] *)
Definition batch_extract (w : World) (pdf_paths : list Path)
  : list (string * batch_entry) :=
  batch_extract_loop w pdf_paths [].

End PdfProcessor.

(** ** Python objects *)

Module PyVal.

(** The values that cross the program's interfaces: JSON-like data and
    attribute-carrying objects of the extraction library. A [float] is
    carried by its printed form; dictionary keys are strings and keep
    insertion order. *)
Inductive pyval : Type :=
| PNone
| PBool (b : bool)
| PInt (z : Z)
| PFloat (repr : string)
| PStr (s : string)
| PList (l : list pyval)
| PDict (d : list (string * pyval))
| PObj (cls : string) (attrs : list (string * pyval)).

(** [type(v).__name__] *)
Definition type_name (v : pyval) : string :=
  match v with
  | PNone => "NoneType"
  | PBool _ => "bool"
  | PInt _ => "int"
  | PFloat _ => "float"
  | PStr _ => "str"
  | PList _ => "list"
  | PDict _ => "dict"
  | PObj cls _ => cls
  end.

(** Lookup of a key in insertion order. *)
Fixpoint assoc (k : string) (d : list (string * pyval)) : option pyval :=
  match d with
  | [] => None
  | (k', v) :: rest => if k' =? k then Some v else assoc k rest
  end.

(** [d[k] = v] on a dictionary: an existing key keeps its place. *)
Fixpoint dict_set (d : list (string * pyval)) (k : string) (v : pyval)
  : list (string * pyval) :=
  match d with
  | [] => [(k, v)]
  | (k', v') :: rest =>
      if k' =? k then (k', v) :: rest else (k', v') :: dict_set rest k v
  end.

Definition attribute_error (v : pyval) (name : string) : exn :=
  Exn "AttributeError"
      ("'" ++ type_name v ++ "' object has no attribute '" ++ name ++ "'").

Definition not_iterable (v : pyval) : exn :=
  Exn "TypeError" ("'" ++ type_name v ++ "' object is not iterable").

Definition not_subscriptable (v : pyval) : exn :=
  Exn "TypeError" ("'" ++ type_name v ++ "' object is not subscriptable").

(** [str(KeyError(k))] is the [repr] of the key. *)
Definition key_error (k : string) : exn :=
  Exn "KeyError" ("'" ++ k ++ "'").

(** [o.name] for the attribute names the program reads; only library
    objects carry them. *)
Definition getattr (o : pyval) (name : string) : result pyval :=
  match o with
  | PObj _ attrs =>
      match assoc name attrs with
      | Some v => Ok v
      | None => Raise (attribute_error o name)
      end
  | _ => Raise (attribute_error o name)
  end.

(** [hasattr(o, name)] *)
Definition hasattr (o : pyval) (name : string) : bool :=
  match getattr o name with
  | Ok _ => true
  | Raise _ => false
  end.

(** [getattr(o, name, default)] *)
Definition getattr_default (o : pyval) (name : string) (default : pyval)
  : pyval :=
  match getattr o name with
  | Ok v => v
  | Raise _ => default
  end.

(** [for x in v]: the items the loop visits. *)
Definition iter (v : pyval) : result (list pyval) :=
  match v with
  | PList l => Ok l
  | PDict d => Ok (map (fun kv => PStr (fst kv)) d)
  | PStr s => Ok (map (fun c => PStr (String c EmptyString))
                      (list_ascii_of_string s))
  | _ => Raise (not_iterable v)
  end.

(** [v.get(k, default)] *)
Definition get (v : pyval) (k : string) (default : pyval) : result pyval :=
  match v with
  | PDict d =>
      match assoc k d with
      | Some x => Ok x
      | None => Ok default
      end
  | _ => Raise (attribute_error v "get")
  end.

(** [v[k]] with a string key. *)
Definition getitem (v : pyval) (k : string) : result pyval :=
  match v with
  | PDict d =>
      match assoc k d with
      | Some x => Ok x
      | None => Raise (key_error k)
      end
  | PList _ =>
      Raise (Exn "TypeError" "list indices must be integers or slices, not str")
  | PStr _ =>
      Raise (Exn "TypeError" "string indices must be integers, not 'str'")
  | _ => Raise (not_subscriptable v)
  end.

(** [k in v] with a string key: a key of a dictionary, an element of a
    list, a substring of a string. *)
Definition has (v : pyval) (k : string) : result bool :=
  match v with
  | PDict d =>
      Ok (match assoc k d with Some _ => true | None => false end)
  | PList l =>
      Ok (existsb (fun x => match x with PStr s => s =? k | _ => false end) l)
  | PStr s => Ok (contains k s)
  | _ => Raise (Exn "TypeError"
                    ("argument of type '" ++ type_name v ++ "' is not iterable"))
  end.

(** [v.items()] *)
Definition items (v : pyval) : result (list (string * pyval)) :=
  match v with
  | PDict d => Ok d
  | _ => Raise (attribute_error v "items")
  end.

(** [len(v)] *)
Definition len (v : pyval) : result Z :=
  match v with
  | PStr s => Ok (Z.of_nat (String.length s))
  | PList l => Ok (Z.of_nat (List.length l))
  | PDict d => Ok (Z.of_nat (List.length d))
  | _ => Raise (Exn "TypeError"
                    ("object of type '" ++ type_name v ++ "' has no len()"))
  end.

(** [v[:100]], evaluated for a log line. *)
Definition slice_head (v : pyval) : result unit :=
  match v with
  | PStr _ | PList _ => Ok tt
  | PDict _ => Raise (Exn "TypeError" "unhashable type: 'slice'")
  | _ => Raise (not_subscriptable v)
  end.


(** [v[k] = x] with a string key; the value after the assignment. *)
Definition setitem (v : pyval) (k : string) (x : pyval) : result pyval :=
  match v with
  | PDict d => Ok (PDict (dict_set d k x))
  | PList _ =>
      Raise (Exn "TypeError" "list indices must be integers or slices, not str")
  | _ =>
      Raise (Exn "TypeError"
                 ("'" ++ type_name v ++ "' object does not support item assignment"))
  end.

End PyVal.

(** ** extractor.py *)

Module Extractor.
Import PyVal.

(** The two model classes of the extraction library. *)
Inductive LanguageModel : Type :=
| OpenAILanguageModel
| GeminiLanguageModel.

Definition get_language_model_type (model_id : string) : LanguageModel :=
  if startswith model_id "gpt-" || contains "gpt" (lower model_id)
  then OpenAILanguageModel
  else if startswith model_id "gemini-" || contains "gemini" (lower model_id)
  then GeminiLanguageModel
  else GeminiLanguageModel.

(** The keyword arguments of [lx.extract]. *)
Record ExtractCall : Type := MkExtractCall {
  text_or_documents : string;
  prompt_description : pyval;
  examples : list pyval;
  model_id : string;
  language_model_type : LanguageModel;
  extraction_passes : pyval;
  max_workers : pyval;
  max_char_buffer : pyval;
  api_key : option string
}.

(** The collaborators of the extractor: the process environment and the
    external extraction service. *)
Record Env : Type := MkEnv {
  getenv : string -> option string;
  lx_extract : ExtractCall -> result pyval
}.

(** [a or b] on two [os.getenv] answers. *)
Definition or_else (a b : option string) : option string :=
  match a with
  | Some s => if truthy s then a else b
  | None => b
  end.

(** The dictionary returned when a run fails. *)
Definition failure_record (e : exn) : pyval :=
  PDict [ ("extractions", PList []);
          ("metadata", PDict [("error", PStr (exn_str e))]);
          ("success", PBool false);
          ("error", PStr (exn_str e)) ].

(** One item of the service's answer, normalized. *)
Definition normalize (extraction : pyval) : result pyval :=
  cls <- getattr extraction "extraction_class" ;;
  txt <- getattr extraction "extraction_text" ;;
  attrs <- getattr extraction "attributes" ;;
  Ok (PDict [ ("class", cls);
              ("text", txt);
              ("attributes", attrs);
              ("confidence", getattr_default extraction "confidence" PNone) ]).

(** The call handed to the service: the credential is the first
    non-empty of three environment variables, the backend follows the
    model identifier. *)
Definition service_call (env : Env) (self_model_id : string) (text : string)
           (prompt : pyval) (exs : list pyval)
           (passes workers buffer : pyval) : ExtractCall :=
  let key := or_else (or_else (getenv env "GOOGLE_API_KEY")
                              (getenv env "OPENAI_API_KEY"))
                     (getenv env "LANGEXTRACT_API_KEY") in
  let lm := get_language_model_type self_model_id in
  MkExtractCall text prompt exs self_model_id lm passes workers buffer key.

(** The inner [try] around the service call: any exception is raised
    again under the prefix ["LangExtract API error: "]. *)
Definition call_service (env : Env) (self_model_id : string) (text : string)
           (prompt : pyval) (exs : list pyval)
           (passes workers buffer : pyval) : result pyval :=
  try_except
    (lx_extract env
       (service_call env self_model_id text prompt exs passes workers buffer))
    (fun lx_error =>
       Raise (Exn "Exception" ("LangExtract API error: " ++ exn_str lx_error))).

(** The items of the service's answer, normalized; an answer without an
    [extractions] attribute has none. *)
Definition process_results (answer : pyval) : result (list pyval) :=
  if hasattr answer "extractions"
  then (coll <- getattr answer "extractions" ;;
        its <- iter coll ;;
        mapM normalize its)
  else Ok [].

(** The dictionary returned when a run succeeds. *)
Definition success_record (self_model_id : string) (text : string)
           (passes : pyval) (extractions : list pyval) : pyval :=
  PDict [ ("extractions", PList extractions);
          ("metadata",
           PDict [ ("model_id", PStr self_model_id);
                   ("extraction_passes", passes);
                   ("total_extractions",
                    PInt (Z.of_nat (List.length extractions)));
                   ("text_length", PInt (Z.of_nat (String.length text))) ]);
          ("success", PBool true) ].

(** [StructuredExtractor(model_id).extract_from_text(...)]: the outer
    [try] turns every exception into the failure record. *)
Definition extract_from_text (env : Env) (self_model_id : string)
           (text : string) (prompt : pyval) (exs : list pyval)
           (passes workers buffer : pyval) : result pyval :=
  try_except
    (_ <- slice_head prompt ;;
     answer <- call_service env self_model_id text prompt exs
                            passes workers buffer ;;
     extractions <- process_results answer ;;
     Ok (success_record self_model_id text passes extractions))
    (fun e => Ok (failure_record e)).

(** One example extraction of a template, as the library's
    [Extraction] object. *)
Definition to_extraction (ext : pyval) : result pyval :=
  cls <- getitem ext "extraction_class" ;;
  txt <- getitem ext "extraction_text" ;;
  attrs <- get ext "attributes" (PDict []) ;;
  Ok (PObj "Extraction" [ ("extraction_class", cls);
                          ("extraction_text", txt);
                          ("attributes", attrs) ]).

(** One example of a template, as the library's [ExampleData] object. *)
Definition to_example (example_data : pyval) : result pyval :=
  exts <- get example_data "extractions" (PList []) ;;
  ext_items <- iter exts ;;
  extractions <- mapM to_extraction ext_items ;;
  txt <- getitem example_data "text" ;;
  Ok (PObj "ExampleData" [ ("text", txt);
                           ("extractions", PList extractions) ]).

(** The prompt and the translated examples of a template. *)
Definition translate_examples (template_config : pyval)
  : result (pyval * list pyval) :=
  prompt <- get template_config "prompt" (PStr "") ;;
  examples_data <- get template_config "examples" (PList []) ;;
  example_items <- iter examples_data ;;
  exs <- mapM to_example example_items ;;
  Ok (prompt, exs).

(** The three settings of a template, with their defaults. *)
Definition template_settings (template_config : pyval)
  : result (pyval * pyval * pyval) :=
  extraction_settings <- get template_config "settings" (PDict []) ;;
  passes <- get extraction_settings "extraction_passes" (PInt 1) ;;
  workers <- get extraction_settings "max_workers" (PInt 10) ;;
  buffer <- get extraction_settings "max_char_buffer" (PInt 1000) ;;
  Ok (passes, workers, buffer).

(** [StructuredExtractor(model_id).extract_with_template(text, template_config)] *)
Definition extract_with_template (env : Env) (self_model_id : string)
           (text : string) (template_config : pyval) : result pyval :=
  try_except
    (pe <- translate_examples template_config ;;
     st <- template_settings template_config ;;
     extract_from_text env self_model_id text (fst pe) (snd pe)
                       (fst (fst st)) (snd (fst st)) (snd st))
    (fun e => Ok (failure_record e)).

(** *** The result sink *)

(** [pd.DataFrame(rows)] for a list of dictionaries: the columns are the
    keys of all rows in order of first appearance, and every row has one
    cell per column, holding the row's value for it or nothing. *)
Record DataFrame : Type := MkDataFrame {
  columns : list string;
  cells : list (list (option pyval))
}.

Definition add_column (cols : list string) (c : string) : list string :=
  if existsb (String.eqb c) cols then cols else cols ++ [c].

Definition union_columns (rows : list (list (string * pyval)))
  : list string :=
  fold_left (fun cols row => fold_left add_column (map fst row) cols) rows [].

Definition DataFrame_of (rows : list (list (string * pyval))) : DataFrame :=
  let cols := union_columns rows in
  MkDataFrame cols (map (fun row => map (fun c => assoc c row) cols) rows).

(** What the sink does to the file system, in order. *)
Inductive fs_event : Type :=
| Mkdir (dir : string)
| OpenW (path : string)
| Write (path : string) (data : string)
| ToCsv (path : string) (df : DataFrame).

(** What a JSON encoder yields for a document when it is iterated: the
    chunks of text, in order, and the exception it stops with when it
    meets something it cannot serialize. *)
Definition encoding : Type := (list string * option exn)%type.

(** The collaborators of the sink: [pathlib] ([Path(p).parent] and
    [Path(d) / name], as strings), the JSON encoders ([iterencode] of the
    encoder [json.dump] makes for [indent=2] and [ensure_ascii=False],
    and for [indent=2] alone; [json.dumps] with [ensure_ascii=False]),
    and the file system, which may refuse an operation depending on what
    was done before. A [ToCsv] event stands for the lines [to_csv] puts
    into the file it has opened: a header line with the columns, then
    one line per row. When the file system refuses it the file stays
    opened and truncated; how many of the lines reached it is not
    recorded. *)
Record SinkEnv : Type := MkSinkEnv {
  parent : string -> string;
  joinpath : string -> string -> string;
  iterencode : pyval -> encoding;
  iterencode_ascii : pyval -> encoding;
  json_dumps : pyval -> result string;
  io_error : list fs_event -> fs_event -> option exn
}.

(** Computations that touch the file system: the events so far go in,
    the events so far go out, with a value or an exception. *)
Definition IO (A : Type) : Type :=
  list fs_event -> list fs_event * result A.

Definition ret {A} (a : A) : IO A := fun tr => (tr, Ok a).

Definition iobind {A B} (m : IO A) (k : A -> IO B) : IO B :=
  fun tr =>
    match m tr with
    | (tr', Ok a) => k a tr'
    | (tr', Raise e) => (tr', Raise e)
    end.

Definition lift {A} (r : result A) : IO A := fun tr => (tr, r).

Definition perform (env : SinkEnv) (ev : fs_event) : IO unit :=
  fun tr =>
    match io_error env tr ev with
    | Some e => (tr, Raise e)
    | None => (tr ++ [ev], Ok tt)
    end.

Fixpoint for_each {A} (l : list A) (body : A -> IO unit) : IO unit :=
  match l with
  | [] => ret tt
  | x :: xs => iobind (body x) (fun _ => for_each xs body)
  end.

(** [json.dump(obj, fp, ...)] is [for chunk in iterable: fp.write(chunk)]:
    every chunk is written as the encoder yields it, so a document the
    encoder gives up on has its beginning in the file. *)
Definition json_dump (env : SinkEnv) (encode : pyval -> encoding)
           (obj : pyval) (fp : string) : IO unit :=
  iobind (for_each (fst (encode obj)) (fun chunk => perform env (Write fp chunk)))
         (fun _ =>
  match snd (encode obj) with
  | Some e => lift (Raise e)
  | None => ret tt
  end).

(** [df.to_csv(path, index=False)]: the library opens the file for
    writing, which empties it, and then writes the table. *)
Definition to_csv (env : SinkEnv) (df : DataFrame) (path : string) : IO unit :=
  iobind (perform env (OpenW path)) (fun _ => perform env (ToCsv path df)).

(** The row of one extraction item: the three fixed columns, then one
    [attr_<key>] column per attribute of the item. *)
Definition csv_row (ext : pyval) : result (list (string * pyval)) :=
  cls <- getitem ext "class" ;;
  txt <- getitem ext "text" ;;
  conf <- get ext "confidence" (PStr "") ;;
  attrs <- get ext "attributes" (PDict []) ;;
  kvs <- items attrs ;;
  Ok (fold_left (fun row kv => dict_set row ("attr_" ++ fst kv) (snd kv))
                kvs
                [("class", cls); ("text", txt); ("confidence", conf)]).

(** The column an attribute gets in a row. *)
Definition attr_column (kv : string * pyval) : string * pyval :=
  (("attr_" ++ fst kv)%string, snd kv).

(** [flat_data], the rows the table is made of. *)
Definition flat_data (results : pyval) : result (list (list (string * pyval))) :=
  exts <- get results "extractions" (PList []) ;;
  its <- iter exts ;;
  mapM csv_row its.

(** The statements inside the [try] of [save_results]. *)
Definition write_results (env : SinkEnv) (results : pyval)
           (output_path : string) (format : string) : IO unit :=
  iobind (perform env (Mkdir (parent env output_path))) (fun _ =>
  if lower format =? "json" then
    iobind (perform env (OpenW output_path)) (fun _ =>
    json_dump env (iterencode env) results output_path)
  else if lower format =? "jsonl" then
    iobind (perform env (OpenW output_path)) (fun _ =>
    iobind (lift (get results "extractions" (PList []))) (fun exts =>
    iobind (lift (iter exts)) (fun its =>
    for_each its (fun extraction =>
      iobind (lift (json_dumps env extraction)) (fun line =>
      perform env (Write output_path (line ++ String "010" EmptyString)))))))
  else if lower format =? "csv" then
    iobind (lift (flat_data results)) (fun rows =>
    to_csv env (DataFrame_of rows) output_path)
  else ret tt).

(** [StructuredExtractor.save_results(results, output_path, format)] *)
Definition save_results (env : SinkEnv) (results : pyval)
           (output_path : string) (format : string)
  : list fs_event -> list fs_event * bool :=
  fun tr =>
    match write_results env results output_path format tr with
    | (tr', Ok _) => (tr', true)
    | (tr', Raise _) => (tr', false)
    end.

(** The events that put output into a file. *)
Definition is_output (path : string) (ev : fs_event) : bool :=
  match ev with
  | OpenW p | Write p _ | ToCsv p _ => p =? path
  | Mkdir _ => false
  end.


(** *** The visualization *)

(** The statements inside the [try] of [generate_visualization];
    [lx_visualize] is the library's [lx.visualize]. Writing something
    that is not a [str] to the opened file raises. *)
Definition render_visualization (env : SinkEnv)
           (lx_visualize : string -> result pyval)
           (jsonl_path : string) (output_html : option string) : IO pyval :=
  iobind (lift (lx_visualize jsonl_path)) (fun html_content =>
  match output_html with
  | Some path =>
      if truthy path
      then
        iobind (perform env (OpenW path)) (fun _ =>
        match html_content with
        | PStr s => iobind (perform env (Write path s)) (fun _ => ret (PStr path))
        | _ =>
            lift (Raise (Exn "TypeError"
                             ("write() argument must be str, not "
                                ++ type_name html_content)))
        end)
      else ret html_content
  | None => ret html_content
  end).

(** [StructuredExtractor.generate_visualization(jsonl_path, output_html)];
    [PNone] is the [None] of the [except] branch. *)
Definition generate_visualization (env : SinkEnv)
           (lx_visualize : string -> result pyval)
           (jsonl_path : string) (output_html : option string)
  : list fs_event -> list fs_event * pyval :=
  fun tr =>
    match render_visualization env lx_visualize jsonl_path output_html tr with
    | (tr', Ok v) => (tr', v)
    | (tr', Raise _) => (tr', PNone)
    end.

End Extractor.

(** ** utils.py *)

Module Utils.
Import PyVal.

(** What opening and parsing a template file gives: an I/O error, a JSON
    syntax error with its message, or the parsed document. *)
Inductive load_outcome : Type :=
| OpenFails (e : exn)
| JsonDecodeError (msg : string)
| Parsed (template : pyval).

(** The template files, as [load_custom_template] sees them. *)
Record TemplateFs : Type := MkTemplateFs {
  template_exists : string -> bool;
  template_load : string -> load_outcome
}.

Definition required_fields : list string := ["name"; "prompt"; "examples"].

(** The validation loop: the first field that is not in the template
    raises. *)
Fixpoint validate_fields (fields : list string) (template : pyval)
  : result unit :=
  match fields with
  | [] => Ok tt
  | field :: rest =>
      present <- has template field ;;
      if negb present
      then Raise (Exn "ValueError"
                      ("Template missing required field: " ++ field))
      else validate_fields rest template
  end.

Definition load_custom_template (fs : TemplateFs) (template_path : string)
  : result pyval :=
  if negb (template_exists fs template_path)
  then Raise (Exn "FileNotFoundError"
                  ("Template file not found: " ++ template_path))
  else
    match template_load fs template_path with
    | OpenFails e => Raise e
    | JsonDecodeError msg =>
        Raise (Exn "ValueError" ("Invalid JSON in template file: " ++ msg))
    | Parsed template =>
        _ <- validate_fields required_fields template ;;
        _ <- get template "name" (PStr "unnamed") ;;
        Ok template
    end.


(** *** validate_output_format *)

Definition supported_formats : list string := ["json"; "jsonl"; "csv"; "html"].

Definition validate_output_format (format_name : string) : result string :=
  let format_name := strip (lower format_name) in
  if negb (existsb (String.eqb format_name) supported_formats)
  then Raise (Exn "ValueError"
                  ("Unsupported format: " ++ format_name ++ ". Supported: "
                     ++ repr_str_list supported_formats))
  else Ok format_name.

(** *** sanitize_filename *)

(** The nine characters of [invalid_chars]: less-than, greater-than,
    colon, double quote, slash, backslash, bar, question mark and
    asterisk. *)
Definition invalid_chars : list ascii :=
  ["<"; ">"; ":"; "034"; "/"; "092"; "|"; "?"; "*"]%char.

(** The loop that replaces each invalid character in turn. *)
Definition replace_invalid (filename : string) : string :=
  fold_left (fun filename char => replace_char char "_" filename)
            invalid_chars filename.

(** [os.path.splitext] (POSIX): the extension starts at the last dot of
    the last path component, unless only dots come before it. *)
Definition splitext (p : string) : string * string :=
  match rfind "." p with
  | None => (p, EmptyString)
  | Some dotIndex =>
      let filenameIndex :=
        match rfind "/" p with
        | Some sepIndex => S sepIndex
        | None => 0
        end in
      if (filenameIndex <=? dotIndex)%nat
         && existsb (fun c => negb (c =? ".")%char)
                    (list_ascii_of_string
                       (take (dotIndex - filenameIndex) (drop filenameIndex p)))
      then (take dotIndex p, drop dotIndex p)
      else (p, EmptyString)
  end.

Definition sanitize_filename (filename : string) : string :=
  let filename := replace_invalid filename in
  if (200 <? String.length filename)%nat
  then let (name, ext) := splitext filename in
       (slice_to (200 - Z.of_nat (String.length ext)) name ++ ext)%string
  else filename.

(** *** find_pdf_files *)

(** A directory tree: whether a directory exists, and what
    [Path(directory).glob(pattern)] lists. *)
Record DirFs : Type := MkDirFs {
  dir_exists : string -> bool;
  glob : string -> string -> list PdfProcessor.Path
}.

Definition find_pdf_files (fs : DirFs) (directory : string)
  : result (list PdfProcessor.Path) :=
  if negb (dir_exists fs directory)
  then Raise (Exn "FileNotFoundError" ("Directory not found: " ++ directory))
  else Ok (glob fs directory "*.pdf" ++ glob fs directory "**/*.pdf").

(** *** API keys *)

(** [os.environ] *)
Definition Environ : Type := string -> option string.

(** [os.environ[name] = value] *)
Definition setenv (environ : Environ) (name value : string) : Environ :=
  fun n => if n =? name then Some value else environ n.

(** Truth value of [os.getenv(name)]. *)
Definition env_set (environ : Environ) (name : string) : bool :=
  match environ name with
  | Some v => truthy v
  | None => false
  end.

Definition get_recommended_model_for_provider (environ : Environ) : string :=
  if env_set environ "OPENAI_API_KEY" then "gpt-3.5-turbo"
  else if env_set environ "GOOGLE_API_KEY" then "gemini-2.5-flash"
  else "gemini-2.5-flash".

(** The tuple [validate_api_key] returns. *)
Record KeyCheck : Type := MkKeyCheck {
  key_ok : bool;
  key_value : option string;
  key_model : option string
}.

Definition end_of_input : exn := Exn "EOFError" "EOF when reading a line".

(** The interactive loop: [answers] are the lines the user will type, one
    per [input] or [getpass] call; reading past them raises
    [EOFError]. The result comes with the environment as the loop leaves
    it. *)
Fixpoint ask_for_key (environ : Environ) (answers : list string)
  : Environ * result KeyCheck :=
  match answers with
  | [] => (environ, Raise end_of_input)
  | choice :: rest =>
      let provider_choice := strip choice in
      if provider_choice =? "1" then
        match rest with
        | [] => (environ, Raise end_of_input)
        | typed :: rest' =>
            let api_key := strip typed in
            if truthy api_key
            then let environ' := setenv environ "GOOGLE_API_KEY" api_key in
                 (environ',
                  Ok (MkKeyCheck true (Some api_key)
                        (Some (get_recommended_model_for_provider environ'))))
            else
              match rest' with
              | [] => (environ, Raise end_of_input)
              | answer :: rest'' =>
                  let r := lower (strip answer) in
                  if negb ((r =? "y") || (r =? "yes"))
                  then (environ, Ok (MkKeyCheck false None None))
                  else ask_for_key environ rest''
              end
        end
      else if provider_choice =? "2" then
        match rest with
        | [] => (environ, Raise end_of_input)
        | typed :: rest' =>
            let api_key := strip typed in
            if truthy api_key
            then let environ' := setenv environ "OPENAI_API_KEY" api_key in
                 (environ',
                  Ok (MkKeyCheck true (Some api_key)
                        (Some (get_recommended_model_for_provider environ'))))
            else
              match rest' with
              | [] => (environ, Raise end_of_input)
              | answer :: rest'' =>
                  let r := lower (strip answer) in
                  if negb ((r =? "y") || (r =? "yes"))
                  then (environ, Ok (MkKeyCheck false None None))
                  else ask_for_key environ rest''
              end
        end
      else
        match rest with
        | [] => (environ, Raise end_of_input)
        | answer :: rest' =>
            let r := lower (strip answer) in
            if negb ((r =? "y") || (r =? "yes"))
            then (environ, Ok (MkKeyCheck false None None))
            else ask_for_key environ rest'
        end
  end.

Definition validate_api_key (environ : Environ) (interactive : bool)
           (answers : list string) : Environ * result KeyCheck :=
  let api_key := Extractor.or_else (environ "GOOGLE_API_KEY")
                                   (environ "OPENAI_API_KEY") in
  match api_key with
  | Some k =>
      if truthy k
      then (environ,
            Ok (MkKeyCheck true api_key
                  (Some (get_recommended_model_for_provider environ))))
      else if negb interactive
      then (environ, Ok (MkKeyCheck false None None))
      else ask_for_key environ answers
  | None =>
      if negb interactive
      then (environ, Ok (MkKeyCheck false None None))
      else ask_for_key environ answers
  end.


(** What the replacement loop does to one character. *)
Definition sanitize_char (c : ascii) : ascii :=
  fold_left (fun x char => if (x =? char)%char then "_"%char else x)
            invalid_chars c.

(** What a key check promises about the environment it leaves. *)
Definition key_check_holds (before after : Environ) (check : KeyCheck) : Prop :=
  (key_ok check = true ->
   exists key,
     key_value check = Some key /\ key <> ""
     /\ (after "GOOGLE_API_KEY" = Some key \/ after "OPENAI_API_KEY" = Some key)
     /\ key_model check = Some (get_recommended_model_for_provider after))
  /\ (key_ok check = false ->
      key_value check = None /\ key_model check = None /\ after = before).

End Utils.

(** ** pdf_extractor.py: the batch loop *)

Module Cli.
Import PyVal PdfProcessor Extractor.

(** Everything a batch run talks to. *)
Record BatchEnv : Type := MkBatchEnv {
  pdf_world : World;
  extractor_env : Env;
  sink_env : SinkEnv
}.

(** The body of the [try] for one file. *)
Definition process_file (env : BatchEnv) (model : string)
           (template_config : pyval) (output_dir format : string)
           (pdf_file : Path) : IO pyval :=
  iobind (lift (snd (extract_text (pdf_world env) pdf_file))) (fun text_result =>
  if negb (truthy (text text_result))
  then ret (PDict [ ("file", PStr (path_name pdf_file));
                    ("status", PStr "failed");
                    ("error", PStr "Failed to extract text from PDF") ])
  else
    iobind (lift (extract_with_template (extractor_env env) model
                                        (text text_result) template_config))
           (fun results =>
    let output_file :=
      joinpath (sink_env env) output_dir
               (path_stem pdf_file ++ "_extracted." ++ format) in
    fun tr =>
      let (tr', success) :=
        save_results (sink_env env) results output_file format tr in
      iobind (lift (exts <- get results "extractions" (PList []) ;; len exts))
             (fun count =>
      ret (PDict [ ("file", PStr (path_name pdf_file));
                   ("status", PStr (if success then "success" else "save_failed"));
                   ("extractions", PInt count);
                   ("output_file",
                    if success then PStr output_file else PNone) ]))
             tr')).

(** One turn of the loop: the [except Exception] records the file with
    status ['error']. *)
Definition batch_step (env : BatchEnv) (model : string)
           (template_config : pyval) (output_dir format : string)
           (pdf_file : Path) (tr : list fs_event) : list fs_event * pyval :=
  match process_file env model template_config output_dir format pdf_file tr with
  | (tr', Ok outcome) => (tr', outcome)
  | (tr', Raise e) =>
      (tr', PDict [ ("file", PStr (path_name pdf_file));
                    ("status", PStr "error");
                    ("error", PStr (exn_str e)) ])
  end.

(** The loop over the files, appending to [results_summary]. *)
Fixpoint batch_loop (env : BatchEnv) (model : string)
         (template_config : pyval) (output_dir format : string)
         (pdf_files : list Path) (results_summary : list pyval)
         (tr : list fs_event) : list fs_event * list pyval :=
  match pdf_files with
  | [] => (tr, results_summary)
  | pdf_file :: rest =>
      let (tr', outcome) :=
        batch_step env model template_config output_dir format pdf_file tr in
      batch_loop env model template_config output_dir format rest
                 (results_summary ++ [outcome]) tr'
  end.

(** The loop followed by the summary report
    [<output_dir>/batch_summary.json]. *)
Definition batch (env : BatchEnv) (model : string)
           (template_config : pyval) (output_dir format : string)
           (pdf_files : list Path) : IO (list pyval) :=
  fun tr =>
    let (tr', results_summary) :=
      batch_loop env model template_config output_dir format pdf_files [] tr in
    let summary_file := joinpath (sink_env env) output_dir "batch_summary.json" in
    iobind (perform (sink_env env) (OpenW summary_file)) (fun _ =>
    iobind (json_dump (sink_env env) (iterencode_ascii (sink_env env))
                      (PList results_summary) summary_file) (fun _ =>
    ret results_summary)) tr'.

(** The ['status'] of an outcome record. *)
Definition status (outcome : pyval) : string :=
  match outcome with
  | PDict d => match assoc "status" d with
               | Some (PStr s) => s
               | _ => ""
               end
  | _ => ""
  end.

(** The ['file'] of an outcome record. *)
Definition file (outcome : pyval) : string :=
  match outcome with
  | PDict d => match assoc "file" d with
               | Some (PStr s) => s
               | _ => ""
               end
  | _ => ""
  end.

(** What the loop records for a file whose text extraction raised. *)
Definition error_outcome (pdf_file : Path) (e : exn) : pyval :=
  PDict [ ("file", PStr (path_name pdf_file));
          ("status", PStr "error");
          ("error", PStr (exn_str e)) ].

(** The outcome of one file: it carries the file's name, its status is
    never ['failed'], and a raised extraction is recorded as an error. *)
Definition recorded (env : BatchEnv) (pdf_file : Path) (outcome : pyval)
  : Prop :=
  file outcome = path_name pdf_file
  /\ status outcome <> "failed"
  /\ (forall e, snd (extract_text (pdf_world env) pdf_file) = Raise e ->
                outcome = error_outcome pdf_file e).


(** The two assignments that put the command line's numbers into the
    template:
    [template_config['settings']['extraction_passes'] = passes] and
    [template_config['settings']['max_workers'] = workers]. The template
    is changed in place; the value returned is the template afterwards. *)
Definition override_settings (template_config : pyval) (passes workers : pyval)
  : result pyval :=
  settings <- getitem template_config "settings" ;;
  settings <- setitem settings "extraction_passes" passes ;;
  settings <- setitem settings "max_workers" workers ;;
  setitem template_config "settings" settings.


(** The model the [extract] command goes on with:
    [if model == 'gemini-2.5-flash' and recommended_model:
     model = recommended_model]. *)
Definition effective_model (model : string) (recommended_model : option string)
  : string :=
  match recommended_model with
  | Some recommended =>
      if (model =? "gemini-2.5-flash") && truthy recommended
      then recommended else model
  | None => model
  end.

End Cli.

(** ** templates.py *)

Module Templates.
Import PyVal.

(** [TemplateManager.get_template], over the dictionary
    [self.built_in_templates] that the constructor has filled. *)
Definition get_template (built_in_templates : list (string * pyval))
           (template_name : string) : result pyval :=
  match assoc template_name built_in_templates with
  | Some template => Ok template
  | None =>
      Raise (Exn "ValueError"
                 ("Template '" ++ template_name ++ "' not found. Available: "
                    ++ repr_str_list (map fst built_in_templates)))
  end.

(** [TemplateManager.list_templates] *)
Definition list_templates (built_in_templates : list (string * pyval))
  : list string :=
  map fst built_in_templates.

End Templates.

(** ** config_manager.py *)

Module ConfigManager.
Import PyVal.

(** The fields of [Config] that [merge_with_cli_args] reads; a field
    holds whatever the configuration file gave. *)
Record Config : Type := MkConfig {
  template_name : pyval;
  custom_template_path : pyval;
  model_name : pyval;
  model_passes : pyval;
  model_workers : pyval;
  output_format : pyval;
  output_directory : pyval;
  output_visualize : pyval;
  processing_verbose : pyval
}.

(** Truth value of a Python value. *)
Definition truth (v : pyval) : bool :=
  match v with
  | PNone => false
  | PBool b => b
  | PInt z => negb (z =? 0)%Z
  | PFloat r => negb ((r =? "0.0") || (r =? "-0.0"))
  | PStr s => truthy s
  | PList l => match l with [] => false | _ => true end
  | PDict d => match d with [] => false | _ => true end
  | PObj _ _ => true
  end.

(** [a or b] *)
Definition or_value (a b : pyval) : pyval := if truth a then a else b.

(** [v is None] *)
Definition is_none (v : pyval) : bool :=
  match v with
  | PNone => true
  | _ => false
  end.

(** [cli_args.get(name)] *)
Definition cli_get (cli_args : list (string * pyval)) (name : string) : pyval :=
  match assoc name cli_args with
  | Some v => v
  | None => PNone
  end.

Definition merge_with_cli_args (config : Config)
           (cli_args : list (string * pyval)) : list (string * pyval) :=
  let merged :=
    [ ("template", or_value (cli_get cli_args "template") (template_name config));
      ("custom_template",
       or_value (cli_get cli_args "custom_template") (custom_template_path config));
      ("model", or_value (cli_get cli_args "model") (model_name config));
      ("passes", or_value (cli_get cli_args "passes") (model_passes config));
      ("workers", or_value (cli_get cli_args "workers") (model_workers config));
      ("format", or_value (cli_get cli_args "format") (output_format config));
      ("output", or_value (cli_get cli_args "output") (output_directory config));
      ("visualize",
       if negb (is_none (cli_get cli_args "visualize"))
       then cli_get cli_args "visualize" else output_visualize config);
      ("verbose",
       if negb (is_none (cli_get cli_args "verbose"))
       then cli_get cli_args "verbose" else processing_verbose config) ] in
  filter (fun kv => negb (is_none (snd kv))) merged.

(** The configured value behind each merged entry that is chosen with
    [or]. *)
Definition configured (config : Config) : list (string * pyval) :=
  [ ("template", template_name config);
    ("custom_template", custom_template_path config);
    ("model", model_name config);
    ("passes", model_passes config);
    ("workers", model_workers config);
    ("format", output_format config);
    ("output", output_directory config) ].

End ConfigManager.

(** ** The page layout of an extracted document, as the specification words it *)

Module PageLayout.
Import PdfProcessor.

(** The three strategies of the chain. *)
Inductive Strategy : Type := Pdfplumber | Pymupdf | Pypdf2.

Definition strategy_method (s : Strategy) : string :=
  match s with
  | Pdfplumber => "pdfplumber"
  | Pymupdf => "pymupdf"
  | Pypdf2 => "pypdf2"
  end.

(** The callable behind each strategy. *)
Definition strategy_callable (w : World) (s : Strategy)
  : Path -> result Extracted :=
  match s with
  | Pdfplumber => _extract_with_pdfplumber w
  | Pymupdf => _extract_with_pymupdf w
  | Pypdf2 => _extract_with_pypdf2 w
  end.

(** The pages the strategy's library reports for a path. *)
Definition library_pages (w : World) (s : Strategy) (p : Path)
  : result (list page_call) :=
  match s with
  | Pdfplumber => pdfplumber_open w p
  | Pymupdf => fitz_open w p
  | Pypdf2 => pypdf2_reader w p
  end.

(** Which page texts a strategy keeps: the first keeps any non-empty text,
    the second and third keep text that is not whitespace only. *)
Definition keeps (s : Strategy) (t : string) : bool :=
  match s with
  | Pdfplumber => truthy t
  | Pymupdf | Pypdf2 => truthy (strip t)
  end.

(** The contributing pages of a document whose first page has number
    [first]: every page with a kept text, with its page number. *)
Definition contributing_from (first : nat) (keep : string -> bool)
           (page_texts : list (option string)) : list (nat * string) :=
  flat_map (fun np : nat * option string =>
              match snd np with
              | Some t => if keep t then [(fst np, t)] else []
              | None => []
              end)
           (combine (seq first (length page_texts)) page_texts).

Definition contributing := contributing_from 1.

(** A page text a strategy leaves out: empty for the first strategy,
    empty once trimmed for the second and third. *)
Definition omitted (s : Strategy) (t : string) : Prop :=
  match s with
  | Pdfplumber => t = ""
  | Pymupdf | Pypdf2 => strip t = ""
  end.

(** One block: the header line ["--- Page N ---"], a newline, the text. *)
Definition header_block (b : nat * string) : string :=
  "--- Page " ++ str_of_nat (fst b) ++ " ---" ++ String "010" (snd b).

(** Blocks separated by a blank line. *)
Definition layout (blocks : list (nat * string)) : string :=
  join blank_line (map header_block blocks).

End PageLayout.

(** ** Concrete documents *)

Module Samples.
Import PdfProcessor.

Definition report_pdf : Path := MkPath "docs/report.pdf" "report.pdf" "report" ".pdf".
Definition scan_pdf : Path := MkPath "docs/scan.PDF" "scan.PDF" "scan" ".PDF".
Definition notes_txt : Path := MkPath "docs/notes.txt" "notes.txt" "notes" ".txt".

Definition cannot_read : exn := Exn "OSError" "cannot read".

Definition nl : string := String "010" EmptyString.

(** What PyMuPDF yields for [report.pdf]: pages 1 and 3. *)
Definition report_text : string :=
  "--- Page 1 ---" ++ nl ++ "A" ++ nl ++ nl ++ "--- Page 3 ---" ++ nl ++ "C".


(** [report.pdf]: pdfplumber raises, PyMuPDF reads three pages of which
    the second is blank, PyPDF2 would read more text. [scan.PDF]: an image
    scan, every library finds only white space. *)
Definition world : World :=
  MkWorld
    (fun p => (path_str p =? "docs/report.pdf") || (path_str p =? "docs/scan.PDF")
              || (path_str p =? "docs/notes.txt"))
    (fun p => if path_str p =? "docs/report.pdf" then Raise cannot_read
              else Ok [Ok None; Ok (Some "")])
    (fun p => if path_str p =? "docs/report.pdf"
              then Ok [Ok (Some "A"); Ok (Some "  "); Ok (Some "C")]
              else Ok [Ok (Some " "); Ok (Some (String "010" ""))])
    (fun p => if path_str p =? "docs/report.pdf"
              then Ok [Ok (Some "A long page"); Ok (Some "B long page");
                       Ok (Some "C long page")]
              else Ok [Ok (Some "   "); Ok None]).


(** A document in which pdfplumber finds a page of two spaces and a page
    without text. *)
Definition blank_pages_world : World :=
  MkWorld (fun _ => true)
          (fun _ => Ok [Ok (Some "  "); Ok None])
          (fun _ => Ok [Ok (Some "Real text"); Ok (Some "More")])
          (fun _ => Ok [Ok (Some "Real text"); Ok (Some "More")]).

(** [letter.pdf]: pdfplumber reads four pages, of which the second has
    no text and the third is empty. *)
Definition letter_pdf : Path := MkPath "docs/letter.pdf" "letter.pdf" "letter" ".pdf".

Definition letter_world : World :=
  MkWorld (fun p => path_str p =? "docs/letter.pdf")
          (fun _ => Ok [Ok (Some "Dear Sir"); Ok None; Ok (Some "");
                        Ok (Some "Yours")])
          (fun _ => Raise cannot_read)
          (fun _ => Raise cannot_read).

(** *** The extraction service *)

Import PyVal Extractor.

Definition invoice_template : pyval :=
  PDict
    [ ("name", PStr "invoice");
      ("prompt", PStr "Extract the invoice number.");
      ("examples",
       PList
         [ PDict
             [ ("text", PStr "Invoice #1");
               ("extractions",
                PList
                  [ PDict [ ("extraction_class", PStr "Invoice");
                            ("extraction_text", PStr "#1");
                            ("attributes", PDict [("number", PStr "1")]) ] ]) ] ]);
      ("settings",
       PDict [ ("extraction_passes", PInt 1);
               ("max_workers", PInt 10);
               ("max_char_buffer", PInt 1000) ]) ].

(** The examples of [invoice_template], and the library objects they
    are translated to. *)
Definition invoice_examples : list pyval :=
  [ PDict
      [ ("text", PStr "Invoice #1");
        ("extractions",
         PList
           [ PDict [ ("extraction_class", PStr "Invoice");
                     ("extraction_text", PStr "#1");
                     ("attributes", PDict [("number", PStr "1")]) ] ]) ] ].

Definition invoice_example_objects : list pyval :=
  [ PObj "ExampleData"
         [ ("text", PStr "Invoice #1");
           ("extractions",
            PList [ PObj "Extraction"
                         [ ("extraction_class", PStr "Invoice");
                           ("extraction_text", PStr "#1");
                           ("attributes", PDict [("number", PStr "1")]) ] ]) ] ].

(** A template whose only example has no ['text']. *)
Definition broken_template : pyval :=
  PDict [ ("name", PStr "broken");
          ("prompt", PStr "Extract.");
          ("examples", PList [ PDict [ ("extractions", PList []) ] ]) ].

Definition found_invoice : pyval :=
  PObj "Extraction" [ ("extraction_class", PStr "Invoice");
                      ("extraction_text", PStr "#7");
                      ("attributes", PDict [("number", PStr "7")]) ].

(** A service that times out on the text ["slow"], answers [None] on the
    text ["none"], answers an item without a class on ["odd"], and finds
    one invoice anywhere else. *)
Definition service : Env :=
  MkEnv
    (fun name => if name =? "GOOGLE_API_KEY" then Some "secret" else None)
    (fun call =>
       if text_or_documents call =? "slow"
       then Raise (Exn "TimeoutError" "timed out")
       else if text_or_documents call =? "none"
       then Ok PNone
       else if text_or_documents call =? "odd"
       then Ok (PObj "AnnotatedDocument"
                     [("extractions", PList [PObj "Extraction" []])])
       else Ok (PObj "AnnotatedDocument"
                     [("extractions", PList [found_invoice])])).


(** *** The disk *)

(** The part of a path before its last slash, if it has one. *)
Fixpoint before_last_slash (s : string) : option string :=
  match s with
  | EmptyString => None
  | String c r =>
      match before_last_slash r with
      | Some d => Some (String c d)
      | None => if (c =? "/")%char then Some EmptyString else None
      end
  end.

Definition not_serializable (v : pyval) : exn :=
  Exn "TypeError"
      ("Object of type " ++ type_name v ++ " is not JSON serializable").

(** A serializer that prints only the type of the document and refuses
    library objects. *)
Definition sketch (v : pyval) : result string :=
  match v with
  | PObj _ _ => Raise (not_serializable v)
  | _ => Ok ("<" ++ type_name v ++ ">")%string
  end.

(** The encoder of [sketch]: the whole of the sketch in one chunk. *)
Definition sketch_chunks (v : pyval) : encoding :=
  match sketch v with
  | Ok doc => ([doc], None)
  | Raise e => ([], Some e)
  end.

(** A disk on which nothing can be created under [/proc]. *)
Definition disk : SinkEnv :=
  MkSinkEnv
    (fun p => match before_last_slash p with Some d => d | None => "." end)
    (fun d name => (d ++ "/" ++ name)%string)
    sketch_chunks sketch_chunks sketch
    (fun _ ev =>
       match ev with
       | Mkdir d =>
           if String.prefix "/proc" d
           then Some (Exn "PermissionError" ("Permission denied: " ++ d))
           else None
       | _ => None
       end).

(** A result with two items whose attribute keys are disjoint. *)
Definition two_items : pyval :=
  PDict
    [ ("extractions",
       PList [ PDict [ ("class", PStr "Invoice"); ("text", PStr "#7");
                       ("attributes", PDict [("number", PStr "7")]);
                       ("confidence", PNone) ];
               PDict [ ("class", PStr "Vendor"); ("text", PStr "Acme");
                       ("attributes", PDict [("city", PStr "Oslo")]);
                       ("confidence", PNone) ] ]);
      ("metadata", PDict []);
      ("success", PBool true) ].

(** The table of [two_items]: five columns, two rows. *)
Definition two_items_table : DataFrame :=
  MkDataFrame
    ["class"; "text"; "confidence"; "attr_number"; "attr_city"]
    [ [ Some (PStr "Invoice"); Some (PStr "#7"); Some PNone;
        Some (PStr "7"); None ];
      [ Some (PStr "Vendor"); Some (PStr "Acme"); Some PNone;
        None; Some (PStr "Oslo") ] ].


(** A disk that refuses nothing. *)
Definition open_disk : SinkEnv :=
  MkSinkEnv
    (fun p => match before_last_slash p with Some d => d | None => "." end)
    (fun d name => (d ++ "/" ++ name)%string)
    sketch_chunks sketch_chunks sketch
    (fun _ _ => None).

(** A result whose second item is a library object, which the serializer
    refuses. *)
Definition half_serializable : pyval :=
  PDict [ ("extractions",
           PList [ PDict [("class", PStr "Invoice")];
                   PObj "Extraction" [];
                   PDict [("class", PStr "Vendor")] ]);
          ("success", PBool true) ].

(** *** A batch of five files *)

Import Utils Cli.

Definition file_a : Path := MkPath "in/a.pdf" "a.pdf" "a" ".pdf".
Definition file_b : Path := MkPath "in/b.pdf" "b.pdf" "b" ".pdf".
Definition file_c : Path := MkPath "in/c.pdf" "c.pdf" "c" ".pdf".
Definition file_d : Path := MkPath "in/d.pdf" "d.pdf" "d" ".pdf".
Definition file_e : Path := MkPath "in/e.pdf" "e.pdf" "e" ".pdf".

Definition five_files : list Path := [file_a; file_b; file_c; file_d; file_e].

(** Every file exists; [c.pdf] is a scan in which no library finds
    text, the others have one page of text. *)
Definition archive : World :=
  MkWorld
    (fun _ => true)
    (fun p => if path_str p =? "in/c.pdf" then Ok [Ok None]
              else Ok [Ok (Some "Invoice #7")])
    (fun p => if path_str p =? "in/c.pdf" then Ok [Ok (Some " ")]
              else Ok [Ok (Some "Invoice #7")])
    (fun p => if path_str p =? "in/c.pdf" then Ok [Ok (Some "")]
              else Ok [Ok (Some "Invoice #7")]).

Definition office : BatchEnv := MkBatchEnv archive service disk.

(** *** Template files *)

Definition templates : TemplateFs :=
  MkTemplateFs
    (fun p => (p =? "t/invoice.json") || (p =? "t/noprompt.json"))
    (fun p => if p =? "t/invoice.json" then Parsed invoice_template
              else if p =? "t/noprompt.json"
              then Parsed (PDict [ ("name", PStr "n"); ("examples", PList []) ])
              else OpenFails cannot_read).

(** A template file that holds the number 5 and nothing else. *)
Definition number_templates : TemplateFs :=
  MkTemplateFs (fun p => p =? "t/five.json")
               (fun _ => Parsed (PInt 5)).

(** A service that is down. *)
Definition down_service : Env :=
  MkEnv (fun _ => None)
        (fun _ => Raise (Exn "ConnectionError" "service unavailable")).

Definition office_down : BatchEnv := MkBatchEnv archive down_service disk.

(** A template file with the three required fields and no settings. *)
Definition bare_templates : TemplateFs :=
  MkTemplateFs (fun p => p =? "t/bare.json")
               (fun _ => Parsed broken_template).

(** *** Environments and directories *)

(** Both provider keys are set. *)
Definition both_keys : Environ :=
  fun name => if name =? "GOOGLE_API_KEY" then Some "g-key"
              else if name =? "OPENAI_API_KEY" then Some "o-key"
              else None.

(** No key is set. *)
Definition no_keys : Environ := fun _ => None.

(** A directory with one PDF at the top and one in a subdirectory; the
    recursive pattern lists both. *)
Definition inbox : DirFs :=
  MkDirFs (fun d => d =? "in")
          (fun _ pattern =>
             if pattern =? "*.pdf" then [file_a]
             else [file_a; MkPath "in/sub/z.pdf" "z.pdf" "z" ".pdf"]).

(** A stem of 250 letters. *)
Definition long_stem : string :=
  string_of_list_ascii (repeat "a"%char 250).

(** An extractor environment in which both provider keys are set. *)
Definition two_providers : Env :=
  MkEnv both_keys (fun _ => Ok PNone).

(** A configuration file that asks for two passes of another model. *)
Definition two_pass_config : ConfigManager.Config :=
  ConfigManager.MkConfig PNone PNone (PStr "gemini-2.5-pro") (PInt 2) (PInt 10)
                         (PStr "csv") PNone (PBool false) (PBool false).

(** The registry of two inline templates. *)
Definition registry : list (string * pyval) :=
  [ ("invoice", invoice_template); ("broken", broken_template) ].

End Samples.

(** * Properties of the text-extraction chain *)

Section StringFacts.

Lemma truthy_true_iff (s : string) : truthy s = true <-> s <> "".
Proof. destruct s; simpl; split; intros; congruence. Qed.

Lemma truthy_false_iff (s : string) : truthy s = false <-> s = "".
Proof. destruct s; simpl; split; intros; congruence. Qed.

End StringFacts.

Section Chain.
Import PdfProcessor PageLayout.

Lemma try_methods_first_success (path : Path) (name : string)
      (m : Path -> result Extracted) (res : Extracted) (post : list Method) :
  m path = Ok res -> strip (text res) <> "" ->
  forall pre : list Method,
    Forall (fun m' => soft_failure (snd m' path)) pre ->
    exists tr, try_methods (pre ++ (name, m) :: post) path = (tr, Ok res)
               /\ invoked tr = map fst pre ++ [name].
Proof.
  intros Hm Hne pre. induction pre as [|[n' m'] pre IH]; intros Hpre.
  - simpl. rewrite Hm.
    apply truthy_true_iff in Hne. rewrite Hne. eexists; split; reflexivity.
  - inversion Hpre as [|x l Hhd Htl]; subst.
    destruct (IH Htl) as [tr [Htr Hinv]].
    simpl in Hhd |- *. destruct (m' path) as [r'|e].
    + rewrite Hhd. simpl. rewrite Htr.
      eexists; split; [reflexivity|]. simpl. now rewrite Hinv.
    + rewrite Htr. eexists; split; [reflexivity|]. simpl. now rewrite Hinv.
Qed.

Lemma try_methods_exhausted (path : Path) :
  forall methods : list Method,
    Forall (fun m' => soft_failure (snd m' path)) methods ->
    snd (try_methods methods path)
    = Raise (Exn "RuntimeError"
                 ("Failed to extract text from PDF: " ++ path_str path)).
Proof.
  induction methods as [|[n m] ms IH]; intros H; [reflexivity|].
  inversion H as [|x l Hhd Htl]; subst. specialize (IH Htl).
  simpl in Hhd |- *. destruct (m path) as [r|e].
  - rewrite Hhd. simpl. destruct (try_methods ms path); exact IH.
  - destruct (try_methods ms path); exact IH.
Qed.

Lemma try_methods_Ok_inv (path : Path) (res : Extracted) :
  forall (methods : list Method) tr,
    try_methods methods path = (tr, Ok res) ->
    exists nm, In nm methods /\ snd nm path = Ok res
               /\ strip (text res) <> "".
Proof.
  induction methods as [|[n m] ms IH]; intros tr H; simpl in H.
  - inversion H.
  - destruct (m path) as [r|e] eqn:Hm.
    + destruct (truthy (strip (text r))) eqn:Ht.
      * inversion H; subst. exists (n, m). simpl.
        repeat split; auto. now apply truthy_true_iff.
      * destruct (try_methods ms path) as [tr' out] eqn:Hrest.
        inversion H; subst. destruct (IH _ eq_refl) as [nm [Hin Hnm]].
        exists nm. split; [now right|exact Hnm].
    + destruct (try_methods ms path) as [tr' out] eqn:Hrest.
      inversion H; subst. destruct (IH _ eq_refl) as [nm [Hin Hnm]].
      exists nm. split; [now right|exact Hnm].
Qed.

Lemma extract_text_with_Ok_inv exists_path methods path tr res :
  extract_text_with exists_path methods path = (tr, Ok res) ->
  try_methods methods path = (tr, Ok res).
Proof.
  unfold extract_text_with.
  destruct (negb (exists_path path)); [discriminate|].
  destruct (negb (lower (path_suffix path) =? ".pdf")); [discriminate|].
  auto.
Qed.

End Chain.

Section Layout.
Import PdfProcessor PageLayout.

Lemma contributing_from_cons first keep (x : option string) texts :
  contributing_from first keep (x :: texts)
  = match x with
    | Some t => if keep t then [(first, t)] else []
    | None => []
    end ++ contributing_from (S first) keep texts.
Proof. reflexivity. Qed.

Lemma page_block_header k t : page_block k t = header_block (S k, t).
Proof. unfold page_block, header_block. simpl fst. now rewrite Nat.add_1_r. Qed.

(** The loop of the first strategy builds the layout's blocks. *)
Lemma pdfplumber_pages_blocks :
  forall pgs k acc tc,
    pdfplumber_pages pgs k acc = Ok tc ->
    exists texts,
      pgs = map Ok texts
      /\ tc = acc ++ map header_block (contributing_from (S k) truthy texts).
Proof.
  induction pgs as [|page rest IH]; intros k acc tc H; simpl in H.
  - inversion H; subst. exists []. simpl. now rewrite app_nil_r.
  - destruct page as [[t|]|e]; simpl in H; try discriminate.
    + destruct (truthy t) eqn:Ht; apply IH in H as [texts [-> ->]];
        exists (Some t :: texts); split; try reflexivity;
        rewrite contributing_from_cons, Ht; [|reflexivity].
      rewrite <- app_assoc. simpl. now rewrite page_block_header.
    + apply IH in H as [texts [-> ->]]. exists (None :: texts). now split.
Qed.

(** The loop of the second and third strategies does, too. *)
Lemma stripped_pages_blocks :
  forall pgs k acc tc,
    stripped_pages pgs k acc = Ok tc ->
    exists texts,
      pgs = map Ok texts
      /\ tc = acc ++ map header_block
                         (contributing_from (S k) (fun t => truthy (strip t)) texts).
Proof.
  induction pgs as [|page rest IH]; intros k acc tc H; simpl in H.
  - inversion H; subst. exists []. simpl. now rewrite app_nil_r.
  - destruct page as [[t|]|e]; simpl in H; try discriminate.
    destruct (truthy (strip t)) eqn:Ht; apply IH in H as [texts [-> ->]];
      exists (Some t :: texts); split; try reflexivity;
      rewrite contributing_from_cons, Ht; [|reflexivity].
    rewrite <- app_assoc. simpl. now rewrite page_block_header.
Qed.

Lemma contributing_from_In first keep texts n t :
  In (n, t) (contributing_from first keep texts)
  <-> first <= n /\ nth_error texts (n - first) = Some (Some t) /\ keep t = true.
Proof.
  revert first. induction texts as [|x texts IH]; intros first.
  - unfold contributing_from. simpl. split; [tauto|].
    intros [_ [H _]]. destruct (n - first); discriminate.
  - rewrite contributing_from_cons, in_app_iff, IH. split.
    + intros [H|[Hle [Hnth Hk]]].
      * destruct x as [t'|]; [|destruct H].
        destruct (keep t') eqn:Hk; [|destruct H].
        destruct H as [H|[]]. inversion H; subst.
        rewrite Nat.sub_diag. simpl. auto.
      * replace (n - first) with (S (n - S first)) by lia.
        simpl. split; [lia|auto].
    + intros [Hle [Hnth Hk]].
      destruct (Nat.eq_dec n first) as [->|Hne].
      * left. rewrite Nat.sub_diag in Hnth. simpl in Hnth.
        inversion Hnth; subst. rewrite Hk. now left.
      * right. replace (n - first) with (S (n - S first)) in Hnth by lia.
        simpl in Hnth. split; [lia|auto].
Qed.

Lemma contributing_from_sorted first keep texts :
  StronglySorted lt (map fst (contributing_from first keep texts)).
Proof.
  revert first. induction texts as [|x texts IH]; intros first.
  - constructor.
  - rewrite contributing_from_cons.
    assert (Hrest : Forall (lt first)
                           (map fst (contributing_from (S first) keep texts))).
    { apply Forall_forall. intros n Hn. apply in_map_iff in Hn.
      destruct Hn as [[n' t] [<- Hin]].
      apply contributing_from_In in Hin. simpl. lia. }
    destruct x as [t|]; [destruct (keep t)|]; simpl; try apply IH.
    constructor; [apply IH|exact Hrest].
Qed.

Lemma contributing_from_length first keep texts :
  length (contributing_from first keep texts) <= length texts.
Proof.
  revert first. induction texts as [|x texts IH]; intros first; [apply Nat.le_refl|].
  rewrite contributing_from_cons, length_app. specialize (IH (S first)).
  destruct x as [t|]; [destruct (keep t)|]; simpl; lia.
Qed.

Lemma strategy_Ok_inv w s p res :
  strategy_callable w s p = Ok res ->
  exists texts,
    library_pages w s p = Ok (map Ok texts)
    /\ text res = layout (contributing (keeps s) texts)
    /\ pages res = length texts
    /\ method res = strategy_method s.
Proof.
  destruct s; simpl; intros H;
    [ unfold _extract_with_pdfplumber in H; destruct (pdfplumber_open w p) as [pgs|] eqn:Ho
    | unfold _extract_with_pymupdf in H; destruct (fitz_open w p) as [pgs|] eqn:Ho
    | unfold _extract_with_pypdf2 in H; destruct (pypdf2_reader w p) as [pgs|] eqn:Ho ];
    simpl in H; try discriminate.
  - destruct (pdfplumber_pages pgs 0 []) as [tc|] eqn:Hl; simpl in H; try discriminate.
    apply pdfplumber_pages_blocks in Hl as [texts [-> ->]].
    inversion H; subst. exists texts. simpl. now rewrite length_map.
  - destruct (stripped_pages pgs 0 []) as [tc|] eqn:Hl; simpl in H; try discriminate.
    apply stripped_pages_blocks in Hl as [texts [-> ->]].
    inversion H; subst. exists texts. simpl. now rewrite length_map.
  - destruct (stripped_pages pgs 0 []) as [tc|] eqn:Hl; simpl in H; try discriminate.
    apply stripped_pages_blocks in Hl as [texts [-> ->]].
    inversion H; subst. exists texts. simpl. now rewrite length_map.
Qed.

Lemma extract_text_Ok_inv w p tr res :
  extract_text w p = (tr, Ok res) ->
  exists s texts,
    library_pages w s p = Ok (map Ok texts)
    /\ text res = layout (contributing (keeps s) texts)
    /\ pages res = length texts
    /\ method res = strategy_method s.
Proof.
  intros H. apply extract_text_with_Ok_inv, try_methods_Ok_inv in H.
  destruct H as [nm [Hin [Hcall _]]].
  destruct Hin as [<-|[<-|[<-|[]]]]; simpl in Hcall.
  - exists Pdfplumber. now apply (strategy_Ok_inv w Pdfplumber).
  - exists Pymupdf. now apply (strategy_Ok_inv w Pymupdf).
  - exists Pypdf2. now apply (strategy_Ok_inv w Pypdf2).
Qed.

End Layout.

Section Blank.

Lemma rev_empty (s : string) : Py.rev s = "" -> s = "".
Proof.
destruct s as [|c r]; simpl; [reflexivity|].
intros H. destruct (Py.rev r); discriminate.
Qed.

Lemma all_space_app (a b : string) :
  all_space (a ++ b) = all_space a && all_space b.
Proof.
induction a as [|c a IH]; simpl; [reflexivity|].
now rewrite IH, andb_assoc.
Qed.

Lemma all_space_rev (s : string) : all_space (Py.rev s) = all_space s.
Proof.
induction s as [|c s IH]; simpl; [reflexivity|].
rewrite all_space_app, IH. simpl. rewrite andb_true_r. apply andb_comm.
Qed.

Lemma all_space_lstrip (s : string) : all_space (lstrip s) = all_space s.
Proof.
induction s as [|c s IH]; simpl; [reflexivity|].
destruct (isspace c) eqn:E; simpl; [exact IH|now rewrite E].
Qed.

Lemma lstrip_empty (s : string) : lstrip s = "" <-> all_space s = true.
Proof.
induction s as [|c s IH]; simpl; [tauto|].
destruct (isspace c); simpl; [exact IH|split; discriminate].
Qed.

(** [s.strip()] is empty exactly when [s] is white space only. *)
Lemma strip_empty_iff (s : string) : strip s = "" <-> all_space s = true.
Proof.
unfold strip, rstrip. split.
- intros H. apply rev_empty, lstrip_empty in H.
  now rewrite all_space_rev, all_space_lstrip in H.
- intros H. apply lstrip_empty in H. now rewrite H.
Qed.

End Blank.

Section Blocks.
Import PdfProcessor PageLayout.

Lemma map_Ok_inj {A} (l l' : list A) :
  map (@Ok A) l = map (@Ok A) l' -> l = l'.
Proof.
revert l'. induction l as [|x l IH]; intros [|y l'] H; simpl in H;
  try discriminate; [reflexivity|].
inversion H. f_equal. now apply IH.
Qed.

Lemma contributing_from_nil first keep texts :
  contributing_from first keep texts = []
  <-> forall t, In (Some t) texts -> keep t = false.
Proof.
revert first. induction texts as [|x texts IH]; intros first.
- split; [intros _ t []|reflexivity].
- rewrite contributing_from_cons. split.
  + intros H t [->|Hin].
    * destruct (keep t); [discriminate|reflexivity].
    * apply app_eq_nil in H. destruct H as [_ H].
      now apply (proj1 (IH (S first)) H).
  + intros H.
    assert (Hrest : contributing_from (S first) keep texts = []).
    { apply IH. intros t Ht. apply H. now right. }
    rewrite Hrest. destruct x as [t|]; [|reflexivity].
    rewrite (H t) by now left. reflexivity.
Qed.

Lemma layout_starts_with_header b bs :
  exists rest, layout (b :: bs) = ("--- Page " ++ rest)%string.
Proof.
unfold layout, join. simpl map. unfold header_block at 1.
destruct (map header_block bs); simpl; eexists; reflexivity.
Qed.

Lemma layout_blank_iff blocks : all_space (layout blocks) = true <-> blocks = [].
Proof.
destruct blocks as [|b bs]; [split; reflexivity|].
destruct (layout_starts_with_header b bs) as [rest ->].
split; [|discriminate]. intros H.
assert (E : forall r, all_space ("--- Page " ++ r) = false) by reflexivity.
rewrite E in H. discriminate.
Qed.

Lemma pdfplumber_pages_run texts :
  forall k acc,
    pdfplumber_pages (map Ok texts) k acc
    = Ok (acc ++ map header_block (contributing_from (S k) truthy texts)).
Proof.
induction texts as [|x texts IH]; intros k acc; simpl.
- now rewrite app_nil_r.
- rewrite contributing_from_cons. destruct x as [t|]; simpl.
  + destruct (truthy t); rewrite IH; [|reflexivity].
    rewrite <- app_assoc. simpl. now rewrite page_block_header.
  + apply IH.
Qed.

Lemma stripped_pages_run texts :
  ~ In None texts ->
  forall k acc,
    stripped_pages (map Ok texts) k acc
    = Ok (acc ++ map header_block
                    (contributing_from (S k) (fun t => truthy (strip t)) texts)).
Proof.
induction texts as [|x texts IH]; intros Hn k acc; simpl.
- now rewrite app_nil_r.
- rewrite contributing_from_cons. destruct x as [t|]; simpl.
  + destruct (truthy (strip t)); rewrite IH by (intros H; apply Hn; now right);
      [|reflexivity].
    rewrite <- app_assoc. simpl. now rewrite page_block_header.
  + elim Hn. now left.
Qed.

Lemma stripped_pages_none texts :
  In None texts ->
  forall k acc, stripped_pages (map Ok texts) k acc = Raise none_has_no_strip.
Proof.
induction texts as [|x texts IH]; intros Hin k acc; [destruct Hin|].
simpl. destruct x as [t|]; [|reflexivity].
destruct Hin as [H|Hin]; [discriminate|].
simpl. destruct (truthy (strip t)); now apply IH.
Qed.

Lemma stripped_pages_stops before rest :
  forall k acc,
    stripped_pages (map (fun t => Ok (Some t)) before ++ Ok None :: rest) k acc
    = Raise none_has_no_strip.
Proof.
induction before as [|t before IH]; intros k acc; simpl; [reflexivity|].
destruct (truthy (strip t)); apply IH.
Qed.

Lemma contributing_from_witness first keep texts b bs :
  contributing_from first keep texts = b :: bs ->
  exists t, In (Some t) texts /\ keep t = true.
Proof.
intros H.
assert (Hin : In (fst b, snd b) (contributing_from first keep texts))
  by (rewrite H; destruct b; now left).
apply contributing_from_In in Hin. destruct Hin as [_ [Hnth Hk]].
exists (snd b). split; [now apply nth_error_In in Hnth|exact Hk].
Qed.

End Blocks.

Section ChainClaims.
Import PdfProcessor PageLayout.

(** C1. First success wins: for a path that exists and names a PDF, and
    any ordered list of strategies, if a strategy returns text whose
    trimmed form is non-empty and every strategy before it raised or
    returned blank text, then [extract_text] returns that strategy's
    output and has called exactly the strategies up to and including it,
    whatever the later ones would return. The processor runs this chain
    on the fixed list pdfplumber, PyMuPDF, PyPDF2. *)
Theorem extract_text_first_success :
  (forall (exists_path : Path -> bool) (pre post : list Method) (m : Method)
          (path : Path) (res : Extracted),
      exists_path path = true ->
      lower (path_suffix path) = ".pdf" ->
      Forall (fun m' => soft_failure (snd m' path)) pre ->
      snd m path = Ok res ->
      strip (text res) <> "" ->
      exists tr,
        extract_text_with exists_path (pre ++ m :: post) path = (tr, Ok res)
        /\ invoked tr = map fst pre ++ [fst m])
  /\ (forall (w : World) (path : Path),
         extract_text w path
         = extract_text_with (exists_ w)
             [ ("_extract_with_pdfplumber", _extract_with_pdfplumber w);
               ("_extract_with_pymupdf", _extract_with_pymupdf w);
               ("_extract_with_pypdf2", _extract_with_pypdf2 w) ] path).
Proof.
  split; [|reflexivity].
  intros exists_path pre post [name m] path res Hex Hpdf Hpre Hm Hne.
  unfold extract_text_with. rewrite Hex, Hpdf. simpl.
  now apply try_methods_first_success.
Qed.

Lemma extract_text_first_success_witness :
  exists tr,
    extract_text Samples.world Samples.report_pdf
    = (tr, Ok (MkExtracted Samples.report_text "pymupdf" 3))
    /\ invoked tr = ["_extract_with_pdfplumber"; "_extract_with_pymupdf"].
Proof.
  rewrite (proj2 extract_text_first_success).
  apply (proj1 extract_text_first_success (exists_ Samples.world)
           [("_extract_with_pdfplumber", _extract_with_pdfplumber Samples.world)]
           [("_extract_with_pypdf2", _extract_with_pypdf2 Samples.world)]
           ("_extract_with_pymupdf", _extract_with_pymupdf Samples.world)).
  - reflexivity.
  - reflexivity.
  - constructor; [exact I|constructor].
  - reflexivity.
  - vm_compute. discriminate.
Defined.

(** C6. Exhaustion: for a path that exists and names a PDF, when each of
    the three strategies raises or returns text whose trimmed form is
    empty, [extract_text] raises the runtime error naming the file; and
    whenever [extract_text] returns, the returned text is not blank. *)
Theorem extract_text_exhausted (w : World) (path : Path) :
  (exists_ w path = true ->
   lower (path_suffix path) = ".pdf" ->
   Forall (fun m => soft_failure (snd m path)) (extraction_methods w) ->
   snd (extract_text w path)
   = Raise (Exn "RuntimeError"
                ("Failed to extract text from PDF: " ++ path_str path)))
  /\ (forall res, snd (extract_text w path) = Ok res -> strip (text res) <> "").
Proof.
  split.
  - intros Hex Hpdf Hall. unfold extract_text, extract_text_with.
    rewrite Hex, Hpdf. simpl negb. cbv iota.
    now apply try_methods_exhausted.
  - intros res H. destruct (extract_text w path) as [tr out] eqn:E.
    simpl in H; subst out.
    apply extract_text_with_Ok_inv, try_methods_Ok_inv in E.
    destruct E as [nm [_ [_ Hne]]]. exact Hne.
Qed.

Lemma extract_text_exhausted_witness :
  snd (extract_text Samples.world Samples.scan_pdf)
  = Raise (Exn "RuntimeError" "Failed to extract text from PDF: docs/scan.PDF").
Proof.
  apply (proj1 (extract_text_exhausted Samples.world Samples.scan_pdf)).
  - reflexivity.
  - reflexivity.
  - repeat constructor.
Defined.

(** C8. Page blocks. Each strategy builds one block per contributing
    page: when the library's page calls all answer (for the second and
    third strategy, none with [None]), the strategy returns as text the
    blank-line-separated concatenation, in page order, of the blocks of
    exactly the pages whose text it keeps; a block is the header line
    "--- Page N ---" with N the page's 1-based number, a newline, and the
    page's text. Every document [extract_text] returns is such a result,
    of the library that succeeded; and the sample letter, read by the
    first strategy, comes out as the blocks of its pages 1 and 4. *)
Theorem extracted_text_page_blocks :
  (forall w s p texts,
      library_pages w s p = Ok (map Ok texts) ->
      s = Pdfplumber \/ ~ In None texts ->
      exists blocks : list (nat * string),
        strategy_callable w s p
        = Ok (MkExtracted
                (String.concat (String "010" (String "010" ""))
                   (map (fun b => ("--- Page " ++ str_of_nat (fst b) ++ " ---"
                                   ++ String "010" (snd b))%string) blocks))
                (strategy_method s) (length texts))
        /\ StronglySorted lt (map fst blocks)
        /\ (forall n t,
               In (n, t) blocks
               <-> 1 <= n /\ nth_error texts (n - 1) = Some (Some t)
                   /\ keeps s t = true))
  /\ (forall w p tr res,
         extract_text w p = (tr, Ok res) ->
         exists (s : Strategy) (texts : list (option string))
                (blocks : list (nat * string)),
           method res = strategy_method s
           /\ library_pages w s p = Ok (map Ok texts)
           /\ text res
              = String.concat (String "010" (String "010" ""))
                  (map (fun b => ("--- Page " ++ str_of_nat (fst b) ++ " ---"
                                  ++ String "010" (snd b))%string) blocks)
           /\ StronglySorted lt (map fst blocks)
           /\ (forall n t,
                  In (n, t) blocks
                  <-> 1 <= n /\ nth_error texts (n - 1) = Some (Some t)
                      /\ keeps s t = true))
  /\ (exists tr,
         extract_text Samples.letter_world Samples.letter_pdf
         = (tr, Ok (MkExtracted
                      (String.concat (String "010" (String "010" ""))
                         [ ("--- Page 1 ---" ++ String "010" "Dear Sir")%string;
                           ("--- Page 4 ---" ++ String "010" "Yours")%string ])
                      "pdfplumber" 4))).
Proof.
  split; [|split].
  - intros w s p texts Hlib Hs.
    exists (contributing (keeps s) texts).
    split; [|split; [apply contributing_from_sorted
                    |intros n t; apply contributing_from_In]].
    destruct s; simpl in Hlib |- *.
    + unfold _extract_with_pdfplumber. rewrite Hlib. simpl.
      rewrite pdfplumber_pages_run. simpl. now rewrite length_map.
    + destruct Hs as [Hs|Hs]; [discriminate|].
      unfold _extract_with_pymupdf. rewrite Hlib. simpl.
      rewrite (stripped_pages_run texts Hs). simpl. now rewrite length_map.
    + destruct Hs as [Hs|Hs]; [discriminate|].
      unfold _extract_with_pypdf2. rewrite Hlib. simpl.
      rewrite (stripped_pages_run texts Hs). simpl. now rewrite length_map.
  - intros w p tr res H. apply extract_text_Ok_inv in H.
    destruct H as [s [texts [Hlib [Htext [_ Hm]]]]].
    exists s, texts, (contributing (keeps s) texts).
    split; [exact Hm|]. split; [exact Hlib|]. split; [exact Htext|].
    split; [apply contributing_from_sorted|].
    intros n t. apply contributing_from_In.
  - eexists. reflexivity.
Qed.

Lemma extracted_text_page_blocks_witness :
  exists blocks : list (nat * string),
    _extract_with_pdfplumber Samples.letter_world Samples.letter_pdf
    = Ok (MkExtracted
            (String.concat (String "010" (String "010" ""))
               (map (fun b => ("--- Page " ++ str_of_nat (fst b) ++ " ---"
                               ++ String "010" (snd b))%string) blocks))
            "pdfplumber" 4)
    /\ StronglySorted lt (map fst blocks)
    /\ (forall n t,
           In (n, t) blocks
           <-> 1 <= n
               /\ nth_error [Some "Dear Sir"; None; Some ""; Some "Yours"] (n - 1)
                  = Some (Some t)
               /\ keeps Pdfplumber t = true).
Proof.
  apply (proj1 extracted_text_page_blocks Samples.letter_world Pdfplumber
               Samples.letter_pdf
               [Some "Dear Sir"; None; Some ""; Some "Yours"]).
  - reflexivity.
  - now left.
Defined.

(** C10. Omitted pages: in a successfully extracted document a page whose
    text is empty (for the second and third strategy: empty once trimmed)
    has no block, every block carries the original 1-based number of its
    page, the reported page count is the number of pages of the document,
    the header numbers increase strictly, and there are at most as many
    blocks as pages; a document exists whose headers are 1 and 3 while
    its page count is 3. *)
Theorem omitted_pages_keep_numbering :
  (forall w p tr res,
      extract_text w p = (tr, Ok res) ->
      exists (s : Strategy) (texts : list (option string)),
        let blocks := contributing (keeps s) texts in
        method res = strategy_method s
        /\ library_pages w s p = Ok (map Ok texts)
        /\ text res = layout blocks
        /\ pages res = length texts
        /\ (forall n t, nth_error texts n = Some (Some t) ->
                        omitted s t -> ~ In (S n) (map fst blocks))
        /\ (forall n t, In (n, t) blocks ->
                        1 <= n <= pages res
                        /\ nth_error texts (n - 1) = Some (Some t))
        /\ StronglySorted lt (map fst blocks)
        /\ length blocks <= pages res)
  /\ (exists w p tr res,
         extract_text w p = (tr, Ok res)
         /\ text res = layout [(1, "A"); (3, "C")]
         /\ pages res = 3).
Proof.
  split.
  - intros w p tr res H. apply extract_text_Ok_inv in H.
    destruct H as [s [texts [Hlib [Htext [Hpages Hm]]]]].
    exists s, texts. cbv zeta.
    split; [exact Hm|]. split; [exact Hlib|]. split; [exact Htext|].
    split; [exact Hpages|]. split; [|split; [|split]].
    + intros n t Hnth Hom Hin. apply in_map_iff in Hin.
      destruct Hin as [[n' t'] [Hn Hin]]. simpl in Hn; subst n'.
      apply contributing_from_In in Hin. destruct Hin as [_ [Hnth' Hk]].
      simpl in Hnth'. rewrite Nat.sub_0_r, Hnth in Hnth'.
      inversion Hnth'; subst t'.
      destruct s; simpl in Hom, Hk; rewrite Hom in Hk; discriminate.
    + intros n t H. apply contributing_from_In in H.
      destruct H as [H1 [H2 _]]. rewrite Hpages.
      assert (n - 1 < length texts) by (apply nth_error_Some; congruence).
      split; [lia|exact H2].
    + apply contributing_from_sorted.
    + rewrite Hpages. apply contributing_from_length.
  - exists Samples.world, Samples.report_pdf. do 2 eexists.
    split; [reflexivity|]. split; reflexivity.
Qed.

Lemma omitted_pages_keep_numbering_witness :
  exists (s : Strategy) (texts : list (option string)),
    let blocks := contributing (keeps s) texts in
    "pymupdf" = strategy_method s
    /\ library_pages Samples.world s Samples.report_pdf = Ok (map Ok texts)
    /\ Samples.report_text = layout blocks
    /\ 3 = length texts
    /\ (forall n t, nth_error texts n = Some (Some t) ->
                    omitted s t -> ~ In (S n) (map fst blocks))
    /\ (forall n t, In (n, t) blocks ->
                    1 <= n <= 3 /\ nth_error texts (n - 1) = Some (Some t))
    /\ StronglySorted lt (map fst blocks)
    /\ length blocks <= 3.
Proof.
  apply (proj1 omitted_pages_keep_numbering Samples.world Samples.report_pdf
           [Called "_extract_with_pdfplumber";
            LogWarning "Failed to extract with _extract_with_pdfplumber: cannot read";
            Called "_extract_with_pymupdf";
            LogInfo "Successfully extracted text using _extract_with_pymupdf"]
           (MkExtracted Samples.report_text "pymupdf" 3)).
  reflexivity.
Defined.

End ChainClaims.

(** * Properties of the extractor *)

Section Dispatch.
Import Extractor.

Lemma prefix_lower (p s : string) :
  String.prefix p s = true -> String.prefix (lower p) (lower s) = true.
Proof.
  revert s. induction p as [|a p IH]; intros s H; [now destruct s|].
  destruct s as [|b s]; simpl in H |- *; [discriminate|].
  destruct (ascii_dec a b) as [->|]; [|discriminate].
  destruct (ascii_dec (lower_char b) (lower_char b)); [auto|congruence].
Qed.

Lemma prefix_app_l (p q s : string) :
  String.prefix (p ++ q) s = true -> String.prefix p s = true.
Proof.
  revert s. induction p as [|a p IH]; intros s H; [now destruct s|].
  destruct s as [|b s]; simpl in H |- *; [discriminate|].
  destruct (ascii_dec a b); [auto|discriminate].
Qed.

Lemma prefix_contains (p s : string) :
  String.prefix p s = true -> contains p s = true.
Proof. intros H. destruct s; simpl in *; rewrite H; reflexivity. Qed.

(** The [startswith('gpt-')] test adds nothing to the substring test. *)
Lemma startswith_gpt_contains (model_id : string) :
  startswith model_id "gpt-" = true -> contains "gpt" (lower model_id) = true.
Proof.
  intros H. apply prefix_contains.
  apply prefix_lower in H. now apply (prefix_app_l "gpt" "-").
Qed.

Lemma dispatch_by_marker (model_id : string) :
  get_language_model_type model_id
  = if contains "gpt" (lower model_id)
    then OpenAILanguageModel else GeminiLanguageModel.
Proof.
  unfold get_language_model_type.
  destruct (contains "gpt" (lower model_id)) eqn:Hc.
  - now rewrite orb_true_r.
  - destruct (startswith model_id "gpt-") eqn:Hs.
    + apply startswith_gpt_contains in Hs. congruence.
    + simpl. now destruct (_ || _).
Qed.

(** C7. Backend dispatch depends only on the lower-cased identifier: an
    identifier containing "gpt" in any letter case goes to the OpenAI
    family, also when it contains "gemini" as well; an identifier without
    "gpt" goes to the Gemini family, whether it contains "gemini" or not;
    identifiers that differ only in letter case go to the same family. *)
Theorem model_dispatch (model_id : string) :
  (contains "gpt" (lower model_id) = true ->
   get_language_model_type model_id = OpenAILanguageModel)
  /\ (contains "gpt" (lower model_id) = true ->
      contains "gemini" (lower model_id) = true ->
      get_language_model_type model_id = OpenAILanguageModel)
  /\ (contains "gpt" (lower model_id) = false ->
      contains "gemini" (lower model_id) = true ->
      get_language_model_type model_id = GeminiLanguageModel)
  /\ (contains "gpt" (lower model_id) = false ->
      contains "gemini" (lower model_id) = false ->
      get_language_model_type model_id = GeminiLanguageModel)
  /\ (forall other : string,
         lower other = lower model_id ->
         get_language_model_type other = get_language_model_type model_id).
Proof.
  repeat split; intros; rewrite ?dispatch_by_marker.
  - now rewrite H.
  - now rewrite H.
  - now rewrite H.
  - now rewrite H.
  - now rewrite H.
Qed.

Lemma model_dispatch_witness :
  get_language_model_type "Gemini-via-GPT-4" = OpenAILanguageModel
  /\ get_language_model_type "GEMINI-2.5-flash" = GeminiLanguageModel
  /\ get_language_model_type "claude-3" = GeminiLanguageModel
  /\ get_language_model_type "gPt-4" = get_language_model_type "GpT-4".
Proof.
  split; [|split; [|split]].
  - apply (proj1 (proj2 (model_dispatch "Gemini-via-GPT-4"))); reflexivity.
  - apply (proj1 (proj2 (proj2 (model_dispatch "GEMINI-2.5-flash")))); reflexivity.
  - apply (proj1 (proj2 (proj2 (proj2 (model_dispatch "claude-3"))))); reflexivity.
  - apply (proj2 (proj2 (proj2 (proj2 (model_dispatch "GpT-4"))))); reflexivity.
Defined.

End Dispatch.

Section Orchestrator.
Import PyVal Extractor.

Lemma try_except_total {A} (m : result A) (h : exn -> A) :
  exists a, try_except m (fun e => Ok (h e)) = Ok a.
Proof. destruct m; simpl; eauto. Qed.

(** An item without one of the three attributes stops normalization. *)
Lemma normalize_needs_attributes (its : list pyval) :
  Exists (fun it => hasattr it "extraction_class" = false
                    \/ hasattr it "extraction_text" = false
                    \/ hasattr it "attributes" = false) its ->
  exists e, mapM normalize its = Raise e.
Proof.
  induction 1 as [it its H|it its H IH].
  - simpl. unfold normalize, hasattr in *.
    destruct (getattr it "extraction_class"); simpl;
      [|eauto].
    destruct (getattr it "extraction_text"); simpl; [|eauto].
    destruct (getattr it "attributes"); simpl; [|eauto].
    destruct H as [H|[H|H]]; discriminate.
  - simpl. destruct (normalize it); simpl; [|eauto].
    destruct IH as [e ->]. simpl. eauto.
Qed.

(** C2 (amended). The extraction call always returns a record. When the
    translation of the template's examples raises, or the normalization
    of the answer raises, the record is the failure record carrying that
    exception's message; when the service call raises, it is the failure
    record carrying the service's message after the prefix "LangExtract
    API error: ". The failure record has success false, the message as
    error, no extractions, and metadata holding the error alone. An
    answer whose [extractions] attribute cannot be iterated, or holds an
    item without a class, text or attributes, gives the failure record;
    an answer that has no [extractions] attribute gives the success
    record with no extractions. *)
Theorem extraction_failures_are_records
        (env : Env) (model : string) (text : string) (template_config : pyval) :
  (exists r, extract_with_template env model text template_config = Ok r)
  /\ (forall e,
         translate_examples template_config = Raise e ->
         extract_with_template env model text template_config
         = Ok (PDict [ ("extractions", PList []);
                       ("metadata", PDict [("error", PStr (exn_str e))]);
                       ("success", PBool false);
                       ("error", PStr (exn_str e)) ]))
  /\ (forall prompt exs passes workers buffer,
         let call := service_call env model text prompt exs passes workers buffer in
         let run := extract_from_text env model text prompt exs passes workers buffer in
         (exists r, run = Ok r)
         /\ (forall e,
                slice_head prompt = Ok tt ->
                lx_extract env call = Raise e ->
                run = Ok (failure_record
                            (Exn "Exception"
                                 ("LangExtract API error: " ++ exn_str e))))
         /\ (forall answer e,
                slice_head prompt = Ok tt ->
                lx_extract env call = Ok answer ->
                process_results answer = Raise e ->
                run = Ok (failure_record e))
         /\ (forall answer coll,
                slice_head prompt = Ok tt ->
                lx_extract env call = Ok answer ->
                getattr answer "extractions" = Ok coll ->
                (forall e, iter coll = Raise e -> run = Ok (failure_record e))
                /\ (forall its,
                       iter coll = Ok its ->
                       Exists (fun it => hasattr it "extraction_class" = false
                                         \/ hasattr it "extraction_text" = false
                                         \/ hasattr it "attributes" = false) its ->
                       exists e, run = Ok (failure_record e)))
         /\ (forall answer,
                slice_head prompt = Ok tt ->
                lx_extract env call = Ok answer ->
                hasattr answer "extractions" = false ->
                run = Ok (success_record model text passes []))).
Proof.
  split; [apply try_except_total|]. split.
  - intros e H. unfold extract_with_template. now rewrite H.
  - intros prompt exs passes workers buffer call run. subst call run.
    split; [apply try_except_total|].
    unfold extract_from_text, call_service.
    split; [|split; [|split]].
    + intros e Hs Hc. now rewrite Hs, Hc.
    + intros answer e Hs Hc Hp. rewrite Hs, Hc. simpl. now rewrite Hp.
    + intros answer coll Hs Hc Hg. rewrite Hs, Hc. simpl.
      unfold process_results, hasattr. rewrite Hg. simpl. split.
      * intros e Hi. now rewrite Hi.
      * intros its Hi Hex. rewrite Hi. simpl.
        destruct (normalize_needs_attributes its Hex) as [e ->].
        simpl. eauto.
    + intros answer Hs Hc Hh. rewrite Hs, Hc. simpl.
      unfold process_results. now rewrite Hh.
Qed.

Lemma extraction_failures_are_records_witness :
  extract_from_text Samples.service "gemini-2.5-flash" "slow"
                    (PStr "Extract the invoice number.") []
                    (PInt 1) (PInt 10) (PInt 1000)
  = Ok (failure_record (Exn "Exception" "LangExtract API error: timed out")).
Proof.
  apply (proj1 (proj2 (proj2 (proj2
           (extraction_failures_are_records
              Samples.service "gemini-2.5-flash" "slow" Samples.invoice_template))
           (PStr "Extract the invoice number.") [] (PInt 1) (PInt 10) (PInt 1000)))
           (Exn "TimeoutError" "timed out"));
    reflexivity.
Defined.

(** C2, as stated, fails: the service answers [None], which exposes no
    [extractions] collection, and the run reports success. *)
Lemma shapeless_answer_reports_success :
  lx_extract Samples.service
             (service_call Samples.service "gemini-2.5-flash" "none"
                           (PStr "Extract the invoice number.") []
                           (PInt 1) (PInt 10) (PInt 1000))
  = Ok PNone
  /\ hasattr PNone "extractions" = false
  /\ exists r,
       extract_from_text Samples.service "gemini-2.5-flash" "none"
                         (PStr "Extract the invoice number.") []
                         (PInt 1) (PInt 10) (PInt 1000) = Ok r
       /\ get r "success" PNone = Ok (PBool true)
       /\ get r "success" PNone <> Ok (PBool false).
Proof.
  split; [reflexivity|]. split; [reflexivity|].
  eexists. split; [reflexivity|]. split; [reflexivity|discriminate].
Qed.

End Orchestrator.

(** * Properties of the result sink *)

Section Sink.
Import PyVal Extractor.

Lemma mapM_Forall2 {A B} (f : A -> result B) (l : list A) (l' : list B) :
  mapM f l = Ok l' -> Forall2 (fun x y => f x = Ok y) l l'.
Proof.
  revert l'. induction l as [|x xs IH]; intros l' H; simpl in H.
  - inversion H. constructor.
  - destruct (f x) as [y|] eqn:Hx; simpl in H; [|discriminate].
    destruct (mapM f xs) as [ys|]; simpl in H; [|discriminate].
    inversion H; subst. constructor; auto.
Qed.

Lemma assoc_None (k : string) (d : list (string * pyval)) :
  ~ In k (map fst d) -> assoc k d = None.
Proof.
  induction d as [|[k' v] d IH]; intros H; [reflexivity|].
  simpl in *. destruct (String.eqb_spec k' k); [tauto|]. apply IH. tauto.
Qed.

Lemma dict_set_fresh (d : list (string * pyval)) (k : string) (v : pyval) :
  ~ In k (map fst d) -> dict_set d k v = d ++ [(k, v)].
Proof.
  induction d as [|[k' v'] d IH]; intros H; [reflexivity|].
  simpl in *. destruct (String.eqb_spec k' k); [tauto|].
  rewrite IH; tauto.
Qed.

(** Writing the attributes of one item into its row appends one column
    per attribute. *)
Lemma attributes_append_columns (kvs : list (string * pyval)) :
  NoDup (map fst kvs) ->
  forall row : list (string * pyval),
    (forall kv, In kv kvs -> ~ In ("attr_" ++ fst kv)%string (map fst row)) ->
    fold_left (fun row kv => dict_set row ("attr_" ++ fst kv) (snd kv)) kvs row
    = row ++ map attr_column kvs.
Proof.
  induction kvs as [|[k v] kvs IH]; intros Hnd row Hfresh; simpl.
  - now rewrite app_nil_r.
  - inversion Hnd as [|x l Hk Hnd']; subst.
    rewrite dict_set_fresh by (apply (Hfresh (k, v)); now left).
    rewrite IH; auto.
    + now rewrite <- app_assoc.
    + intros kv Hin. rewrite map_app, in_app_iff. simpl.
      intros [H|[H|[]]].
      * apply (Hfresh kv); [now right|exact H].
      * inversion H; subst. apply Hk. apply in_map_iff. now exists kv.
Qed.

Lemma csv_row_columns (ext : pyval) (row attrs : list (string * pyval)) :
  csv_row ext = Ok row ->
  get ext "attributes" (PDict []) = Ok (PDict attrs) ->
  NoDup (map fst attrs) ->
  exists cls txt conf,
    row = [("class", cls); ("text", txt); ("confidence", conf)]
            ++ map attr_column attrs.
Proof.
  unfold csv_row. intros H Ha Hnd.
  destruct (getitem ext "class") as [cls|]; simpl in H; [|discriminate].
  destruct (getitem ext "text") as [txt|]; simpl in H; [|discriminate].
  destruct (get ext "confidence" (PStr "")) as [conf|]; simpl in H; [|discriminate].
  rewrite Ha in H. simpl in H. inversion H; subst.
  exists cls, txt, conf. apply attributes_append_columns; auto.
  intros kv _. simpl. intros [E|[E|[E|[]]]]; discriminate.
Qed.

Lemma write_results_csv env results path tr :
  write_results env results path "csv" tr
  = iobind (perform env (Mkdir (parent env path))) (fun _ =>
    iobind (lift (flat_data results)) (fun rows =>
    to_csv env (DataFrame_of rows) path)) tr.
Proof. reflexivity. Qed.

Lemma add_column_In (c : string) (ks cols : list string) :
  In c (fold_left add_column ks cols) <-> In c cols \/ In c ks.
Proof.
  revert cols. induction ks as [|k ks IH]; intros cols; simpl; [tauto|].
  rewrite IH. unfold add_column.
  destruct (existsb (String.eqb k) cols) eqn:Hk.
  - apply existsb_exists in Hk. destruct Hk as [k' [Hin Heq]].
    apply String.eqb_eq in Heq. subst k'.
    split; [tauto|]. intros [H|[H|H]]; subst; auto.
  - rewrite in_app_iff. simpl. tauto.
Qed.

Lemma union_columns_In (c : string) (rows : list (list (string * pyval))) :
  In c (union_columns rows)
  <-> exists row, In row rows /\ In c (map fst row).
Proof.
  unfold union_columns.
  assert (G : forall cols,
             In c (fold_left
                     (fun cols row => fold_left add_column (map fst row) cols)
                     rows cols)
             <-> In c cols \/ exists row, In row rows /\ In c (map fst row)).
  { induction rows as [|r rows IH]; intros cols; simpl.
    - split; [tauto|]. intros [H|[row [[] _]]]. exact H.
    - rewrite IH, add_column_In. split.
      + intros [[H|H]|[row [H1 H2]]]; eauto.
      + intros [H|[row [[->|H1] H2]]]; eauto. }
  rewrite G. simpl. split; [intros [[]|H]; exact H|auto].
Qed.

(** C4 (amended). When a result is persisted as csv, one row is built per
    extraction item, in order, from that item alone: it holds class,
    text, confidence and one entry attr_<key> per attribute key of the
    item, and no entry for a key the item lacks. The table written is the
    data frame of these rows: its columns are the union of the keys of
    all rows, and each row has one cell per column, empty where the row
    has no entry. *)
Theorem csv_rows_per_item_columns_unioned env results path tr tr' :
  save_results env results path "csv" tr = (tr', true) ->
  exists its rows,
    (exts <- get results "extractions" (PList []) ;; iter exts) = Ok its
    /\ tr' = tr ++ [Mkdir (parent env path); OpenW path;
                    ToCsv path (DataFrame_of rows)]
    /\ Forall2
         (fun ext row =>
            csv_row ext = Ok row
            /\ forall attrs,
                get ext "attributes" (PDict []) = Ok (PDict attrs) ->
                NoDup (map fst attrs) ->
                map fst row
                = ["class"; "text"; "confidence"]
                    ++ map (fun k => "attr_" ++ k)%string (map fst attrs)
                /\ (forall k v, In (k, v) attrs ->
                                In (("attr_" ++ k)%string, v) row)
                /\ (forall k, ~ In k (map fst attrs) ->
                              assoc ("attr_" ++ k) row = None))
         its rows
    /\ (forall c, In c (columns (DataFrame_of rows))
                  <-> exists row, In row rows /\ In c (map fst row))
    /\ cells (DataFrame_of rows)
       = map (fun row => map (fun c => assoc c row)
                             (columns (DataFrame_of rows))) rows.
Proof.
  unfold save_results. rewrite write_results_csv.
  unfold to_csv, iobind, perform, lift.
  destruct (io_error env tr (Mkdir (parent env path))); [discriminate|].
  destruct (flat_data results) as [rows|] eqn:Hflat; [|discriminate].
  destruct (io_error env _ (OpenW path)); [discriminate|].
  destruct (io_error env _ (ToCsv path (DataFrame_of rows))); [discriminate|].
  intros H. inversion H; subst. clear H.
  unfold flat_data in Hflat.
  destruct (get results "extractions" (PList [])) as [exts|]; simpl in Hflat;
    [|discriminate].
  destruct (iter exts) as [its|] eqn:Hit; simpl in Hflat; [|discriminate].
  exists its, rows. simpl Py.bind. rewrite Hit.
  split; [reflexivity|]. split; [now rewrite <- !app_assoc|].
  split; [|split; [intros c; apply union_columns_In|reflexivity]].
  apply mapM_Forall2 in Hflat.
  clear Hit. induction Hflat as [|ext row its rows Hrow _ IH]; [constructor|].
  constructor; [|exact IH].
  split; [exact Hrow|]. intros attrs Ha Hnd.
  destruct (csv_row_columns ext row attrs Hrow Ha Hnd)
    as [cls [txt [conf ->]]].
  split; [|split].
  - rewrite map_app. simpl. do 3 f_equal.
    rewrite !map_map. reflexivity.
  - intros k v Hin. apply in_or_app. right.
    apply in_map_iff. now exists (k, v).
  - intros k Hk. apply assoc_None. rewrite map_app, in_app_iff. simpl.
    intros [[E|[E|[E|[]]]]|H]; try discriminate.
    rewrite map_map in H. apply in_map_iff in H.
    destruct H as [[k' v'] [E Hin]]. simpl in E. inversion E; subst.
    apply Hk. apply in_map_iff. now exists (k, v').
Qed.

Lemma csv_rows_per_item_columns_unioned_witness :
  exists its rows,
    (exts <- get Samples.two_items "extractions" (PList []) ;; iter exts) = Ok its
    /\ [Mkdir "out"; OpenW "out/items.csv";
        ToCsv "out/items.csv" Samples.two_items_table]
       = [] ++ [Mkdir (parent Samples.disk "out/items.csv");
                OpenW "out/items.csv";
                ToCsv "out/items.csv" (DataFrame_of rows)]
    /\ Forall2
         (fun ext row =>
            csv_row ext = Ok row
            /\ forall attrs,
                get ext "attributes" (PDict []) = Ok (PDict attrs) ->
                NoDup (map fst attrs) ->
                map fst row
                = ["class"; "text"; "confidence"]
                    ++ map (fun k => "attr_" ++ k)%string (map fst attrs)
                /\ (forall k v, In (k, v) attrs ->
                                In (("attr_" ++ k)%string, v) row)
                /\ (forall k, ~ In k (map fst attrs) ->
                              assoc ("attr_" ++ k) row = None))
         its rows
    /\ (forall c, In c (columns (DataFrame_of rows))
                  <-> exists row, In row rows /\ In c (map fst row))
    /\ cells (DataFrame_of rows)
       = map (fun row => map (fun c => assoc c row)
                             (columns (DataFrame_of rows))) rows.
Proof.
  apply (csv_rows_per_item_columns_unioned Samples.disk Samples.two_items
                                           "out/items.csv" []).
  reflexivity.
Defined.

(** C4, as stated, fails: of two items with disjoint attribute keys, the
    first has no attribute city, yet its row in the persisted table has
    the column attr_city (with an empty cell), because the table's
    columns are those of both rows. *)
Lemma csv_columns_are_unioned :
  save_results Samples.disk Samples.two_items "out/items.csv" "csv" []
  = ([Mkdir "out"; OpenW "out/items.csv";
      ToCsv "out/items.csv" Samples.two_items_table], true)
  /\ columns Samples.two_items_table
     = ["class"; "text"; "confidence"; "attr_number"; "attr_city"]
  /\ nth_error (cells Samples.two_items_table) 0
     = Some [Some (PStr "Invoice"); Some (PStr "#7"); Some PNone;
             Some (PStr "7"); None]
  /\ (exists first rest,
         get Samples.two_items "extractions" (PList []) = Ok (PList (first :: rest))
         /\ get first "attributes" (PDict [])
            = Ok (PDict [("number", PStr "7")]))
  /\ ~ (forall c, In c (columns Samples.two_items_table) ->
                  In c ["class"; "text"; "confidence"; "attr_number"]).
Proof.
  split; [reflexivity|]. split; [reflexivity|]. split; [reflexivity|].
  split; [do 2 eexists; split; reflexivity|].
  intros H. specialize (H "attr_city"). simpl in H.
  assert (Hin : "class" = "attr_city" \/ "text" = "attr_city"
                \/ "confidence" = "attr_city" \/ "attr_number" = "attr_city"
                \/ False) by (apply H; tauto).
  destruct Hin as [E|[E|[E|[E|[]]]]]; discriminate.
Qed.

End Sink.

Section SinkFormats.
Import PyVal Extractor.

Lemma for_each_extends {A} (env : SinkEnv) (f : A -> result string)
      (g : string -> fs_event) (l : list A) :
  forall tr tr' out,
    for_each l (fun x => iobind (lift (f x)) (fun s => perform env (g s))) tr
    = (tr', out) ->
    exists more, tr' = tr ++ more.
Proof.
  induction l as [|x xs IH]; intros tr tr' out H; simpl in H.
  - inversion H. exists []. now rewrite app_nil_r.
  - unfold iobind at 1 in H. unfold iobind at 1 in H. unfold lift, perform in H.
    destruct (f x) as [s|e].
    + destruct (io_error env tr (g s)).
      * inversion H. exists []. now rewrite app_nil_r.
      * apply IH in H. destruct H as [more ->].
        exists (g s :: more). now rewrite <- app_assoc.
    + inversion H. exists []. now rewrite app_nil_r.
Qed.

(** [json.dump] writes chunks of the document into the file, all of them
    when it returns. *)
Lemma json_dump_events (env : SinkEnv) (encode : pyval -> encoding)
      (obj : pyval) (fp : string) :
  forall tr tr' out,
    json_dump env encode obj fp tr = (tr', out) ->
    exists written,
      tr' = tr ++ map (Write fp) written
      /\ (out = Ok tt -> written = fst (encode obj) /\ snd (encode obj) = None).
Proof.
  unfold json_dump. destruct (encode obj) as [chunks stopped]. simpl.
  assert (G : forall tr tr' out,
             for_each chunks (fun chunk => perform env (Write fp chunk)) tr
             = (tr', out) ->
             exists written,
               tr' = tr ++ map (Write fp) written
               /\ (out = Ok tt -> written = chunks)).
  { induction chunks as [|c cs IH]; intros tr tr' out H; simpl in H.
    - inversion H. exists []. split; [now rewrite app_nil_r|reflexivity].
    - unfold iobind at 1 in H. unfold perform at 1 in H.
      destruct (io_error env tr (Write fp c)).
      + inversion H. exists []. split; [now rewrite app_nil_r|discriminate].
      + apply IH in H. destruct H as [written [-> Hok]].
        exists (c :: written). split; [now rewrite <- app_assoc|].
        intros E. now rewrite Hok. }
  intros tr tr' out H. unfold iobind in H.
  destruct (for_each chunks _ tr) as [tr1 [[]|e]] eqn:Hloop.
  - apply G in Hloop. destruct Hloop as [written [-> Hok]].
    exists written. destruct stopped as [e|]; inversion H; subst.
    + split; [reflexivity|discriminate].
    + split; [reflexivity|]. intros _. split; [now apply Hok|reflexivity].
  - apply G in Hloop. destruct Hloop as [written [-> _]].
    inversion H; subst. exists written. split; [reflexivity|discriminate].
Qed.

(** For the three formats the sink knows, [True] means that the parent
    directory was made first and that output went to the destination. *)
Lemma save_results_written env results path format tr tr' :
  lower format = "json" \/ lower format = "jsonl" \/ lower format = "csv" ->
  save_results env results path format tr = (tr', true) ->
  exists rest,
    tr' = tr ++ Mkdir (parent env path) :: rest
    /\ existsb (is_output path) rest = true.
Proof.
  intros Hf. unfold save_results, write_results.
  unfold iobind at 1. unfold perform at 1.
  destruct (io_error env tr (Mkdir (parent env path))); [discriminate|].
  destruct Hf as [Hf|[Hf|Hf]]; rewrite Hf;
    [ change ("json" =? "json") with true
    | change ("jsonl" =? "json") with false;
      change ("jsonl" =? "jsonl") with true
    | change ("csv" =? "json") with false;
      change ("csv" =? "jsonl") with false;
      change ("csv" =? "csv") with true ];
    cbv iota.
  - unfold iobind at 1. unfold perform at 1.
    destruct (io_error env _ (OpenW path)); [discriminate|].
    destruct (json_dump env _ results path _) as [tr1 out] eqn:Hdump.
    apply json_dump_events in Hdump. destruct Hdump as [written [-> _]].
    destruct out; [|discriminate].
    intros H. inversion H. exists (OpenW path :: map (Write path) written).
    rewrite <- !app_assoc. simpl. now rewrite String.eqb_refl.
  - unfold iobind at 1. unfold perform at 1.
    destruct (io_error env _ (OpenW path)); [discriminate|].
    unfold iobind at 1. unfold lift at 1.
    destruct (get results "extractions" (PList [])) as [exts|]; [|discriminate].
    unfold iobind at 1. unfold lift at 1.
    destruct (iter exts) as [its|]; [|discriminate].
    destruct (for_each its _ _) as [tr1 out] eqn:Hloop.
    apply (for_each_extends env (json_dumps env)
             (fun line => Write path (line ++ String "010" EmptyString)))
      in Hloop.
    destruct Hloop as [more ->]. destruct out; [|discriminate].
    intros H. inversion H. exists (OpenW path :: more).
    rewrite <- !app_assoc. simpl. now rewrite String.eqb_refl.
  - unfold to_csv, iobind, perform, lift.
    destruct (flat_data results) as [rows|]; [|discriminate].
    destruct (io_error env _ (OpenW path)); [discriminate|].
    destruct (io_error env _ (ToCsv path (DataFrame_of rows))); [discriminate|].
    intros H. inversion H. exists [OpenW path; ToCsv path (DataFrame_of rows)].
    rewrite <- !app_assoc. simpl. now rewrite String.eqb_refl.
Qed.

(** C5, at the input where the code departs from it. For a format that
    is none of json, jsonl and csv (such as html, which the command line
    accepts), [save_results] makes the parent directory, writes nothing
    to the destination, and returns [True]. *)
Theorem save_results_unknown_format env results path format tr :
  lower format <> "json" -> lower format <> "jsonl" -> lower format <> "csv" ->
  io_error env tr (Mkdir (parent env path)) = None ->
  exists added,
    save_results env results path format tr = (tr ++ added, true)
    /\ added = [Mkdir (parent env path)]
    /\ existsb (is_output path) added = false.
Proof.
  intros H1 H2 H3 Hm. exists [Mkdir (parent env path)].
  split; [|split; reflexivity].
  unfold save_results, write_results, iobind, perform. rewrite Hm.
  apply String.eqb_neq in H1, H2, H3. now rewrite H1, H2, H3.
Qed.

Lemma save_results_unknown_format_witness :
  exists added,
    save_results Samples.disk Samples.two_items "out/items.html" "html" []
    = ([] ++ added, true)
    /\ added = [Mkdir (parent Samples.disk "out/items.html")]
    /\ existsb (is_output "out/items.html") added = false.
Proof.
  apply (save_results_unknown_format Samples.disk Samples.two_items
                                     "out/items.html" "html" []).
  - vm_compute. discriminate.
  - vm_compute. discriminate.
  - vm_compute. discriminate.
  - reflexivity.
Defined.

End SinkFormats.

(** * Properties of template loading *)

Section Templates.
Import PyVal Utils.

(** C9 (amended). Required fields: for a template file that exists and
    parses to a JSON object, loading raises the error naming "name" when
    name is absent; naming "prompt" when name is present and prompt
    absent; naming "examples" when name and prompt are present and
    examples absent; and returns the parsed object itself when all three
    are present. *)
Theorem load_custom_template_required_fields
        (fs : TemplateFs) (template_path : string) (d : list (string * pyval)) :
  template_exists fs template_path = true ->
  template_load fs template_path = Parsed (PDict d) ->
  (assoc "name" d = None ->
   load_custom_template fs template_path
   = Raise (Exn "ValueError" "Template missing required field: name"))
  /\ (assoc "name" d <> None -> assoc "prompt" d = None ->
      load_custom_template fs template_path
      = Raise (Exn "ValueError" "Template missing required field: prompt"))
  /\ (assoc "name" d <> None -> assoc "prompt" d <> None ->
      assoc "examples" d = None ->
      load_custom_template fs template_path
      = Raise (Exn "ValueError" "Template missing required field: examples"))
  /\ (assoc "name" d <> None -> assoc "prompt" d <> None ->
      assoc "examples" d <> None ->
      load_custom_template fs template_path = Ok (PDict d)).
Proof.
  intros Hex Hload. unfold load_custom_template. rewrite Hex, Hload. simpl.
  destruct (assoc "name" d), (assoc "prompt" d), (assoc "examples" d);
    simpl; repeat split; intros; try reflexivity; congruence.
Qed.

Lemma load_custom_template_required_fields_witness :
  load_custom_template Samples.templates "t/noprompt.json"
  = Raise (Exn "ValueError" "Template missing required field: prompt").
Proof.
  apply (proj1 (proj2 (load_custom_template_required_fields
                         Samples.templates "t/noprompt.json"
                         [ ("name", PStr "n"); ("examples", PList []) ]
                         eq_refl eq_refl))).
  - discriminate.
  - reflexivity.
Defined.

(** C9, as stated, fails: a file that holds the number 5 is valid JSON
    and has none of the three fields, yet loading it raises a
    [TypeError] from the membership test, not the error that names the
    first missing field, nor the one of any other field. *)
Lemma number_template_names_no_field :
  template_exists Samples.number_templates "t/five.json" = true
  /\ template_load Samples.number_templates "t/five.json" = Parsed (PInt 5)
  /\ (exists msg,
         load_custom_template Samples.number_templates "t/five.json"
         = Raise (Exn "TypeError" msg))
  /\ load_custom_template Samples.number_templates "t/five.json"
     <> Raise (Exn "ValueError" "Template missing required field: name")
  /\ ~ (exists field,
           load_custom_template Samples.number_templates "t/five.json"
           = Raise (Exn "ValueError"
                        ("Template missing required field: " ++ field))).
Proof.
  split; [reflexivity|]. split; [reflexivity|].
  split; [eexists; reflexivity|]. split; [discriminate|].
  intros [field H]. discriminate H.
Qed.

End Templates.

(** * Properties of the batch loop *)

Section Batch.
Import PyVal PdfProcessor Extractor Cli.

Variable env : BatchEnv.
Variables (model : string) (template_config : pyval).
Variables (output_dir format : string).

Lemma extracted_text_not_empty w p res :
  snd (extract_text w p) = Ok res -> truthy (text res) = true.
Proof.
  intros H. destruct (extract_text w p) as [tr out] eqn:E.
  simpl in H; subst out.
  apply extract_text_with_Ok_inv, try_methods_Ok_inv in E.
  destruct E as [nm [_ [_ Hne]]].
  destruct (text res); [now elim Hne|reflexivity].
Qed.

Lemma batch_step_recorded (pdf_file : Path) (tr : list fs_event) :
  recorded env pdf_file
           (snd (batch_step env model template_config output_dir format
                            pdf_file tr)).
Proof.
  unfold batch_step, process_file, iobind, lift, recorded.
  destruct (snd (extract_text (pdf_world env) pdf_file)) as [res|e] eqn:E.
  - rewrite (extracted_text_not_empty _ _ _ E).
    change (negb true) with false. cbv beta iota.
    destruct (extract_with_template _ _ _ _) as [results|e'].
    + destruct (save_results _ _ _ _ _) as [tr' success].
      destruct (Py.bind _ _) as [count|e'']; simpl.
      * repeat split; [destruct success; discriminate|discriminate].
      * repeat split; discriminate.
    + simpl. repeat split; discriminate.
  - simpl. repeat split; [discriminate|].
    intros e' He'. now inversion He'.
Qed.

Lemma batch_loop_recorded (pdf_files : list Path) :
  forall acc tr,
    exists outcomes,
      snd (batch_loop env model template_config output_dir format
                      pdf_files acc tr) = acc ++ outcomes
      /\ Forall2 (recorded env) pdf_files outcomes.
Proof.
  induction pdf_files as [|f fs IH]; intros acc tr; simpl.
  - exists []. split; [now rewrite app_nil_r|constructor].
  - pose proof (batch_step_recorded f tr) as Hrec.
    destruct (batch_step _ _ _ _ _ f tr) as [tr' outcome]. simpl in Hrec.
    destruct (IH (acc ++ [outcome]) tr') as [outs [-> Hall]].
    exists (outcome :: outs). split; [now rewrite <- app_assoc|].
    now constructor.
Qed.

End Batch.

Section BatchClaims.
Import PyVal PdfProcessor Extractor Cli.

(** C3, at the input where the code departs from it. The loop records
    one outcome per file, in input order, and goes on after a file whose
    text extraction raised; but it records that file with status
    'error', and no file ever gets status 'failed'. In the batch of
    five files whose third has no extractable text, the statuses are
    success, success, error, success, success, and the summary of the
    five outcomes is written. *)
Theorem batch_records_exhaustion_as_error :
  (forall env model template_config output_dir format pdf_files tr,
      Forall2
        (fun pdf_file outcome =>
           file outcome = path_name pdf_file
           /\ status outcome <> "failed"
           /\ (forall e,
                  snd (extract_text (pdf_world env) pdf_file) = Raise e ->
                  outcome
                  = PDict [ ("file", PStr (path_name pdf_file));
                            ("status", PStr "error");
                            ("error", PStr (exn_str e)) ]))
        pdf_files
        (snd (batch_loop env model template_config output_dir format
                         pdf_files [] tr)))
  /\ (exists tr' summary,
         batch Samples.office "gemini-2.5-flash" Samples.invoice_template
               "out" "json" Samples.five_files []
         = (tr', Ok summary)
         /\ map file summary = ["a.pdf"; "b.pdf"; "c.pdf"; "d.pdf"; "e.pdf"]
         /\ map status summary
            = ["success"; "success"; "error"; "success"; "success"]
         /\ nth_error summary 2
            = Some (PDict
                      [ ("file", PStr "c.pdf");
                        ("status", PStr "error");
                        ("error",
                         PStr "Failed to extract text from PDF: in/c.pdf") ])
         /\ In (Write "out/batch_summary.json" "<list>") tr').
Proof.
  split.
  - intros env model template_config output_dir format pdf_files tr.
    destruct (batch_loop_recorded env model template_config output_dir
                                  format pdf_files [] tr)
      as [outcomes [-> Hall]].
    exact Hall.
  - do 2 eexists. split; [vm_compute; reflexivity|].
    repeat split; try reflexivity.
    vm_compute. tauto.
Qed.

End BatchClaims.

(** * Runs on the sample data *)

Section Runs.
Import PyVal PdfProcessor Extractor Utils Cli.

Example not_a_pdf_is_refused :
  extract_text Samples.world Samples.notes_txt
  = ([], Raise (Exn "ValueError" "File is not a PDF: docs/notes.txt")).
Proof. reflexivity. Qed.

Example missing_file_is_refused :
  extract_text Samples.world (MkPath "docs/gone.pdf" "gone.pdf" "gone" ".pdf")
  = ([], Raise (Exn "FileNotFoundError" "PDF file not found: docs/gone.pdf")).
Proof. reflexivity. Qed.

Example scan_calls_all_three :
  invoked (fst (extract_text Samples.world Samples.scan_pdf))
  = ["_extract_with_pdfplumber"; "_extract_with_pymupdf"; "_extract_with_pypdf2"].
Proof. reflexivity. Qed.

Example invoice_is_found :
  extract_with_template Samples.service "gemini-2.5-flash" "Invoice #7"
                        Samples.invoice_template
  = Ok (PDict
          [ ("extractions",
             PList [ PDict [ ("class", PStr "Invoice");
                             ("text", PStr "#7");
                             ("attributes", PDict [("number", PStr "7")]);
                             ("confidence", PNone) ] ]);
            ("metadata",
             PDict [ ("model_id", PStr "gemini-2.5-flash");
                     ("extraction_passes", PInt 1);
                     ("total_extractions", PInt 1);
                     ("text_length", PInt 10) ]);
            ("success", PBool true) ]).
Proof. reflexivity. Qed.

Example example_without_text_fails :
  extract_with_template Samples.service "gemini-2.5-flash" "Invoice #7"
                        Samples.broken_template
  = Ok (failure_record (Exn "KeyError" "'text'")).
Proof. reflexivity. Qed.

Example item_without_class_fails :
  extract_with_template Samples.service "gemini-2.5-flash" "odd"
                        Samples.invoice_template
  = Ok (failure_record
          (Exn "AttributeError"
               "'Extraction' object has no attribute 'extraction_class'")).
Proof. reflexivity. Qed.

Example credential_is_first_non_empty :
  api_key (service_call Samples.service "gpt-4" "Invoice #7" (PStr "p") []
                        (PInt 1) (PInt 10) (PInt 1000)) = Some "secret"
  /\ language_model_type
       (service_call Samples.service "gpt-4" "Invoice #7" (PStr "p") []
                     (PInt 1) (PInt 10) (PInt 1000)) = OpenAILanguageModel.
Proof. split; reflexivity. Qed.

Example json_is_written :
  save_results Samples.disk Samples.two_items "out/items.json" "JSON" []
  = ([Mkdir "out"; OpenW "out/items.json"; Write "out/items.json" "<dict>"], true).
Proof. reflexivity. Qed.

Example refused_directory_gives_false :
  save_results Samples.disk Samples.two_items "/proc/x/items.json" "json" []
  = ([], false).
Proof. reflexivity. Qed.

Example complete_template_is_returned :
  load_custom_template Samples.templates "t/invoice.json"
  = Ok Samples.invoice_template.
Proof. reflexivity. Qed.

End Runs.

(** * Further properties of the text-extraction chain *)

Section ChainMore.
Import PdfProcessor PageLayout.

(** X1. Whether the chain accepts a strategy's output is decided by its
    pages alone: the text a strategy returns is blank exactly when none of
    the pages contributes a block. *)
Theorem strategy_text_blank_iff_no_block w s p res texts :
  strategy_callable w s p = Ok res ->
  library_pages w s p = Ok (map Ok texts) ->
  (strip (text res) = "" <-> forall t, In (Some t) texts -> keeps s t = false).
Proof.
intros Hrun Hlib. apply strategy_Ok_inv in Hrun.
destruct Hrun as [texts' [Hlib' [Htext _]]].
rewrite Hlib in Hlib'. inversion Hlib' as [E]. apply map_Ok_inj in E. subst texts'.
rewrite Htext, strip_empty_iff, layout_blank_iff.
apply contributing_from_nil.
Qed.

Lemma strategy_text_blank_iff_no_block_witness :
  strip Samples.report_text = ""
  <-> forall t, In (Some t) [Some "A"; Some "  "; Some "C"] ->
                keeps Pymupdf t = false.
Proof.
apply (strategy_text_blank_iff_no_block Samples.world Pymupdf Samples.report_pdf
         (MkExtracted Samples.report_text "pymupdf" 3)); reflexivity.
Defined.

(** X2. When pdfplumber opens the document and every page's text call
    answers (with a string or [None]), the first strategy wins as soon as
    one page has non-empty text, also when that text is white space only:
    the result is tagged pdfplumber and no other strategy is called.
    Conversely, a result tagged pdfplumber is returned only then: when
    opening or a page call raises, or no page has non-empty text, the
    chain moves on to the next strategy. *)
Theorem pdfplumber_wins_with_any_text w p :
  exists_ w p = true ->
  lower (path_suffix p) = ".pdf" ->
  (forall texts,
      pdfplumber_open w p = Ok (map Ok texts) ->
      (exists t, In (Some t) texts /\ t <> "") ->
      exists tr res,
        extract_text w p = (tr, Ok res)
        /\ method res = "pdfplumber"
        /\ text res = layout (contributing truthy texts)
        /\ invoked tr = ["_extract_with_pdfplumber"])
  /\ (forall tr res,
         extract_text w p = (tr, Ok res) ->
         method res = "pdfplumber" ->
         exists texts,
           pdfplumber_open w p = Ok (map Ok texts)
           /\ exists t, In (Some t) texts /\ t <> "").
Proof.
intros Hex Hpdf. split.
- intros texts Hopen [t [Hin Hne]].
  unfold extract_text, extract_text_with. rewrite Hex, Hpdf. simpl.
  unfold _extract_with_pdfplumber at 1. rewrite Hopen. simpl.
  rewrite pdfplumber_pages_run. simpl.
  change (join blank_line
            (map header_block (contributing_from 1 truthy texts)))
    with (layout (contributing truthy texts)).
  destruct (truthy (strip (layout (contributing truthy texts)))) eqn:Hacc.
  + do 2 eexists. repeat split.
  + apply truthy_false_iff, strip_empty_iff, layout_blank_iff in Hacc.
    pose proof (proj1 (contributing_from_nil 1 truthy texts) Hacc t Hin) as Hk.
    apply truthy_false_iff in Hk. contradiction.
- intros tr res H Hm. pose proof H as Hinv. apply extract_text_Ok_inv in Hinv.
  destruct Hinv as [s [texts [Hlib [Htext [_ Hs]]]]].
  apply extract_text_with_Ok_inv, try_methods_Ok_inv in H.
  destruct H as [_ [_ [_ Hne]]].
  rewrite Hm in Hs. destruct s; try discriminate. simpl in Hlib.
  change (keeps Pdfplumber) with truthy in Htext.
  exists texts. split; [exact Hlib|].
  destruct (contributing truthy texts) as [|b bs] eqn:Hb.
  + rewrite Htext in Hne. now elim Hne.
  + apply contributing_from_witness in Hb. destruct Hb as [t [Hin Hk]].
    exists t. split; [exact Hin|]. now apply truthy_true_iff.
Qed.

Lemma pdfplumber_wins_with_any_text_witness :
  exists tr res,
    extract_text Samples.blank_pages_world Samples.report_pdf = (tr, Ok res)
    /\ method res = "pdfplumber"
    /\ text res = layout (contributing truthy [Some "  "; None])
    /\ invoked tr = ["_extract_with_pdfplumber"].
Proof.
apply (proj1 (pdfplumber_wins_with_any_text
                Samples.blank_pages_world Samples.report_pdf eq_refl eq_refl)
             [Some "  "; None]).
- reflexivity.
- exists "  ". split; [now left|discriminate].
Defined.

(** X3. A page whose text call answers [None] is skipped by the first
    strategy when all its page calls answer, but stops the second and the
    third strategy: when the pages before it answered with a string, the
    strategy fails as a whole with an [AttributeError], whatever the
    pages after it hold, which are not read. *)
Theorem none_page_fails_stripping_strategies w p :
  (forall s before rest,
      s = Pymupdf \/ s = Pypdf2 ->
      library_pages w s p
      = Ok (map (fun t => Ok (Some t)) before ++ Ok None :: rest) ->
      strategy_callable w s p
      = Raise (Exn "AttributeError" "'NoneType' object has no attribute 'strip'"))
  /\ (forall texts,
         pdfplumber_open w p = Ok (map Ok texts) ->
         In None texts ->
         _extract_with_pdfplumber w p
         = Ok (MkExtracted (layout (contributing truthy texts)) "pdfplumber"
                           (length texts))).
Proof.
split.
- intros s before rest [Hs|Hs] Hlib; subst s; simpl in *.
  + unfold _extract_with_pymupdf. rewrite Hlib. simpl.
    now rewrite stripped_pages_stops.
  + unfold _extract_with_pypdf2. rewrite Hlib. simpl.
    now rewrite stripped_pages_stops.
- intros texts Hlib _.
  unfold _extract_with_pdfplumber. rewrite Hlib. simpl.
  rewrite pdfplumber_pages_run. simpl. now rewrite length_map.
Qed.

Lemma none_page_fails_stripping_strategies_witness :
  strategy_callable Samples.world Pypdf2 Samples.scan_pdf
  = Raise (Exn "AttributeError" "'NoneType' object has no attribute 'strip'").
Proof.
apply (proj1 (none_page_fails_stripping_strategies Samples.world Samples.scan_pdf)
             Pypdf2 ["   "] []).
- now right.
- reflexivity.
Defined.

(** X4. Every text [extract_text] returns begins with a page header. *)
Theorem extracted_text_starts_with_header w p tr res :
  extract_text w p = (tr, Ok res) ->
  exists rest, text res = ("--- Page " ++ rest)%string.
Proof.
intros H. pose proof H as Hinv. apply extract_text_Ok_inv in Hinv.
destruct Hinv as [s [texts [_ [Htext _]]]].
apply extract_text_with_Ok_inv, try_methods_Ok_inv in H.
destruct H as [_ [_ [_ Hne]]].
destruct (contributing (keeps s) texts) as [|b bs] eqn:Hb.
- rewrite Htext in Hne. now elim Hne.
- rewrite Htext. apply layout_starts_with_header.
Qed.

Lemma extracted_text_starts_with_header_witness :
  exists rest, Samples.report_text = ("--- Page " ++ rest)%string.
Proof.
apply (extracted_text_starts_with_header Samples.world Samples.report_pdf
         [Called "_extract_with_pdfplumber";
          LogWarning "Failed to extract with _extract_with_pdfplumber: cannot read";
          Called "_extract_with_pymupdf";
          LogInfo "Successfully extracted text using _extract_with_pymupdf"]
         (MkExtracted Samples.report_text "pymupdf" 3)).
reflexivity.
Defined.

Lemma try_methods_invoked_prefix path :
  forall methods : list Method,
    (exists rest,
        map fst methods = invoked (fst (try_methods methods path)) ++ rest)
    /\ (forall e, snd (try_methods methods path) = Raise e ->
                  invoked (fst (try_methods methods path)) = map fst methods).
Proof.
induction methods as [|[n m] ms [[rest IH1] IH2]]; simpl.
- split; [exists []; reflexivity|reflexivity].
- destruct (m path) as [res|e].
  + destruct (truthy (strip (text res))).
    * simpl. split; [exists (map fst ms); reflexivity|discriminate].
    * destruct (try_methods ms path) as [tr out]. simpl in *.
      split; [exists rest; now rewrite IH1|].
      intros e He. now rewrite (IH2 e He).
  + destruct (try_methods ms path) as [tr out]. simpl in *.
    split; [exists rest; now rewrite IH1|].
    intros e' He. now rewrite (IH2 e' He).
Qed.

(** X5. The chain calls the strategies in list order without skipping or
    repeating any: the strategies called are always an initial part of
    the list; none is called for a path that does not exist or is not a
    PDF; and when the chain gives up, every strategy has been called. *)
Theorem strategies_called_in_order exists_path (methods : list Method) path :
  (exists rest,
      map fst methods
      = invoked (fst (extract_text_with exists_path methods path)) ++ rest)
  /\ (exists_path path = false \/ lower (path_suffix path) <> ".pdf" ->
      invoked (fst (extract_text_with exists_path methods path)) = []
      /\ exists e, snd (extract_text_with exists_path methods path) = Raise e)
  /\ (exists_path path = true -> lower (path_suffix path) = ".pdf" ->
      forall e,
        snd (extract_text_with exists_path methods path) = Raise e ->
        invoked (fst (extract_text_with exists_path methods path))
        = map fst methods).
Proof.
unfold extract_text_with.
destruct (exists_path path) eqn:Hex; simpl.
- destruct (String.eqb_spec (lower (path_suffix path)) ".pdf") as [Hpdf|Hpdf]; simpl.
  + split; [apply try_methods_invoked_prefix|]. split.
    * intros [H|H]; [discriminate|contradiction].
    * intros _ _. apply try_methods_invoked_prefix.
  + split; [exists (map fst methods); reflexivity|]. split.
    * intros _. split; [reflexivity|eauto].
    * intros _ H. contradiction.
- split; [exists (map fst methods); reflexivity|]. split.
  + intros _. split; [reflexivity|eauto].
  + discriminate.
Qed.

Lemma strategies_called_in_order_witness :
  invoked (fst (extract_text_with (exists_ Samples.world)
                                  (extraction_methods Samples.world)
                                  Samples.scan_pdf))
  = map fst (extraction_methods Samples.world).
Proof.
apply (proj2 (proj2 (strategies_called_in_order
                       (exists_ Samples.world)
                       (extraction_methods Samples.world) Samples.scan_pdf))
         eq_refl eq_refl
         (Exn "RuntimeError" "Failed to extract text from PDF: docs/scan.PDF")).
reflexivity.
Defined.

End ChainMore.

Section BatchExtract.
Import PdfProcessor.

Lemma set_entry_fresh results key entry :
  ~ In key (map fst results) ->
  set_entry results key entry = results ++ [(key, entry)].
Proof.
induction results as [|[k v] rest IH]; intros H; [reflexivity|].
simpl in *. destruct (String.eqb_spec k key); [tauto|].
rewrite IH; tauto.
Qed.

Lemma set_entry_keys results key entry k :
  In k (map fst (set_entry results key entry))
  <-> In k (map fst results) \/ k = key.
Proof.
induction results as [|[k' v] rest IH]; simpl.
- split; [intros [H|[]]; auto|intros [[]|H]; auto].
- destruct (String.eqb_spec k' key) as [->|Hne]; simpl.
  + split; [tauto|]. intros [[H|H]|H]; auto.
  + rewrite IH. tauto.
Qed.

Lemma set_entry_NoDup results key entry :
  NoDup (map fst results) -> NoDup (map fst (set_entry results key entry)).
Proof.
induction results as [|[k v] rest IH]; intros H; simpl.
- constructor; [intros []|constructor].
- inversion H as [|x l Hk Hrest]; subst.
  destruct (String.eqb_spec k key) as [->|Hne]; simpl.
  + now constructor.
  + constructor; [|now apply IH].
    rewrite set_entry_keys. intros [Hin|E]; [contradiction|].
    now subst.
Qed.

Lemma set_entry_values results key entry k v :
  In (k, v) (set_entry results key entry) ->
  In (k, v) results \/ (k = key /\ v = entry).
Proof.
induction results as [|[k' v'] rest IH]; simpl.
- intros [H|[]]. inversion H. auto.
- destruct (String.eqb_spec k' key) as [->|Hne]; simpl.
  + intros [H|H]; [inversion H; auto|auto].
  + intros [H|H]; [auto|]. destruct (IH H); auto.
Qed.

Lemma batch_extract_loop_distinct w pdf_paths :
  forall results,
    NoDup (map fst results ++ map path_str pdf_paths) ->
    batch_extract_loop w pdf_paths results
    = results ++ map (fun p => (path_str p,
                                batch_entry_of (snd (extract_text w p))))
                     pdf_paths.
Proof.
induction pdf_paths as [|p rest IH]; intros results Hnd; simpl.
- now rewrite app_nil_r.
- assert (Hp : ~ In (path_str p) (map fst results)).
  { intros Hin. apply NoDup_remove_2 in Hnd. apply Hnd.
    apply in_or_app. now left. }
  rewrite set_entry_fresh by exact Hp.
  rewrite IH.
  + now rewrite <- app_assoc.
  + rewrite map_app. simpl. rewrite <- app_assoc. exact Hnd.
Qed.

Lemma batch_extract_loop_entries w pdf_paths :
  forall results,
    NoDup (map fst results) ->
    NoDup (map fst (batch_extract_loop w pdf_paths results))
    /\ (forall k, In k (map fst (batch_extract_loop w pdf_paths results))
                  <-> In k (map fst results) \/ In k (map path_str pdf_paths))
    /\ (forall k v, In (k, v) (batch_extract_loop w pdf_paths results) ->
                    In (k, v) results
                    \/ exists p, In p pdf_paths /\ path_str p = k
                                 /\ v = batch_entry_of (snd (extract_text w p))).
Proof.
induction pdf_paths as [|p rest IH]; intros results Hnd; simpl.
- split; [exact Hnd|]. split; [tauto|auto].
- destruct (IH (set_entry results (path_str p)
                          (batch_entry_of (snd (extract_text w p))))
               (set_entry_NoDup _ _ _ Hnd)) as [H1 [H2 H3]].
  split; [exact H1|]. split.
  + intros k. rewrite H2, set_entry_keys. split.
    * intros [[H|H]|H]; auto.
    * intros [H|[H|H]]; auto.
  + intros k v Hin. destruct (H3 k v Hin) as [H|[q [Hq [Hk Hv]]]].
    * apply set_entry_values in H. destruct H as [H|[Hk Hv]]; [auto|].
      right. exists p. auto.
    * right. exists q. auto.
Qed.

(** X6. [batch_extract] never fails as a whole: for paths that are
    pairwise different it returns one entry per path, in input order,
    keyed by the path; the entry of a path is the extraction result, or
    the failure entry carrying the message of the exception that
    [extract_text] raised for it. *)
Theorem batch_extract_one_entry_per_path w pdf_paths :
  NoDup (map path_str pdf_paths) ->
  batch_extract w pdf_paths
  = map (fun p => (path_str p,
                   match snd (extract_text w p) with
                   | Ok res => Extraction res
                   | Raise e => Failure (exn_str e)
                   end))
        pdf_paths.
Proof.
intros Hnd. unfold batch_extract.
now rewrite batch_extract_loop_distinct.
Qed.

Lemma batch_extract_one_entry_per_path_witness :
  batch_extract Samples.world [Samples.report_pdf; Samples.notes_txt; Samples.scan_pdf]
  = [ ("docs/report.pdf", Extraction (MkExtracted Samples.report_text "pymupdf" 3));
      ("docs/notes.txt", Failure "File is not a PDF: docs/notes.txt");
      ("docs/scan.PDF", Failure "Failed to extract text from PDF: docs/scan.PDF") ].
Proof.
apply (batch_extract_one_entry_per_path Samples.world
         [Samples.report_pdf; Samples.notes_txt; Samples.scan_pdf]).
repeat constructor; simpl; intuition discriminate.
Defined.

(** X7. The dictionary [batch_extract] returns has exactly the given
    paths as keys, each once (a path given twice has one entry); every
    entry belongs to one of the given paths; and the text of an entry is
    empty exactly when it is a failure entry. *)
Theorem batch_extract_entries w pdf_paths :
  NoDup (map fst (batch_extract w pdf_paths))
  /\ (forall k, In k (map fst (batch_extract w pdf_paths))
                <-> In k (map path_str pdf_paths))
  /\ (forall k entry,
         In (k, entry) (batch_extract w pdf_paths) ->
         (exists p, In p pdf_paths /\ path_str p = k
                    /\ entry = batch_entry_of (snd (extract_text w p)))
         /\ (entry_text entry = "" <-> exists error, entry = Failure error)).
Proof.
unfold batch_extract.
destruct (batch_extract_loop_entries w pdf_paths [] (NoDup_nil _))
  as [H1 [H2 H3]].
split; [exact H1|]. split.
- intros k. rewrite H2. simpl. tauto.
- intros k entry Hin. destruct (H3 k entry Hin) as [[]|[p [Hp [Hk Hv]]]].
  split; [exists p; auto|].
  subst entry. destruct (snd (extract_text w p)) as [res|e] eqn:E; simpl.
  + apply extracted_text_not_empty in E. apply truthy_true_iff in E.
    split; [contradiction|intros [error H]; discriminate].
  + split; eauto.
Qed.

End BatchExtract.

(** * Further properties of the extractor *)

Section OrchestratorMore.
Import PyVal Extractor.

Lemma mapM_length {A B} (f : A -> result B) (l : list A) (l' : list B) :
  mapM f l = Ok l' -> length l' = length l.
Proof.
intros H. apply mapM_Forall2 in H.
induction H; simpl; congruence.
Qed.

Lemma normalize_shape (it item : pyval) :
  normalize it = Ok item ->
  exists cls txt attrs,
    getattr it "extraction_class" = Ok cls
    /\ getattr it "extraction_text" = Ok txt
    /\ getattr it "attributes" = Ok attrs
    /\ item = PDict [ ("class", cls); ("text", txt); ("attributes", attrs);
                      ("confidence", getattr_default it "confidence" PNone) ].
Proof.
unfold normalize. intros H.
destruct (getattr it "extraction_class") as [cls|]; simpl in H; [|discriminate].
destruct (getattr it "extraction_text") as [txt|]; simpl in H; [|discriminate].
destruct (getattr it "attributes") as [attrs|]; simpl in H; [|discriminate].
inversion H. exists cls, txt, attrs. auto.
Qed.

(** X8. The record an extraction run returns has one of two shapes. A
    failure: success false, no extractions, the same message under error
    and as the only entry of metadata. A success: success true, no error
    entry, every extraction a dictionary of class, text, attributes and
    confidence, the metadata's total_extractions equal to the number of
    extractions and its text_length equal to the length of the input
    text. *)
Theorem extraction_result_shape env model (text : string) template_config :
  exists r,
    extract_with_template env model text template_config = Ok r
    /\ ((exists msg,
            r = PDict [ ("extractions", PList []);
                        ("metadata", PDict [("error", PStr msg)]);
                        ("success", PBool false);
                        ("error", PStr msg) ])
        \/ (exists passes items,
               r = PDict [ ("extractions", PList items);
                           ("metadata",
                            PDict [ ("model_id", PStr model);
                                    ("extraction_passes", passes);
                                    ("total_extractions",
                                     PInt (Z.of_nat (List.length items)));
                                    ("text_length",
                                     PInt (Z.of_nat (String.length text))) ]);
                           ("success", PBool true) ]
               /\ Forall (fun item =>
                            exists cls txt attrs conf,
                              item = PDict [ ("class", cls); ("text", txt);
                                             ("attributes", attrs);
                                             ("confidence", conf) ])
                         items)).
Proof.
unfold extract_with_template.
destruct (translate_examples template_config) as [pe|e]; simpl;
  [|eexists; split; [reflexivity|left; eexists; reflexivity]].
destruct (template_settings template_config) as [st|e]; simpl;
  [|eexists; split; [reflexivity|left; eexists; reflexivity]].
unfold extract_from_text.
destruct (slice_head (fst pe)) as [[]|e]; simpl;
  [|eexists; split; [reflexivity|left; eexists; reflexivity]].
destruct (call_service _ _ _ _ _ _ _ _) as [answer|e]; simpl;
  [|eexists; split; [reflexivity|left; eexists; reflexivity]].
destruct (process_results answer) as [items|e] eqn:Hp; simpl;
  [|eexists; split; [reflexivity|left; eexists; reflexivity]].
eexists. split; [reflexivity|]. right. exists (fst (fst st)), items.
split; [reflexivity|].
unfold process_results in Hp.
destruct (hasattr answer "extractions");
  [|inversion Hp; constructor].
destruct (getattr answer "extractions") as [coll|]; simpl in Hp; [|discriminate].
destruct (iter coll) as [its|]; simpl in Hp; [|discriminate].
apply mapM_Forall2 in Hp.
induction Hp as [|it item its items Hn _ IH]; constructor; [|exact IH].
apply normalize_shape in Hn. destruct Hn as [cls [txt [attrs [_ [_ [_ ->]]]]]].
eauto.
Qed.

(** X9. Normalization keeps the answer's items one to one and in order:
    when the service answers a list of items that each carry a class, a
    text and attributes, the run succeeds with as many extractions, the
    i-th built from the i-th item, with confidence [None] where the item
    reports none. *)
Theorem normalization_preserves_items
        env model (text : string) prompt exs passes workers buffer answer its :
  slice_head prompt = Ok tt ->
  lx_extract env (service_call env model text prompt exs passes workers buffer)
  = Ok answer ->
  getattr answer "extractions" = Ok (PList its) ->
  Forall (fun it => hasattr it "extraction_class" = true
                    /\ hasattr it "extraction_text" = true
                    /\ hasattr it "attributes" = true) its ->
  exists items,
    extract_from_text env model text prompt exs passes workers buffer
    = Ok (success_record model text passes items)
    /\ length items = length its
    /\ forall i it,
        nth_error its i = Some it ->
        exists cls txt attrs,
          getattr it "extraction_class" = Ok cls
          /\ getattr it "extraction_text" = Ok txt
          /\ getattr it "attributes" = Ok attrs
          /\ nth_error items i
             = Some (PDict [ ("class", cls); ("text", txt);
                             ("attributes", attrs);
                             ("confidence",
                              getattr_default it "confidence" PNone) ]).
Proof.
intros Hs Hc Hg Hall.
assert (Hm : exists items, mapM normalize its = Ok items).
{ clear Hg. induction Hall as [|it its [H1 [H2 H3]] _ [items IH]].
  - exists []. reflexivity.
  - simpl. unfold normalize at 1. unfold hasattr in H1, H2, H3.
    destruct (getattr it "extraction_class"); [|discriminate].
    destruct (getattr it "extraction_text"); [|discriminate].
    destruct (getattr it "attributes"); [|discriminate].
    simpl. rewrite IH. simpl. eauto. }
destruct Hm as [items Hm]. exists items.
split; [|split].
- unfold extract_from_text, call_service. rewrite Hs, Hc. simpl.
  unfold process_results, hasattr. rewrite Hg. simpl. now rewrite Hm.
- now apply mapM_length in Hm.
- apply mapM_Forall2 in Hm. clear Hall Hg.
  induction Hm as [|it item its items Hn _ IH]; intros i x Hi.
  + destruct i; discriminate.
  + destruct i as [|i]; simpl in Hi |- *.
    * inversion Hi; subst x. apply normalize_shape in Hn.
      destruct Hn as [cls [txt [attrs [H1 [H2 [H3 ->]]]]]].
      exists cls, txt, attrs. auto.
    * now apply IH.
Qed.

Lemma normalization_preserves_items_witness :
  exists items,
    extract_from_text Samples.service "gemini-2.5-flash" "Invoice #7"
                      (PStr "p") [] (PInt 1) (PInt 10) (PInt 1000)
    = Ok (success_record "gemini-2.5-flash" "Invoice #7" (PInt 1) items)
    /\ length items = length [Samples.found_invoice]
    /\ forall i it,
        nth_error [Samples.found_invoice] i = Some it ->
        exists cls txt attrs,
          getattr it "extraction_class" = Ok cls
          /\ getattr it "extraction_text" = Ok txt
          /\ getattr it "attributes" = Ok attrs
          /\ nth_error items i
             = Some (PDict [ ("class", cls); ("text", txt);
                             ("attributes", attrs);
                             ("confidence",
                              getattr_default it "confidence" PNone) ]).
Proof.
apply (normalization_preserves_items Samples.service "gemini-2.5-flash"
         "Invoice #7" (PStr "p") [] (PInt 1) (PInt 10) (PInt 1000)
         (PObj "AnnotatedDocument" [("extractions", PList [Samples.found_invoice])])).
- reflexivity.
- reflexivity.
- reflexivity.
- repeat constructor.
Defined.

(** X10. The credential does not follow the backend: when
    GOOGLE_API_KEY is set and not empty, that key is handed to the
    service for every model, also for a model whose identifier contains
    "gpt" and is therefore dispatched to the OpenAI family, whatever
    OPENAI_API_KEY holds. *)
Theorem google_key_goes_to_every_backend
        env model (text : string) prompt exs passes workers buffer key :
  getenv env "GOOGLE_API_KEY" = Some key ->
  key <> "" ->
  contains "gpt" (lower model) = true ->
  let call := service_call env model text prompt exs passes workers buffer in
  language_model_type call = OpenAILanguageModel
  /\ api_key call = Some key.
Proof.
intros Hg Hne Hgpt. simpl. split.
- rewrite dispatch_by_marker. now rewrite Hgpt.
- rewrite Hg. unfold or_else at 2.
  apply truthy_true_iff in Hne. rewrite Hne.
  unfold or_else. now rewrite Hne.
Qed.

Lemma google_key_goes_to_every_backend_witness :
  let call := service_call Samples.service "gpt-4" "Invoice #7" (PStr "p") []
                           (PInt 1) (PInt 10) (PInt 1000) in
  language_model_type call = OpenAILanguageModel
  /\ api_key call = Some "secret".
Proof.
apply (google_key_goes_to_every_backend Samples.service "gpt-4" "Invoice #7"
         (PStr "p") [] (PInt 1) (PInt 10) (PInt 1000) "secret").
- reflexivity.
- discriminate.
- reflexivity.
Defined.

End OrchestratorMore.

Section ExamplesMore.
Import PyVal Extractor.

(** X11. The translation of a template's examples is one to one and
    keeps the order: when it succeeds there are as many example objects
    as examples, and the i-th object carries the text of the i-th example
    and one extraction object per extraction of that example. *)
Theorem examples_translate_one_to_one template_config prompt objs examples_list :
  translate_examples template_config = Ok (prompt, objs) ->
  get template_config "examples" (PList []) = Ok (PList examples_list) ->
  length objs = length examples_list
  /\ forall i example_data,
      nth_error examples_list i = Some example_data ->
      exists txt ext_items extractions,
        getitem example_data "text" = Ok txt
        /\ (exts <- get example_data "extractions" (PList []) ;; iter exts)
           = Ok ext_items
        /\ length extractions = length ext_items
        /\ nth_error objs i
           = Some (PObj "ExampleData" [ ("text", txt);
                                        ("extractions", PList extractions) ]).
Proof.
unfold translate_examples. intros H Hget.
destruct (get template_config "prompt" (PStr "")) as [pr|]; simpl in H;
  [|discriminate].
rewrite Hget in H. simpl in H.
destruct (mapM to_example examples_list) as [objs'|] eqn:Hm; simpl in H;
  [|discriminate].
inversion H; subst. clear H Hget. split; [now apply mapM_length in Hm|].
apply mapM_Forall2 in Hm.
induction Hm as [|ex obj exs objs Hx _ IH]; intros i x Hi.
- destruct i; discriminate.
- destruct i as [|i]; simpl in Hi |- *; [|now apply IH].
  inversion Hi; subst x. clear Hi. unfold to_example in Hx.
  destruct (get ex "extractions" (PList [])) as [exts|]; simpl in Hx;
    [|discriminate].
  destruct (iter exts) as [ext_items|] eqn:Hit; simpl in Hx; [|discriminate].
  destruct (mapM to_extraction ext_items) as [extractions|] eqn:He;
    simpl in Hx; [|discriminate].
  destruct (getitem ex "text") as [txt|]; simpl in Hx; [|discriminate].
  inversion Hx. exists txt, ext_items, extractions.
  split; [reflexivity|]. split; [exact Hit|].
  split; [now apply mapM_length in He|reflexivity].
Qed.

Lemma examples_translate_one_to_one_witness :
  length Samples.invoice_example_objects = length Samples.invoice_examples
  /\ forall i example_data,
      nth_error Samples.invoice_examples i = Some example_data ->
      exists txt ext_items extractions,
        getitem example_data "text" = Ok txt
        /\ (exts <- get example_data "extractions" (PList []) ;; iter exts)
           = Ok ext_items
        /\ length extractions = length ext_items
        /\ nth_error Samples.invoice_example_objects i
           = Some (PObj "ExampleData" [ ("text", txt);
                                        ("extractions", PList extractions) ]).
Proof.
apply (examples_translate_one_to_one Samples.invoice_template
         (PStr "Extract the invoice number.")
         Samples.invoice_example_objects Samples.invoice_examples);
  reflexivity.
Defined.

End ExamplesMore.

(** * Further properties of the result sink *)

Section SinkMore.
Import PyVal Extractor.

Lemma for_each_events {A} (env : SinkEnv) (f : A -> result string)
      (g : string -> fs_event) (l : list A) :
  forall tr tr' out,
    for_each l (fun x => iobind (lift (f x)) (fun s => perform env (g s))) tr
    = (tr', out) ->
    exists lines,
      tr' = tr ++ map g lines
      /\ (out = Ok tt -> Forall2 (fun x line => f x = Ok line) l lines).
Proof.
induction l as [|x xs IH]; intros tr tr' out H; simpl in H.
- inversion H. exists []. split; [now rewrite app_nil_r|constructor].
- unfold iobind at 1 in H. unfold iobind at 1 in H. unfold lift, perform in H.
  destruct (f x) as [s|e] eqn:Hx.
  + destruct (io_error env tr (g s)).
    * inversion H. exists []. split; [now rewrite app_nil_r|discriminate].
    * apply IH in H. destruct H as [lines [-> Hok]].
      exists (s :: lines). split; [now rewrite <- app_assoc|].
      intros E. constructor; auto.
  + inversion H. exists []. split; [now rewrite app_nil_r|discriminate].
Qed.

Lemma for_each_stops {A} (env : SinkEnv) (f : A -> result string)
      (g : string -> fs_event) (good : list A) (lines : list string)
      (bad : A) (e : exn) (rest : list A) :
  (forall tr ev, io_error env tr ev = None) ->
  Forall2 (fun x line => f x = Ok line) good lines ->
  f bad = Raise e ->
  forall tr,
    for_each (good ++ bad :: rest)
             (fun x => iobind (lift (f x)) (fun s => perform env (g s))) tr
    = (tr ++ map g lines, Raise e).
Proof.
intros Hio Hgood Hbad.
induction Hgood as [|x line good lines Hx _ IH]; intros tr; simpl.
- unfold iobind, lift. rewrite Hbad. now rewrite app_nil_r.
- unfold iobind at 1. unfold iobind at 1. unfold lift, perform.
  rewrite Hx, Hio, IH. now rewrite <- app_assoc.
Qed.

Lemma write_results_jsonl env results path tr :
  write_results env results path "jsonl" tr
  = iobind (perform env (Mkdir (parent env path))) (fun _ =>
    iobind (perform env (OpenW path)) (fun _ =>
    iobind (lift (get results "extractions" (PList []))) (fun exts =>
    iobind (lift (iter exts)) (fun its =>
    for_each its (fun extraction =>
      iobind (lift (json_dumps env extraction)) (fun line =>
      perform env (Write path (line ++ String "010" EmptyString)))))))) tr.
Proof. reflexivity. Qed.

(** X12. A result persisted as jsonl is one line per extraction item, in
    order, and nothing else: when [save_results] returns [True] it has
    made the parent directory, opened the destination and written, for
    each item of the result's extractions, the item's JSON text followed
    by a newline; metadata and success are not written. *)
Theorem jsonl_is_one_line_per_item env results path tr tr' :
  save_results env results path "jsonl" tr = (tr', true) ->
  exists its lines,
    (exts <- get results "extractions" (PList []) ;; iter exts) = Ok its
    /\ Forall2 (fun it line => json_dumps env it = Ok line) its lines
    /\ tr' = tr ++ Mkdir (parent env path) :: OpenW path
                :: map (fun line => Write path (line ++ String "010" EmptyString))
                       lines.
Proof.
unfold save_results. rewrite write_results_jsonl.
unfold iobind at 1. unfold perform at 1.
destruct (io_error env tr (Mkdir (parent env path))); [discriminate|].
unfold iobind at 1. unfold perform at 1.
destruct (io_error env _ (OpenW path)); [discriminate|].
unfold iobind at 1. unfold lift at 1.
destruct (get results "extractions" (PList [])) as [exts|]; [|discriminate].
unfold iobind at 1. unfold lift at 1.
destruct (iter exts) as [its|] eqn:Hit; [|discriminate].
destruct (for_each its _ _) as [tr1 out] eqn:Hloop.
apply (for_each_events env (json_dumps env)
         (fun line => Write path (line ++ String "010" EmptyString)))
  in Hloop.
destruct Hloop as [lines [-> Hok]].
destruct out as [[]|]; [|discriminate].
intros H. inversion H. exists its, lines. simpl. rewrite Hit.
split; [reflexivity|]. split; [now apply Hok|].
now rewrite <- !app_assoc.
Qed.

Lemma jsonl_is_one_line_per_item_witness :
  exists its lines,
    (exts <- get Samples.two_items "extractions" (PList []) ;; iter exts) = Ok its
    /\ Forall2 (fun it line => json_dumps Samples.disk it = Ok line) its lines
    /\ [ Mkdir "out"; OpenW "out/items.jsonl";
         Write "out/items.jsonl" ("<dict>" ++ String "010" EmptyString);
         Write "out/items.jsonl" ("<dict>" ++ String "010" EmptyString) ]
       = [] ++ Mkdir (parent Samples.disk "out/items.jsonl")
            :: OpenW "out/items.jsonl"
            :: map (fun line => Write "out/items.jsonl"
                                      (line ++ String "010" EmptyString))
                   lines.
Proof.
apply (jsonl_is_one_line_per_item Samples.disk Samples.two_items
                                  "out/items.jsonl" []).
reflexivity.
Defined.

(** X13. A jsonl save is not all or nothing: on a disk that refuses
    nothing, when an item cannot be serialized, [save_results] returns
    [False] after having opened the destination and written the lines of
    all items before it. *)
Theorem jsonl_failure_leaves_partial_output
        env results path tr good lines bad e rest :
  (forall tr ev, io_error env tr ev = None) ->
  (exts <- get results "extractions" (PList []) ;; iter exts)
  = Ok (good ++ bad :: rest) ->
  Forall2 (fun it line => json_dumps env it = Ok line) good lines ->
  json_dumps env bad = Raise e ->
  save_results env results path "jsonl" tr
  = (tr ++ Mkdir (parent env path) :: OpenW path
        :: map (fun line => Write path (line ++ String "010" EmptyString)) lines,
     false).
Proof.
intros Hio Hits Hgood Hbad.
unfold save_results. rewrite write_results_jsonl.
unfold iobind at 1. unfold perform at 1. rewrite Hio.
unfold iobind at 1. unfold perform at 1. rewrite Hio.
unfold iobind at 1. unfold lift at 1.
destruct (get results "extractions" (PList [])) as [exts|]; [|discriminate].
simpl in Hits. unfold iobind at 1. unfold lift at 1. rewrite Hits.
rewrite (for_each_stops env (json_dumps env)
           (fun line => Write path (line ++ String "010" EmptyString))
           good lines bad e rest Hio Hgood Hbad).
now rewrite <- !app_assoc.
Qed.

Lemma jsonl_failure_leaves_partial_output_witness :
  save_results Samples.open_disk Samples.half_serializable "out/items.jsonl"
               "jsonl" []
  = ([] ++ Mkdir (parent Samples.open_disk "out/items.jsonl")
        :: OpenW "out/items.jsonl"
        :: map (fun line => Write "out/items.jsonl"
                                  (line ++ String "010" EmptyString))
               ["<dict>"],
     false).
Proof.
apply (jsonl_failure_leaves_partial_output Samples.open_disk
         Samples.half_serializable "out/items.jsonl" []
         [PDict [("class", PStr "Invoice")]] ["<dict>"]
         (PObj "Extraction" []) (Samples.not_serializable (PObj "Extraction" []))
         [PDict [("class", PStr "Vendor")]]).
- reflexivity.
- reflexivity.
- repeat constructor.
- reflexivity.
Defined.

(** X14. A csv save builds its rows before it opens the destination:
    when the rows of a result cannot be built (the extractions cannot be
    iterated, or an item has no class or text, or its attributes are no
    dictionary), [save_results] returns [False] for the csv format and
    has put nothing into the destination; it has made the parent
    directory, unless that was refused. *)
Theorem csv_rows_fail_before_destination env results path tr e :
  flat_data results = Raise e ->
  exists added,
    save_results env results path "csv" tr = (tr ++ added, false)
    /\ (added = [] \/ added = [Mkdir (parent env path)])
    /\ existsb (is_output path) added = false.
Proof.
intros Hflat. unfold save_results. rewrite write_results_csv.
unfold iobind, perform, lift. rewrite Hflat.
destruct (io_error env tr (Mkdir (parent env path))).
- exists []. rewrite app_nil_r. repeat split. now left.
- exists [Mkdir (parent env path)]. repeat split. now right.
Qed.

Lemma csv_rows_fail_before_destination_witness :
  exists added,
    save_results Samples.disk Samples.half_serializable "out/x.csv" "csv" []
    = ([] ++ added, false)
    /\ (added = [] \/ added = [Mkdir (parent Samples.disk "out/x.csv")])
    /\ existsb (is_output "out/x.csv") added = false.
Proof.
apply (csv_rows_fail_before_destination
         Samples.disk Samples.half_serializable "out/x.csv" []
         (key_error "text")).
reflexivity.
Defined.

Ltac destination_events Hself :=
  repeat (apply Forall_cons;
          [first [left; reflexivity | right; exact Hself]|]);
  apply Forall_nil.

(** X15. [save_results] touches nothing but its destination: whatever the
    format and the outcome, the events it adds are the making of the
    destination's parent directory and operations on the destination
    itself, and the events that were there before are kept. *)
Theorem save_results_touches_only_destination env results path format tr :
  exists added,
    fst (save_results env results path format tr) = tr ++ added
    /\ Forall (fun ev => ev = Mkdir (parent env path)
                         \/ is_output path ev = true) added.
Proof.
assert (Hself : (path =? path) = true) by apply String.eqb_refl.
unfold save_results, write_results.
unfold iobind at 1. unfold perform at 1.
destruct (io_error env tr (Mkdir (parent env path))).
{ exists []. simpl. split; [now rewrite app_nil_r|constructor]. }
destruct (lower format =? "json").
{ unfold iobind at 1. unfold perform at 1.
  destruct (io_error env _ (OpenW path)).
  { exists [Mkdir (parent env path)]. simpl. split; [reflexivity|].
    destination_events Hself. }
  destruct (json_dump env _ results path _) as [tr1 out] eqn:Hdump.
  apply json_dump_events in Hdump. destruct Hdump as [written [-> _]].
  exists ([Mkdir (parent env path); OpenW path] ++ map (Write path) written).
  split.
  - destruct out; simpl; now rewrite <- !app_assoc.
  - apply Forall_app. split; [destination_events Hself|].
    apply Forall_forall. intros ev Hin. apply in_map_iff in Hin.
    destruct Hin as [chunk [<- _]]. right. exact Hself. }
destruct (lower format =? "jsonl").
{ unfold iobind at 1. unfold perform at 1.
  destruct (io_error env _ (OpenW path)).
  { exists [Mkdir (parent env path)]. simpl. split; [reflexivity|].
    destination_events Hself. }
  unfold iobind at 1. unfold lift at 1.
  assert (Hopen : Forall (fun ev => ev = Mkdir (parent env path)
                                    \/ is_output path ev = true)
                         [Mkdir (parent env path); OpenW path])
    by destination_events Hself.
  destruct (get results "extractions" (PList [])) as [exts|].
  2:{ simpl. exists [Mkdir (parent env path); OpenW path].
      split; [now rewrite <- app_assoc|exact Hopen]. }
  unfold iobind at 1. unfold lift at 1.
  destruct (iter exts) as [its|].
  2:{ simpl. exists [Mkdir (parent env path); OpenW path].
      split; [now rewrite <- app_assoc|exact Hopen]. }
  destruct (for_each its _ _) as [tr1 out] eqn:Hloop.
  apply (for_each_events env (json_dumps env)
           (fun line => Write path (line ++ String "010" EmptyString)))
    in Hloop.
  destruct Hloop as [lines [-> _]].
  exists ([Mkdir (parent env path); OpenW path]
            ++ map (fun line => Write path (line ++ String "010" EmptyString))
                   lines).
  split.
  - destruct out; simpl; now rewrite <- !app_assoc.
  - apply Forall_app. split; [exact Hopen|].
    apply Forall_forall. intros ev Hin. apply in_map_iff in Hin.
    destruct Hin as [line [<- _]]. right. exact Hself. }
destruct (lower format =? "csv").
{ unfold to_csv, iobind, perform, lift.
  destruct (flat_data results) as [rows|].
  - destruct (io_error env _ (OpenW path)); simpl.
    { exists [Mkdir (parent env path)]. split; [reflexivity|].
      destination_events Hself. }
    destruct (io_error env _ (ToCsv path (DataFrame_of rows))); simpl.
    + exists [Mkdir (parent env path); OpenW path].
      split; [now rewrite <- app_assoc|destination_events Hself].
    + exists [Mkdir (parent env path); OpenW path;
              ToCsv path (DataFrame_of rows)].
      split; [now rewrite <- !app_assoc|destination_events Hself].
  - simpl. exists [Mkdir (parent env path)]. split; [reflexivity|].
    destination_events Hself. }
simpl. exists [Mkdir (parent env path)]. split; [reflexivity|].
destination_events Hself.
Qed.

(** X16. [generate_visualization] never raises and reports a path only
    for a file it has written: with a non-empty output path it returns
    that path exactly when the library's page was a string and has been
    written to the path, and [None] otherwise, the file then being at
    most opened; without an output path, or with an empty one, it touches
    no file and returns the library's page, or [None] when the library
    raised. *)
Theorem visualization_reports_written_files env lx_visualize jsonl_path tr :
  (forall path,
      path <> "" ->
      let run := generate_visualization env lx_visualize jsonl_path
                                        (Some path) tr in
      (snd run = PStr path
       /\ exists page, lx_visualize jsonl_path = Ok (PStr page)
                       /\ fst run = tr ++ [OpenW path; Write path page])
      \/ (snd run = PNone
          /\ (fst run = tr \/ fst run = tr ++ [OpenW path])))
  /\ (forall output_html,
         output_html = None \/ output_html = Some "" ->
         generate_visualization env lx_visualize jsonl_path output_html tr
         = (tr, match lx_visualize jsonl_path with
                | Ok page => page
                | Raise _ => PNone
                end)).
Proof.
split.
- intros path Hne. apply truthy_true_iff in Hne.
  unfold generate_visualization, render_visualization, iobind, lift, perform.
  rewrite Hne.
  destruct (lx_visualize jsonl_path) as [page|e]; simpl; [|right; auto].
  destruct (io_error env tr (OpenW path)); simpl; [right; auto|].
  destruct page; simpl; try solve [right; auto].
  destruct (io_error env _ (Write path s)); simpl; [right; auto|].
  left. split; [reflexivity|]. exists s.
  split; [reflexivity|now rewrite <- app_assoc].
- intros output_html [H|H]; subst output_html;
    unfold generate_visualization, render_visualization, iobind, lift;
    simpl; now destruct (lx_visualize jsonl_path).
Qed.

Lemma visualization_reports_written_files_witness :
  generate_visualization Samples.disk (fun _ => Ok (PStr "<html>")) "r.jsonl"
                         (Some "") []
  = ([], PStr "<html>").
Proof.
apply (proj2 (visualization_reports_written_files
                Samples.disk (fun _ => Ok (PStr "<html>")) "r.jsonl" [])).
now right.
Defined.

End SinkMore.

(** * Further properties of the command line *)

Section Override.
Import PyVal PdfProcessor Extractor Utils Cli.

Lemma assoc_dict_set_same d k v : assoc k (dict_set d k v) = Some v.
Proof.
induction d as [|[k' v'] d IH]; simpl.
- now rewrite String.eqb_refl.
- destruct (String.eqb_spec k' k) as [->|Hne]; simpl.
  + now rewrite String.eqb_refl.
  + destruct (String.eqb_spec k' k); [contradiction|exact IH].
Qed.

Lemma assoc_dict_set_other d k k' v :
  k' <> k -> assoc k' (dict_set d k v) = assoc k' d.
Proof.
intros Hne. induction d as [|[k0 v0] d IH]; simpl.
- destruct (String.eqb_spec k k'); [now subst|reflexivity].
- destruct (String.eqb_spec k0 k) as [->|Hk]; simpl.
  + destruct (String.eqb_spec k k'); [now subst|reflexivity].
  + destruct (String.eqb_spec k0 k'); [reflexivity|exact IH].
Qed.

(** X17. The numbers given on the command line reach the service: for a
    template whose settings are a dictionary, the two assignments succeed,
    leave the prompt and the examples as they were, and the extraction
    run on the changed template hands the service the command line's
    passes and workers, with the template's own max_char_buffer (1000
    when it has none). *)
Theorem cli_settings_reach_service
        env model (text : string) d st passes workers :
  assoc "settings" d = Some (PDict st) ->
  exists changed,
    override_settings (PDict d) passes workers = Ok changed
    /\ translate_examples changed = translate_examples (PDict d)
    /\ extract_with_template env model text changed
       = match translate_examples (PDict d) with
         | Ok pe =>
             extract_from_text env model text (fst pe) (snd pe) passes workers
               (match assoc "max_char_buffer" st with
                | Some buffer => buffer
                | None => PInt 1000
                end)
         | Raise e => Ok (failure_record e)
         end.
Proof.
intros Hst. unfold override_settings. simpl. rewrite Hst. simpl.
eexists. split; [reflexivity|].
assert (Htr : translate_examples
                (PDict (dict_set d "settings"
                          (PDict (dict_set (dict_set st "extraction_passes" passes)
                                           "max_workers" workers))))
              = translate_examples (PDict d)).
{ unfold translate_examples. simpl.
  rewrite !assoc_dict_set_other by discriminate. reflexivity. }
split; [exact Htr|].
unfold extract_with_template. rewrite Htr.
destruct (translate_examples (PDict d)) as [pe|e]; simpl; [|reflexivity].
unfold template_settings. simpl. rewrite assoc_dict_set_same. simpl.
rewrite assoc_dict_set_same.
rewrite (assoc_dict_set_other _ "max_workers" "extraction_passes") by discriminate.
rewrite assoc_dict_set_same.
rewrite !(assoc_dict_set_other _ _ "max_char_buffer") by discriminate.
destruct (assoc "max_char_buffer" st); simpl; unfold extract_from_text;
  match goal with
  | |- try_except (try_except ?b ?h) ?h' = _ => now destruct b
  end.
Qed.

Lemma cli_settings_reach_service_witness :
  exists changed,
    override_settings Samples.invoice_template (PInt 3) (PInt 4) = Ok changed
    /\ translate_examples changed = translate_examples Samples.invoice_template
    /\ extract_with_template Samples.service "gemini-2.5-flash" "Invoice #7" changed
       = match translate_examples Samples.invoice_template with
         | Ok pe =>
             extract_from_text Samples.service "gemini-2.5-flash" "Invoice #7"
               (fst pe) (snd pe) (PInt 3) (PInt 4)
               (match assoc "max_char_buffer"
                            [ ("extraction_passes", PInt 1);
                              ("max_workers", PInt 10);
                              ("max_char_buffer", PInt 1000) ] with
                | Some buffer => buffer
                | None => PInt 1000
                end)
         | Raise e => Ok (failure_record e)
         end.
Proof.
apply (cli_settings_reach_service Samples.service "gemini-2.5-flash" "Invoice #7").
reflexivity.
Defined.

(** X18. A custom template may pass the loader and still stop both
    commands: the loader does not ask for settings, the extraction run
    itself would fall back on 1 pass, 10 workers and a buffer of 1000,
    but the assignment of the command line's numbers raises
    [KeyError('settings')] on a template without that entry. *)
Theorem template_without_settings_stops_override
        fs template_path d passes workers :
  load_custom_template fs template_path = Ok (PDict d) ->
  assoc "settings" d = None ->
  override_settings (PDict d) passes workers = Raise (Exn "KeyError" "'settings'")
  /\ template_settings (PDict d) = Ok (PInt 1, PInt 10, PInt 1000).
Proof.
intros _ Hno. unfold override_settings, template_settings. simpl.
now rewrite Hno.
Qed.

Lemma template_without_settings_stops_override_witness :
  override_settings Samples.broken_template (PInt 2) (PInt 5)
  = Raise (Exn "KeyError" "'settings'")
  /\ template_settings Samples.broken_template = Ok (PInt 1, PInt 10, PInt 1000).
Proof.
apply (template_without_settings_stops_override Samples.bare_templates
         "t/bare.json"
         [ ("name", PStr "broken"); ("prompt", PStr "Extract.");
           ("examples", PList [ PDict [ ("extractions", PList []) ] ]) ]);
  reflexivity.
Defined.

(** X19. The batch loop does not look at the success of the extraction:
    a file whose text was extracted but whose extraction run failed is
    saved like any other and recorded with status 'success' and zero
    extractions, as long as the failure record could be written. *)
Theorem batch_records_failed_run_as_success
        env model template_config output_dir format pdf_file tr tr' res e :
  snd (extract_text (pdf_world env) pdf_file) = Ok res ->
  extract_with_template (extractor_env env) model (text res) template_config
  = Ok (failure_record e) ->
  save_results (sink_env env) (failure_record e)
               (joinpath (sink_env env) output_dir
                         (path_stem pdf_file ++ "_extracted." ++ format))
               format tr
  = (tr', true) ->
  batch_step env model template_config output_dir format pdf_file tr
  = (tr', PDict [ ("file", PStr (path_name pdf_file));
                  ("status", PStr "success");
                  ("extractions", PInt 0);
                  ("output_file",
                   PStr (joinpath (sink_env env) output_dir
                                  (path_stem pdf_file ++ "_extracted." ++ format))) ]).
Proof.
intros Htext Hrun Hsave.
unfold batch_step, process_file, iobind, lift.
rewrite Htext, (extracted_text_not_empty _ _ _ Htext).
change (negb true) with false. cbv beta iota.
rewrite Hrun, Hsave. reflexivity.
Qed.

Lemma batch_records_failed_run_as_success_witness :
  batch_step Samples.office_down "gemini-2.5-flash" Samples.invoice_template
             "out" "json" Samples.file_a []
  = ([Mkdir "out"; OpenW "out/a_extracted.json";
      Write "out/a_extracted.json" "<dict>"],
     PDict [ ("file", PStr "a.pdf");
             ("status", PStr "success");
             ("extractions", PInt 0);
             ("output_file", PStr "out/a_extracted.json") ]).
Proof.
apply (batch_records_failed_run_as_success Samples.office_down
         "gemini-2.5-flash" Samples.invoice_template "out" "json"
         Samples.file_a []
         [Mkdir "out"; OpenW "out/a_extracted.json";
          Write "out/a_extracted.json" "<dict>"]
         (MkExtracted ("--- Page 1 ---" ++ String "010" "Invoice #7")
                      "pdfplumber" 1)
         (Exn "Exception" "LangExtract API error: service unavailable"));
  reflexivity.
Defined.

End Override.

(** * Properties of the utilities *)

Section Formats.
Import PyVal Extractor Utils.

(** X20. [validate_output_format] accepts a name exactly when its
    lower-cased, trimmed form is one of json, jsonl, csv and html; what it
    returns is that form, and validating the result again returns it
    unchanged. *)
Theorem validate_output_format_normalizes (format_name : string) :
  (In (strip (lower format_name)) ["json"; "jsonl"; "csv"; "html"] ->
   validate_output_format format_name = Ok (strip (lower format_name))
   /\ validate_output_format (strip (lower format_name))
      = Ok (strip (lower format_name)))
  /\ (~ In (strip (lower format_name)) ["json"; "jsonl"; "csv"; "html"] ->
      validate_output_format format_name
      = Raise (Exn "ValueError"
                   ("Unsupported format: " ++ strip (lower format_name)
                      ++ ". Supported: ['json', 'jsonl', 'csv', 'html']"))).
Proof.
unfold validate_output_format. split.
- intros Hin.
  assert (E : existsb (String.eqb (strip (lower format_name))) supported_formats
              = true).
  { apply existsb_exists. exists (strip (lower format_name)).
    split; [exact Hin|apply String.eqb_refl]. }
  rewrite E. split; [reflexivity|].
  destruct Hin as [<-|[<-|[<-|[<-|[]]]]]; reflexivity.
- intros Hnot.
  destruct (existsb (String.eqb (strip (lower format_name))) supported_formats)
    eqn:E; [|reflexivity].
  apply existsb_exists in E. destruct E as [g [Hin Heq]].
  apply String.eqb_eq in Heq. subst g. contradiction.
Qed.

Lemma validate_output_format_normalizes_witness :
  validate_output_format ("  JSONL" ++ String "010" "")
  = Ok (strip (lower ("  JSONL" ++ String "010" "")))
  /\ validate_output_format (strip (lower ("  JSONL" ++ String "010" "")))
     = Ok (strip (lower ("  JSONL" ++ String "010" ""))).
Proof.
apply (proj1 (validate_output_format_normalizes ("  JSONL" ++ String "010" ""))).
right. left. reflexivity.
Defined.

(** X21. Every format [validate_output_format] lets through, except
    html, is one [save_results] writes: when the save then returns
    [True], the parent directory was made first and output went to the
    destination. *)
Theorem validated_format_is_written
        env results path format_name format tr tr' :
  validate_output_format format_name = Ok format ->
  format <> "html" ->
  save_results env results path format tr = (tr', true) ->
  exists rest,
    tr' = tr ++ Mkdir (parent env path) :: rest
    /\ existsb (is_output path) rest = true.
Proof.
unfold validate_output_format. intros Hv Hhtml Hsave.
destruct (existsb (String.eqb (strip (lower format_name))) supported_formats)
  eqn:E; [|discriminate].
inversion Hv as [Hf]. clear Hv.
apply existsb_exists in E. destruct E as [g [Hin Heq]].
apply String.eqb_eq in Heq. rewrite Hf in Heq. subst g.
apply (save_results_written env results path format tr tr'); [|exact Hsave].
destruct Hin as [<-|[<-|[<-|[<-|[]]]]]; auto. contradiction.
Qed.

Lemma validated_format_is_written_witness :
  exists rest,
    [Mkdir "out"; OpenW "out/items.json"; Write "out/items.json" "<dict>"]
    = [] ++ Mkdir (parent Samples.disk "out/items.json") :: rest
    /\ existsb (is_output "out/items.json") rest = true.
Proof.
apply (validated_format_is_written Samples.disk Samples.two_items
         "out/items.json" " Json " "json" []).
- reflexivity.
- discriminate.
- reflexivity.
Defined.

End Formats.

Section Sanitize.
Import Utils.

Lemma append_nil_r (s : string) : (s ++ "")%string = s.
Proof. induction s as [|c s IH]; simpl; [reflexivity|now rewrite IH]. Qed.

Lemma length_append (a b : string) :
  String.length (a ++ b) = String.length a + String.length b.
Proof. induction a as [|c a IH]; simpl; [reflexivity|now rewrite IH]. Qed.

Lemma take_drop (n : nat) (s : string) : (take n s ++ drop n s)%string = s.
Proof.
revert s. induction n as [|n IH]; intros [|c s]; simpl; try reflexivity.
now rewrite IH.
Qed.

Lemma length_take (n : nat) (s : string) :
  String.length (take n s) = Nat.min n (String.length s).
Proof.
revert s. induction n as [|n IH]; intros [|c s]; simpl; try reflexivity.
now rewrite IH.
Qed.

Lemma chars_append (a b : string) (c : ascii) :
  In c (list_ascii_of_string (a ++ b))
  <-> In c (list_ascii_of_string a) \/ In c (list_ascii_of_string b).
Proof.
induction a as [|x a IH]; simpl; [tauto|]. rewrite IH. tauto.
Qed.

Lemma chars_take (n : nat) (s : string) (c : ascii) :
  In c (list_ascii_of_string (take n s)) -> In c (list_ascii_of_string s).
Proof.
intros H. rewrite <- (take_drop n s). apply chars_append. now left.
Qed.

Lemma chars_drop (n : nat) (s : string) (c : ascii) :
  In c (list_ascii_of_string (drop n s)) -> In c (list_ascii_of_string s).
Proof.
intros H. rewrite <- (take_drop n s). apply chars_append. now right.
Qed.

Lemma chars_slice_to (k : Z) (s : string) (c : ascii) :
  In c (list_ascii_of_string (slice_to k s)) -> In c (list_ascii_of_string s).
Proof. unfold slice_to. destruct (0 <=? k)%Z; apply chars_take. Qed.

Lemma splitext_concat (p : string) :
  (fst (splitext p) ++ snd (splitext p))%string = p.
Proof.
unfold splitext. destruct (rfind "." p) as [d|]; [|apply append_nil_r].
destruct (_ && _); simpl; [apply take_drop|apply append_nil_r].
Qed.

Lemma replace_invalid_cons (c : ascii) (r : string) :
  replace_invalid (String c r) = String (sanitize_char c) (replace_invalid r).
Proof. reflexivity. Qed.

Lemma sanitize_char_spec (c : ascii) :
  sanitize_char c
  = if existsb (Ascii.eqb c) invalid_chars then "_"%char else c.
Proof.
destruct c as [[] [] [] [] [] [] [] []]; reflexivity.
Qed.

Lemma sanitize_char_valid (c : ascii) :
  existsb (Ascii.eqb (sanitize_char c)) invalid_chars = false.
Proof.
destruct c as [[] [] [] [] [] [] [] []]; reflexivity.
Qed.

Lemma existsb_eqb_In (c : ascii) (l : list ascii) :
  existsb (Ascii.eqb c) l = true <-> In c l.
Proof.
rewrite existsb_exists. split.
- intros [x [Hin Heq]]. apply Ascii.eqb_eq in Heq. now subst.
- intros Hin. exists c. split; [exact Hin|apply Ascii.eqb_refl].
Qed.

Lemma replace_invalid_valid (s : string) (c : ascii) :
  In c (list_ascii_of_string (replace_invalid s)) -> ~ In c invalid_chars.
Proof.
induction s as [|x s IH]; [intros []|].
rewrite replace_invalid_cons. intros H. simpl in H.
destruct H as [<-|H]; [|now apply IH].
intros Hin. apply existsb_eqb_In in Hin.
rewrite sanitize_char_valid in Hin. discriminate.
Qed.

Lemma replace_invalid_length (s : string) :
  String.length (replace_invalid s) = String.length s.
Proof.
induction s as [|x s IH]; [reflexivity|].
rewrite replace_invalid_cons. simpl. now rewrite IH.
Qed.

Lemma replace_invalid_fixpoint (s : string) :
  (forall c, In c (list_ascii_of_string s) -> ~ In c invalid_chars) ->
  replace_invalid s = s.
Proof.
induction s as [|x s IH]; intros H; [reflexivity|].
rewrite replace_invalid_cons, IH by (intros c Hc; apply H; now right).
rewrite sanitize_char_spec.
destruct (existsb (Ascii.eqb x) invalid_chars) eqn:E; [|reflexivity].
apply existsb_eqb_In in E. elim (H x); [now left|exact E].
Qed.

Lemma sanitize_filename_has_no_invalid_char_aux (filename : string) (c : ascii) :
  In c (list_ascii_of_string (sanitize_filename filename)) ->
  ~ In c invalid_chars.
Proof.
unfold sanitize_filename.
destruct (200 <? String.length (replace_invalid filename))%nat.
- pose proof (splitext_concat (replace_invalid filename)) as Hcat.
  destruct (splitext (replace_invalid filename)) as [name ext].
  simpl in Hcat. intros H. apply chars_append in H.
  apply (replace_invalid_valid filename). rewrite <- Hcat.
  apply chars_append. destruct H as [H|H]; [left|now right].
  now apply chars_slice_to in H.
- apply replace_invalid_valid.
Qed.

(** X22. The name [sanitize_filename] returns holds none of the nine
    characters it replaces, whether or not the name was cut. *)
Theorem sanitize_filename_has_no_invalid_char (filename : string) (c : ascii) :
  In c (list_ascii_of_string (sanitize_filename filename)) ->
  ~ In c [ "<"; ">"; ":"; "034"; "/"; "092"; "|"; "?"; "*" ]%char.
Proof.
unfold sanitize_filename.
destruct (200 <? String.length (replace_invalid filename))%nat.
- pose proof (splitext_concat (replace_invalid filename)) as Hcat.
  destruct (splitext (replace_invalid filename)) as [name ext].
  simpl in Hcat. intros H. apply chars_append in H.
  apply (replace_invalid_valid filename). rewrite <- Hcat.
  apply chars_append. destruct H as [H|H]; [left|now right].
  now apply chars_slice_to in H.
- apply replace_invalid_valid.
Qed.

Lemma sanitize_filename_has_no_invalid_char_witness :
  ~ In "_"%char [ "<"; ">"; ":"; "034"; "/"; "092"; "|"; "?"; "*" ]%char.
Proof.
apply (sanitize_filename_has_no_invalid_char "file<>name.pdf" "_"%char).
vm_compute. tauto.
Defined.

(** X23. The limit of 200 characters holds exactly when the extension is
    itself at most 200 characters long: a longer extension is kept whole
    and the result is longer than 200. *)
Theorem sanitize_filename_length_bound (filename : string) :
  String.length (sanitize_filename filename) <= 200
  <-> String.length (snd (splitext (replace_invalid filename))) <= 200.
Proof.
unfold sanitize_filename.
pose proof (splitext_concat (replace_invalid filename)) as Hcat.
apply (f_equal String.length) in Hcat. rewrite length_append in Hcat.
destruct (Nat.ltb_spec 200 (String.length (replace_invalid filename))) as [L|L].
- destruct (splitext (replace_invalid filename)) as [name ext].
  cbn [fst snd] in *.
  rewrite length_append. unfold slice_to.
  destruct (Z.leb_spec 0 (200 - Z.of_nat (String.length ext))) as [K|K];
    rewrite length_take; lia.
- lia.
Qed.

(** X24. Cutting keeps the extension and cuts the stem: a name that is
    longer than 200 characters and whose extension is at most 200
    characters long becomes the first characters of its stem followed by
    the whole extension, 200 characters in all. *)
Theorem sanitize_filename_keeps_extension (filename : string) :
  200 < String.length filename ->
  String.length (snd (splitext (replace_invalid filename))) <= 200 ->
  let name := fst (splitext (replace_invalid filename)) in
  let ext := snd (splitext (replace_invalid filename)) in
  sanitize_filename filename
  = (take (200 - String.length ext) name ++ ext)%string
  /\ String.length (sanitize_filename filename) = 200.
Proof.
intros Hlong Hext name ext. subst name ext. unfold sanitize_filename.
pose proof (splitext_concat (replace_invalid filename)) as Hcat.
apply (f_equal String.length) in Hcat. rewrite length_append in Hcat.
rewrite replace_invalid_length in Hcat.
destruct (Nat.ltb_spec 200 (String.length (replace_invalid filename))) as [L|L];
  [|rewrite replace_invalid_length in L; lia].
destruct (splitext (replace_invalid filename)) as [name ext].
cbn [fst snd] in *.
unfold slice_to.
destruct (Z.leb_spec 0 (200 - Z.of_nat (String.length ext))) as [K|K]; [|lia].
replace (Z.to_nat (200 - Z.of_nat (String.length ext)))
  with (200 - String.length ext) by lia.
split; [reflexivity|].
rewrite length_append, length_take. lia.
Qed.

Lemma sanitize_filename_keeps_extension_witness :
  let filename := (Samples.long_stem ++ ".pdf")%string in
  let name := fst (splitext (replace_invalid filename)) in
  let ext := snd (splitext (replace_invalid filename)) in
  sanitize_filename filename
  = (take (200 - String.length ext) name ++ ext)%string
  /\ String.length (sanitize_filename filename) = 200.
Proof.
apply (sanitize_filename_keeps_extension (Samples.long_stem ++ ".pdf")).
- vm_compute. lia.
- vm_compute. lia.
Defined.

(** X25. A name of at most 200 characters keeps its length; each of its
    characters is replaced by an underscore if it is one of the nine and
    kept otherwise; and sanitizing a result of at most 200 characters
    again changes nothing. *)
Theorem sanitize_filename_short_names (filename : string) :
  (String.length filename <= 200 ->
   String.length (sanitize_filename filename) = String.length filename
   /\ forall i,
       String.get i (sanitize_filename filename)
       = option_map (fun c => if existsb (Ascii.eqb c) invalid_chars
                              then "_"%char else c)
                    (String.get i filename))
  /\ (String.length (sanitize_filename filename) <= 200 ->
      sanitize_filename (sanitize_filename filename)
      = sanitize_filename filename).
Proof.
split.
- intros Hlen. unfold sanitize_filename.
  destruct (Nat.ltb_spec 200 (String.length (replace_invalid filename))) as [L|L];
    [rewrite replace_invalid_length in L; lia|].
  split; [apply replace_invalid_length|].
  clear. induction filename as [|c s IH]; intros i; [reflexivity|].
  rewrite replace_invalid_cons. destruct i as [|i]; simpl.
  + now rewrite sanitize_char_spec.
  + apply IH.
- intros Hlen.
  assert (Hfix : replace_invalid (sanitize_filename filename)
                 = sanitize_filename filename).
  { apply replace_invalid_fixpoint. intros c.
    apply sanitize_filename_has_no_invalid_char_aux. }
  unfold sanitize_filename at 1. rewrite Hfix.
  destruct (Nat.ltb_spec 200 (String.length (sanitize_filename filename)));
    [lia|reflexivity].
Qed.

Lemma sanitize_filename_short_names_witness :
  sanitize_filename (sanitize_filename "file|name?.pdf")
  = sanitize_filename "file|name?.pdf".
Proof.
apply (proj2 (sanitize_filename_short_names "file|name?.pdf")).
vm_compute. lia.
Defined.

End Sanitize.

Section Discovery.
Import PdfProcessor Utils.

(** X26. [find_pdf_files] lists the files of the directory itself twice:
    its result is the matches of "*.pdf" followed by the matches of
    "**/*.pdf", so a file that both patterns match (as the recursive
    pattern does for every file of the directory itself) stands at two
    places of the list. *)
Theorem find_pdf_files_lists_top_level_twice fs directory files :
  find_pdf_files fs directory = Ok files ->
  (forall p, In p (glob fs directory "*.pdf") ->
             In p (glob fs directory "**/*.pdf")) ->
  length files
  = length (glob fs directory "*.pdf") + length (glob fs directory "**/*.pdf")
  /\ forall p,
      In p (glob fs directory "*.pdf") ->
      exists i j, i < j /\ nth_error files i = Some p
                  /\ nth_error files j = Some p.
Proof.
unfold find_pdf_files. destruct (negb (dir_exists fs directory)); [discriminate|].
intros H Hrec. inversion H. subst files. clear H.
split; [apply length_app|].
intros p Hp. pose proof (Hrec p Hp) as Hp'.
apply In_nth_error in Hp. destruct Hp as [i Hi].
apply In_nth_error in Hp'. destruct Hp' as [j Hj].
assert (Hlt : i < length (glob fs directory "*.pdf"))
  by (apply nth_error_Some; congruence).
exists i, (length (glob fs directory "*.pdf") + j). split; [lia|]. split.
- now rewrite nth_error_app1.
- rewrite nth_error_app2 by lia.
  now replace (length (glob fs directory "*.pdf") + j
               - length (glob fs directory "*.pdf")) with j by lia.
Qed.

Lemma find_pdf_files_lists_top_level_twice_witness :
  length [Samples.file_a; Samples.file_a;
          MkPath "in/sub/z.pdf" "z.pdf" "z" ".pdf"]
  = length (glob Samples.inbox "in" "*.pdf")
    + length (glob Samples.inbox "in" "**/*.pdf")
  /\ forall p,
      In p (glob Samples.inbox "in" "*.pdf") ->
      exists i j, i < j
                  /\ nth_error [Samples.file_a; Samples.file_a;
                                MkPath "in/sub/z.pdf" "z.pdf" "z" ".pdf"] i
                     = Some p
                  /\ nth_error [Samples.file_a; Samples.file_a;
                                MkPath "in/sub/z.pdf" "z.pdf" "z" ".pdf"] j
                     = Some p.
Proof.
apply (find_pdf_files_lists_top_level_twice Samples.inbox "in").
- reflexivity.
- intros p [<-|[]]. now left.
Defined.

End Discovery.

Section ApiKeys.
Import PyVal Extractor Utils Cli.

Lemma ask_for_key_holds environ :
  forall n answers after check,
    length answers <= n ->
    ask_for_key environ answers = (after, Ok check) ->
    key_check_holds environ after check.
Proof.
assert (Hno : key_check_holds environ environ (MkKeyCheck false None None)).
{ split; simpl; [discriminate|auto]. }
assert (Hyes : forall name key,
           name = "GOOGLE_API_KEY" \/ name = "OPENAI_API_KEY" ->
           truthy key = true ->
           key_check_holds environ (setenv environ name key)
             (MkKeyCheck true (Some key)
                (Some (get_recommended_model_for_provider
                         (setenv environ name key))))).
{ intros name key Hname Hkey. split; simpl; [|discriminate].
  intros _. exists key. split; [reflexivity|].
  split; [now apply truthy_true_iff|]. split; [|reflexivity].
  destruct Hname as [Hn|Hn]; subst name; [left|right]; reflexivity. }
induction n as [|n IH]; intros answers after check Hlen H.
- destruct answers; [discriminate|simpl in Hlen; lia].
- destruct answers as [|choice rest]; [discriminate|].
  simpl in Hlen. simpl in H.
  destruct (strip choice =? "1").
  + destruct rest as [|typed rest']; [discriminate|].
    destruct (truthy (strip typed)) eqn:Hk.
    * inversion H; subst. apply Hyes; auto.
    * destruct rest' as [|answer rest'']; [discriminate|].
      destruct (negb _).
      -- inversion H; subst. exact Hno.
      -- apply (IH rest''); [simpl in Hlen; lia|exact H].
  + destruct (strip choice =? "2").
    * destruct rest as [|typed rest']; [discriminate|].
      destruct (truthy (strip typed)) eqn:Hk.
      -- inversion H; subst. apply Hyes; auto.
      -- destruct rest' as [|answer rest'']; [discriminate|].
         destruct (negb _).
         ++ inversion H; subst. exact Hno.
         ++ apply (IH rest''); [simpl in Hlen; lia|exact H].
    * destruct rest as [|answer rest']; [discriminate|].
      destruct (negb _).
      -- inversion H; subst. exact Hno.
      -- apply (IH rest'); [simpl in Hlen; lia|exact H].
Qed.

(** X27. When [validate_api_key] reports success, it returns a key that
    is not empty and that the environment it leaves holds under
    GOOGLE_API_KEY or OPENAI_API_KEY, together with the model recommended
    for that environment; when it reports failure, it returns no key and
    no model and has left the environment as it was. This holds with and
    without prompting, whatever the user types. *)
Theorem validate_api_key_postcondition
        environ interactive answers after check :
  validate_api_key environ interactive answers = (after, Ok check) ->
  (key_ok check = true ->
   exists key,
     key_value check = Some key /\ key <> ""
     /\ (after "GOOGLE_API_KEY" = Some key \/ after "OPENAI_API_KEY" = Some key)
     /\ key_model check = Some (get_recommended_model_for_provider after))
  /\ (key_ok check = false ->
      key_value check = None /\ key_model check = None /\ after = environ).
Proof.
unfold validate_api_key. intros H.
assert (Hno : key_check_holds environ environ (MkKeyCheck false None None)).
{ split; simpl; [discriminate|auto]. }
destruct (or_else (environ "GOOGLE_API_KEY") (environ "OPENAI_API_KEY"))
  as [k|] eqn:Hor.
- destruct (truthy k) eqn:Hk.
  + inversion H; subst. split; simpl; [|discriminate].
    intros _. exists k. split; [reflexivity|].
    split; [now apply truthy_true_iff|]. split; [|reflexivity].
    unfold or_else in Hor.
    destruct (after "GOOGLE_API_KEY") as [g|] eqn:Hg.
    * destruct (truthy g); [left; exact Hor|right; exact Hor].
    * right. exact Hor.
  + destruct (negb interactive).
    * inversion H; subst. exact Hno.
    * now apply (ask_for_key_holds environ (length answers) answers).
- destruct (negb interactive).
  + inversion H; subst. exact Hno.
  + now apply (ask_for_key_holds environ (length answers) answers).
Qed.

Lemma validate_api_key_postcondition_witness :
  (true = true ->
   exists key,
     Some "sk-1" = Some key /\ key <> ""
     /\ (setenv Samples.no_keys "OPENAI_API_KEY" "sk-1" "GOOGLE_API_KEY" = Some key
         \/ setenv Samples.no_keys "OPENAI_API_KEY" "sk-1" "OPENAI_API_KEY"
            = Some key)
     /\ Some "gpt-3.5-turbo"
        = Some (get_recommended_model_for_provider
                  (setenv Samples.no_keys "OPENAI_API_KEY" "sk-1")))
  /\ (true = false ->
      Some "sk-1" = None /\ Some "gpt-3.5-turbo" = None
      /\ setenv Samples.no_keys "OPENAI_API_KEY" "sk-1" = Samples.no_keys).
Proof.
apply (validate_api_key_postcondition Samples.no_keys true
         ["3"; "y"; "2"; "  "; "YES"; " 2 "; " sk-1 "]
         (setenv Samples.no_keys "OPENAI_API_KEY" "sk-1")
         (MkKeyCheck true (Some "sk-1") (Some "gpt-3.5-turbo"))).
reflexivity.
Defined.

(** X28. With both keys set, key and model come from different
    providers: [validate_api_key] returns the Google key and recommends
    gpt-3.5-turbo without prompting; the [extract] command, left at its
    default model, switches to that model; and the extraction run then
    hands the Google key to the OpenAI model family. *)
Theorem both_keys_mix_providers
        env interactive answers google openai
        (text : string) prompt exs passes workers buffer :
  getenv env "GOOGLE_API_KEY" = Some google -> google <> "" ->
  getenv env "OPENAI_API_KEY" = Some openai -> openai <> "" ->
  validate_api_key (getenv env) interactive answers
  = (getenv env, Ok (MkKeyCheck true (Some google) (Some "gpt-3.5-turbo")))
  /\ effective_model "gemini-2.5-flash" (Some "gpt-3.5-turbo") = "gpt-3.5-turbo"
  /\ language_model_type
       (service_call env "gpt-3.5-turbo" text prompt exs passes workers buffer)
     = OpenAILanguageModel
  /\ api_key
       (service_call env "gpt-3.5-turbo" text prompt exs passes workers buffer)
     = Some google.
Proof.
intros Hg Hgne Ho Hone.
apply truthy_true_iff in Hgne, Hone.
split; [|split; [reflexivity|split; [reflexivity|]]].
- unfold validate_api_key, get_recommended_model_for_provider, env_set.
  rewrite Hg, Ho. unfold or_else. rewrite !Hgne, Hone. reflexivity.
- unfold service_call. cbn [api_key]. rewrite Hg, Ho.
  unfold or_else. now rewrite !Hgne.
Qed.

Lemma both_keys_mix_providers_witness :
  validate_api_key (getenv Samples.two_providers) false []
  = (getenv Samples.two_providers,
     Ok (MkKeyCheck true (Some "g-key") (Some "gpt-3.5-turbo")))
  /\ effective_model "gemini-2.5-flash" (Some "gpt-3.5-turbo") = "gpt-3.5-turbo"
  /\ language_model_type
       (service_call Samples.two_providers "gpt-3.5-turbo" "t" (PStr "p") []
                     (PInt 1) (PInt 10) (PInt 1000))
     = OpenAILanguageModel
  /\ api_key
       (service_call Samples.two_providers "gpt-3.5-turbo" "t" (PStr "p") []
                     (PInt 1) (PInt 10) (PInt 1000))
     = Some "g-key".
Proof.
apply (both_keys_mix_providers Samples.two_providers false [] "g-key" "o-key").
- reflexivity.
- discriminate.
- reflexivity.
- discriminate.
Defined.

End ApiKeys.

(** * Properties of the template registry and of the configuration *)

Section Registry.
Import PyVal Templates.

Lemma assoc_In_iff (k : string) (d : list (string * pyval)) :
  In k (map fst d) <-> exists v, assoc k d = Some v.
Proof.
induction d as [|[k' v'] d IH]; simpl.
- split; [intros []|intros [v H]; discriminate].
- destruct (String.eqb_spec k' k) as [->|Hne].
  + split; eauto.
  + rewrite <- IH. split; [intros [H|H]; [contradiction|exact H]|auto].
Qed.

(** X29. The names [list_templates] returns are exactly the names
    [get_template] resolves; any other name raises the error that quotes
    the name asked for and lists the names known. *)
Theorem listed_templates_resolve built_in_templates template_name :
  (In template_name (list_templates built_in_templates)
   <-> exists template,
        get_template built_in_templates template_name = Ok template)
  /\ (~ In template_name (list_templates built_in_templates) ->
      get_template built_in_templates template_name
      = Raise (Exn "ValueError"
                   ("Template '" ++ template_name ++ "' not found. Available: "
                      ++ repr_str_list (list_templates built_in_templates)))).
Proof.
unfold list_templates, get_template. split.
- rewrite assoc_In_iff. split.
  + intros [v ->]. eauto.
  + intros [t H]. destruct (assoc template_name built_in_templates); [eauto|].
    discriminate.
- intros Hnot. now rewrite assoc_None.
Qed.

Lemma listed_templates_resolve_witness :
  get_template Samples.registry "nonexistent_template"
  = Raise (Exn "ValueError"
               ("Template '" ++ "nonexistent_template" ++ "' not found. Available: "
                  ++ repr_str_list (list_templates Samples.registry))).
Proof.
apply (proj2 (listed_templates_resolve Samples.registry "nonexistent_template")).
simpl. intros [H|[H|[]]]; discriminate.
Defined.

End Registry.

Section Merge.
Import PyVal ConfigManager.

Lemma assoc_filter (keep : pyval -> bool) (k : string) (d : list (string * pyval)) :
  NoDup (map fst d) ->
  assoc k (filter (fun kv => keep (snd kv)) d)
  = match assoc k d with
    | Some v => if keep v then Some v else None
    | None => None
    end.
Proof.
induction d as [|[k' v'] d IH]; intros Hnd; [reflexivity|].
inversion Hnd as [|x l Hk Hnd']; subst. simpl.
destruct (String.eqb_spec k' k) as [->|Hne].
- destruct (keep v') eqn:E; simpl.
  + now rewrite String.eqb_refl.
  + apply assoc_None. intros Hin. apply Hk.
    apply in_map_iff in Hin. destruct Hin as [[k0 v0] [E0 Hin]].
    simpl in E0. subst k0. apply filter_In in Hin.
    apply in_map_iff. exists (k, v0). split; [reflexivity|tauto].
- destruct (keep v'); simpl.
  + destruct (String.eqb_spec k' k); [contradiction|now apply IH].
  + now apply IH.
Qed.

Lemma truth_not_none (v : pyval) : truth v = true -> is_none v = false.
Proof. destruct v; simpl; intros; congruence. Qed.

(** X30. In the merged settings a command-line value wins only when it is
    truthy: for template, custom_template, model, passes, workers, format
    and output, the merged value is the command line's value when that
    value is truthy, and otherwise the configured value (so 0, the empty
    string and a missing argument all fall back on the configuration);
    an entry whose value would be [None] is left out, so no merged entry
    is [None]. *)
Theorem merge_prefers_truthy_cli_values config cli_args :
  (forall name value,
      assoc name (merge_with_cli_args config cli_args) = Some value ->
      value <> PNone)
  /\ (forall name from_config,
         In (name, from_config) (configured config) ->
         assoc name (merge_with_cli_args config cli_args)
         = if truth (cli_get cli_args name)
           then Some (cli_get cli_args name)
           else if is_none from_config then None else Some from_config).
Proof.
assert (Hnd : forall vs : list pyval,
           length vs = 9 ->
           NoDup (map fst (combine
                             ["template"; "custom_template"; "model"; "passes";
                              "workers"; "format"; "output"; "visualize";
                              "verbose"] vs))).
{ intros vs Hlen.
  do 9 (destruct vs as [|? vs]; [discriminate|]).
  destruct vs; [|discriminate]. simpl.
  repeat constructor; simpl; intuition discriminate. }
unfold merge_with_cli_args. split.
- intros name value H.
  rewrite (assoc_filter (fun v => negb (is_none v))) in H
    by (apply (Hnd [_; _; _; _; _; _; _; _; _]); reflexivity).
  destruct (assoc name _) as [v|]; [|discriminate].
  destruct (is_none v) eqn:E; simpl in H; [discriminate|].
  inversion H; subst. intros ->. discriminate.
- intros name from_config Hin.
  rewrite (assoc_filter (fun v => negb (is_none v)))
    by (apply (Hnd [_; _; _; _; _; _; _; _; _]); reflexivity).
  unfold configured in Hin. simpl in Hin.
  destruct Hin as [E|[E|[E|[E|[E|[E|[E|[]]]]]]]]; inversion E; subst;
    simpl; unfold or_value;
    match goal with
    | |- context [truth ?c] =>
        destruct (truth c) eqn:Ht;
        [rewrite (truth_not_none _ Ht); reflexivity
        |match goal with
         | |- context [is_none ?v] => now destruct (is_none v)
         end]
    end.
Qed.

Lemma merge_prefers_truthy_cli_values_witness :
  assoc "passes"
        (merge_with_cli_args Samples.two_pass_config
                             [("passes", PInt 0); ("model", PStr "gpt-4")])
  = if truth (cli_get [("passes", PInt 0); ("model", PStr "gpt-4")] "passes")
    then Some (cli_get [("passes", PInt 0); ("model", PStr "gpt-4")] "passes")
    else if is_none (PInt 2) then None else Some (PInt 2).
Proof.
apply (proj2 (merge_prefers_truthy_cli_values
                Samples.two_pass_config
                [("passes", PInt 0); ("model", PStr "gpt-4")])
         "passes" (PInt 2)).
simpl. tauto.
Defined.

End Merge.

(** * Runs of the utilities, as in the repository's tests *)

Section UtilityRuns.
Import PyVal Utils.

Example sanitize_replaces_brackets :
  sanitize_filename "file<>name.pdf" = "file__name.pdf".
Proof. reflexivity. Qed.

Example sanitize_replaces_bar_and_question_mark :
  sanitize_filename "file|name?.pdf" = "file_name_.pdf".
Proof. reflexivity. Qed.

Example sanitize_cuts_long_name :
  String.length (sanitize_filename (Samples.long_stem ++ ".pdf")) = 200
  /\ drop 196 (sanitize_filename (Samples.long_stem ++ ".pdf")) = ".pdf".
Proof. split; vm_compute; reflexivity. Qed.

Example splitext_takes_last_dot : splitext "a.tar.gz" = ("a.tar", ".gz").
Proof. reflexivity. Qed.

Example splitext_skips_leading_dots : splitext ".bashrc" = (".bashrc", "").
Proof. reflexivity. Qed.

Example splitext_looks_at_last_component : splitext "v1.2/readme" = ("v1.2/readme", "").
Proof. reflexivity. Qed.

Example validate_accepts_upper_case : validate_output_format "CSV" = Ok "csv".
Proof. reflexivity. Qed.

Example validate_trims : validate_output_format "  JSONL  " = Ok "jsonl".
Proof. reflexivity. Qed.

Example validate_refuses_unknown :
  validate_output_format "invalid_format"
  = Raise (Exn "ValueError"
               "Unsupported format: invalid_format. Supported: ['json', 'jsonl', 'csv', 'html']").
Proof. reflexivity. Qed.

Example prompt_until_key :
  validate_api_key Samples.no_keys true ["1"; ""; "y"; "2"; "sk-1"]
  = (setenv Samples.no_keys "OPENAI_API_KEY" "sk-1",
     Ok (MkKeyCheck true (Some "sk-1") (Some "gpt-3.5-turbo"))).
Proof. reflexivity. Qed.

Example prompt_given_up :
  validate_api_key Samples.no_keys true ["7"; "no"]
  = (Samples.no_keys, Ok (MkKeyCheck false None None)).
Proof. reflexivity. Qed.

Example missing_directory :
  find_pdf_files Samples.inbox "nowhere"
  = Raise (Exn "FileNotFoundError" "Directory not found: nowhere").
Proof. reflexivity. Qed.

End UtilityRuns.
